(** * Command Center gateway: a shallow embedding of [src/index.ts]

    The worker is one [fetch] entry point that dispatches on the request
    path to seven handlers.  Each handler is an [async] function: it reads
    the JSON body of the request, calls upstream services ([fetch] followed
    by [r.json()]), the D1 binding, [crypto], [Date] and [console], and
    builds its answer with [json].

    The embedding has three layers:
    - JavaScript values as they come out of [JSON.parse], with the
      conversions the source applies to them ([ToString], [ToNumber],
      [ToBoolean], property reads, [JSON.stringify]);
    - a small free monad [Prog] over the calls the worker makes to its
      environment, with exceptions, an execution relation and a runner;
    - the handlers, written in that monad statement by statement. *)

From Stdlib Require Import ZArith List String Ascii Bool Lia DecimalString.
From Stdlib Require Import Floats.SpecFloat.
Import ListNotations.
Open Scope string_scope.

Set Warnings "-register-all".

(** ** Numbers: IEEE 754 binary64, on [SpecFloat] *)

Module Number.

Definition prec : Z := 53.
Definition emax : Z := 1024.

(** The Number nearest to an integer (exact below [2^53]). *)
Definition of_Z (z : Z) : spec_float := binary_normalize prec emax z 0 false.

Definition mul : spec_float -> spec_float -> spec_float := SFmul prec emax.
Definition div : spec_float -> spec_float -> spec_float := SFdiv prec emax.

(** The Number a decimal literal [n / 10^k] denotes in a JSON text: the
    binary64 value nearest to it.  Numerator and denominator are exact
    Numbers for the literals used here, and IEEE division rounds the
    exact quotient correctly, so the quotient is that nearest value. *)
Definition decimal (n : Z) (k : nat) : spec_float :=
  div (of_Z n) (of_Z (10 ^ Z.of_nat k)).

Definition is_finite (x : spec_float) : bool :=
  match x with
  | S754_zero _ | S754_finite _ _ _ => true
  | S754_infinity _ | S754_nan => false
  end.

(** [floor (x + 1/2)] for the finite value [(-1)^s * m * 2^e], [e < 0],
    computed on integers. *)
Definition round_half_up (s : bool) (m : positive) (e : Z) : Z :=
  ((2 * cond_Zopp s (Zpos m) + 2 ^ (- e)) / 2 ^ (1 - e))%Z.

(** [Math.round]: the integral Number closest to [x], ties going towards
    plus infinity; NaN, infinities, zeros and integral values are
    returned as they are; a result of zero keeps the sign of [x]. *)
Definition Math_round (x : spec_float) : spec_float :=
  match x with
  | S754_finite s m e =>
      if (0 <=? e)%Z then x
      else
        let n := round_half_up s m e in
        if (n =? 0)%Z then S754_zero s else of_Z n
  | _ => x
  end.

(** The integer a Number is, when it is one. *)
Definition integer_value (x : spec_float) : option Z :=
  match x with
  | S754_zero _ => Some 0%Z
  | S754_finite s m e =>
      if (0 <=? e)%Z then Some (cond_Zopp s (Zpos m * 2 ^ e))
      else if (Zpos m mod 2 ^ (- e) =? 0)%Z
           then Some (cond_Zopp s (Zpos m / 2 ^ (- e)))
           else None
  | _ => None
  end.

Definition string_of_Z (z : Z) : string := NilZero.string_of_int (Z.to_int z).

(** The integer [c] converts to the integral Number of value [z]: [z] is
    the Number nearest to [c], a tie going to the even significand. *)
Definition converts_to (c z : Z) : bool :=
  match integer_value (of_Z c) with
  | Some v => (v =? z)%Z
  | None => false
  end.

(** The digits [Number::toString] writes for an integral Number of value
    [z > 0]: the integer with the fewest significant digits that converts
    to that Number, so the multiple of the largest power of ten that does
    (of [10^j], [j] counting down), and of the two around [z] the nearer.
    Up to [2^53] every integer is a Number and the result is [z]. *)
Fixpoint shortest (j : nat) (z : Z) : Z :=
  match j with
  | O => z
  | S j' =>
      let p := (10 ^ Z.of_nat j)%Z in
      let lo := (z / p * p)%Z in
      let hi := (lo + p)%Z in
      if converts_to lo z
      then if converts_to hi z && (hi - z <? z - lo)%Z then hi else lo
      else if converts_to hi z then hi
      else shortest j' z
  end.

Definition integer_digits (z : Z) : string :=
  string_of_Z (Z.sgn z * shortest 21 (Z.abs z)).

(** [Number::toString] in radix 10.  An integral value below [10^21]
    prints as the shortest digits that convert back to it, padded with
    zeros ([2^63] prints as [9223372036854776000]); the digit generation
    for the other finite values is the platform's ([fraction_digits]). *)
Definition toString (fraction_digits : spec_float -> string)
           (x : spec_float) : string :=
  match x with
  | S754_nan => "NaN"
  | S754_infinity false => "Infinity"
  | S754_infinity true => "-Infinity"
  | _ =>
      match integer_value x with
      | Some z => if (Z.abs z <? 10 ^ 21)%Z then integer_digits z
                  else fraction_digits x
      | None => fraction_digits x
      end
  end.

End Number.

(** ** Strings: the operations the router applies to the path *)

Module Str.

(** [c] is matched by the class [[\w-]]. *)
Definition word_or_dash (c : ascii) : bool :=
  let n := nat_of_ascii c in
  (((65 <=? n) && (n <=? 90)) || ((97 <=? n) && (n <=? 122))
   || ((48 <=? n) && (n <=? 57)) || (n =? 95) || (n =? 45))%nat.

Fixpoint all_chars (p : ascii -> bool) (s : string) : bool :=
  match s with
  | EmptyString => true
  | String c r => p c && all_chars p r
  end.

(** [s.startsWith(p)] *)
Definition startsWith (s p : string) : bool := String.prefix p s.

(** What follows the prefix [p] in [s], when [s] starts with [p]. *)
Fixpoint strip_prefix (p s : string) : option string :=
  match p, s with
  | EmptyString, _ => Some s
  | String a p', String b s' =>
      if Ascii.eqb b a then strip_prefix p' s' else None
  | String _ _, EmptyString => None
  end.

(** [s.match(/^<p>[\w-]+$/)] for a literal prefix [p]: the rest of the
    string is not empty and made of word characters and dashes. *)
Definition match_prefix_word (p s : string) : bool :=
  match strip_prefix p s with
  | Some EmptyString => false
  | Some rest => all_chars word_or_dash rest
  | None => false
  end.

(** [s.split(sep)] for a one-character separator. *)
Fixpoint split (sep : ascii) (s : string) : list string :=
  match s with
  | EmptyString => [EmptyString]
  | String c r =>
      if Ascii.eqb c sep then EmptyString :: split sep r
      else match split sep r with
           | piece :: pieces => String c piece :: pieces
           | [] => [String c EmptyString]
           end
  end.

(** The characters of a string, each as a string ([for ... of] on a
    string yields them one by one). *)
Fixpoint chars (s : string) : list string :=
  match s with
  | EmptyString => []
  | String c r => String c EmptyString :: chars r
  end.

End Str.

(** ** JavaScript values *)

(** The values [JSON.parse] builds, and [undefined].  An object keeps its
    properties in insertion order. *)
Inductive JSVal : Type :=
| JUndefined
| JNull
| JBool (b : bool)
| JNum (x : spec_float)
| JStr (s : string)
| JArr (items : list JSVal)
| JObj (props : list (string * JSVal)).

Inductive Err : Type :=
| TypeError
| SyntaxError
| InvalidCharacterError
| OtherError (message : string).

(** What this development takes from the JavaScript platform without
    spelling it out. *)
Class Platform : Type := {
  (** digit generation of [Number::toString] for the values that are not
      integers below [10^21] *)
  fraction_digits : spec_float -> string;
  (** [StringToNumber] *)
  StringToNumber : string -> spec_float;
  (** [btoa] of a string; [None] when it throws [InvalidCharacterError]
      (a character above U+00FF) *)
  btoa_string : string -> option string
}.

Definition JNumZ (z : Z) : JSVal := JNum (Number.of_Z z).

(** [ToBoolean] *)
Definition ToBoolean (v : JSVal) : bool :=
  match v with
  | JUndefined | JNull => false
  | JBool b => b
  | JNum (S754_zero _) | JNum S754_nan => false
  | JNum _ => true
  | JStr s => negb (s =? "")
  | JArr _ | JObj _ => true
  end.

(** [a || b] *)
Definition or_else (a b : JSVal) : JSVal := if ToBoolean a then a else b.

Definition is_nullish (v : JSVal) : bool :=
  match v with
  | JUndefined | JNull => true
  | _ => false
  end.

Definition is_undefined (v : JSVal) : bool :=
  match v with
  | JUndefined => true
  | _ => false
  end.

(** [v === s] for a string literal [s] *)
Definition strict_eq_string (v : JSVal) (s : string) : bool :=
  match v with
  | JStr t => t =? s
  | _ => false
  end.

(** The own property [k] of an object, [undefined] when there is none. *)
Fixpoint own_property (props : list (string * JSVal)) (k : string) : JSVal :=
  match props with
  | [] => JUndefined
  | (k', v) :: rest => if k' =? k then v else own_property rest k
  end.

(** [v.k] for the property names the source reads.  None of them is
    defined by a prototype, so the read finds an own property of an
    object or nothing; on [null] and [undefined] it throws. *)
Definition Get (v : JSVal) (k : string) : option JSVal :=
  match v with
  | JUndefined | JNull => None
  | JObj props => Some (own_property props k)
  | _ => Some JUndefined
  end.

(** [o.k = v] on an object literal of the handler. *)
Fixpoint set_property (props : list (string * JSVal)) (k : string) (v : JSVal)
  : list (string * JSVal) :=
  match props with
  | [] => [(k, v)]
  | (k', v') :: rest =>
      if k' =? k then (k', v) :: rest else (k', v') :: set_property rest k v
  end.

(** The values [for (const x of v)] goes through; [None] when [v] is not
    iterable. *)
Definition iterate (v : JSVal) : option (list JSVal) :=
  match v with
  | JArr items => Some items
  | JStr s => Some (map JStr (Str.chars s))
  | _ => None
  end.

(** *** JSON.stringify *)

(** The value [JSON.stringify] writes for [v]: a property whose value is
    [undefined] is left out, [undefined] in an array and a Number that is
    not finite are written as [null]. *)
Fixpoint JSON_value (v : JSVal) : JSVal :=
  match v with
  | JNum x => if Number.is_finite x then v else JNull
  | JArr items =>
      JArr (map (fun e => match e with
                          | JUndefined => JNull
                          | _ => JSON_value e
                          end) items)
  | JObj props =>
      JObj ((fix members (ps : list (string * JSVal)) : list (string * JSVal) :=
               match ps with
               | [] => []
               | (k, e) :: rest =>
                   match e with
                   | JUndefined => members rest
                   | _ => (k, JSON_value e) :: members rest
                   end
               end) props)
  | _ => v
  end.

(** A JSON text: the document and the [space] argument it was written
    with.  [space = 2] is the pretty-printed form. *)
Record JsonText : Type := { space : nat; document : JSVal }.

(** [JSON.stringify(v, null, space)]; [undefined] for [undefined]. *)
Definition JSON_stringify (v : JSVal) (sp : nat) : option JsonText :=
  match v with
  | JUndefined => None
  | _ => Some {| space := sp; document := JSON_value v |}
  end.

Section Conversions.
Context {P : Platform}.

(** [ToString].  [None] is a thrown [TypeError].  An array is joined with
    commas, [null] and [undefined] elements giving the empty string.  An
    object goes through [ToPrimitive]: a parsed object has no callable
    property, so an own [toString] hides the inherited method and the
    conversion throws; without one the inherited method answers. *)
Fixpoint ToString (v : JSVal) : option string :=
  match v with
  | JUndefined => Some "undefined"
  | JNull => Some "null"
  | JBool true => Some "true"
  | JBool false => Some "false"
  | JNum x => Some (Number.toString fraction_digits x)
  | JStr s => Some s
  | JArr items =>
      (fix join (l : list JSVal) : option string :=
         match l with
         | [] => Some ""
         | e :: rest =>
             let head := match e with
                         | JUndefined | JNull => Some ""
                         | _ => ToString e
                         end in
             match rest with
             | [] => head
             | _ :: _ =>
                 match head, join rest with
                 | Some a, Some b => Some (a ++ "," ++ b)
                 | _, _ => None
                 end
             end
         end) items
  | JObj props =>
      if existsb (fun p => fst p =? "toString") props then None
      else Some "[object Object]"
  end.

(** [ToNumber].  An array or object is converted to a string first: the
    inherited [valueOf] returns the object itself, an own one is not
    callable. *)
Definition ToNumber (v : JSVal) : option spec_float :=
  match v with
  | JUndefined => Some S754_nan
  | JNull => Some (S754_zero false)
  | JBool true => Some (Number.of_Z 1)
  | JBool false => Some (S754_zero false)
  | JNum x => Some x
  | JStr s => Some (StringToNumber s)
  | JArr _ | JObj _ => option_map StringToNumber (ToString v)
  end.

End Conversions.

(** ** Requests, responses and the calls to the environment *)

(** The worker's bindings.  [CONTINUITY_DB] is the D1 binding; the calls
    on it are effects below. *)
Record Env : Type := {
  GITHUB_TOKEN : string;
  STRIPE_SECRET_KEY : string;
  HF_TOKEN : string;
  CLOUDFLARE_API_TOKEN : string;
  CLOUDFLARE_ACCOUNT_ID : string
}.

(** An inbound request: its method, the [pathname] and the search
    parameters of its URL, and what [request.json()] resolves to ([None]
    when the body is not a JSON text and the promise rejects). *)
Record Request : Type := {
  method : string;
  pathname : string;
  searchParams : list (string * string);
  json_body : option JSVal
}.

Record Response : Type := {
  status : nat;
  headers : list (string * string);
  payload : option JsonText
}.

(** The body of an upstream request: a JSON text, or the pairs a
    [URLSearchParams] serializes as [application/x-www-form-urlencoded]. *)
Inductive Body : Type :=
| BodyJson (text : JsonText)
| BodyForm (pairs : list (string * string)).

Record RequestInit : Type := {
  init_method : option string;
  init_headers : list (string * string);
  init_body : option Body
}.

Definition no_options : RequestInit :=
  {| init_method := None; init_headers := []; init_body := None |}.

(** How a promise of the environment settles. *)
Inductive Completion : Type :=
| Fulfilled (v : JSVal)
| Failed (e : Err).

(** A value bound to a prepared statement. *)
Inductive SqlArg : Type :=
| ArgValue (v : JSVal)
| ArgText (text : JsonText).

(** The calls the worker makes, indexed by the type of their answer. *)
Inductive Eff : Type -> Type :=
| Fetch (url : string) (init : RequestInit) : Eff Completion
    (* fetch(url, init).then(r => r.json()) *)
| D1_all (sql : string) (args : list SqlArg) : Eff Completion
| D1_first (sql : string) (args : list SqlArg) : Eff Completion
| D1_run (sql : string) (args : list SqlArg) : Eff Completion
| RandomUUID : Eff string
| Date_toISOString : Eff string
| Console_log (line : string) : Eff unit.

(** ** Programs *)

Inductive Prog (A : Type) : Type :=
| Ret (a : A)
| Throw (e : Err)
| Vis (X : Type) (call : Eff X) (k : X -> Prog A).

Arguments Ret {A} a.
Arguments Throw {A} e.
Arguments Vis {A X} call k.

Fixpoint bind {A B : Type} (p : Prog A) (f : A -> Prog B) : Prog B :=
  match p with
  | Ret a => f a
  | Throw e => Throw e
  | Vis call k => Vis call (fun x => bind (k x) f)
  end.

Declare Scope prog_scope.
Delimit Scope prog_scope with prog.
Notation "x <- c1 ;; c2" := (bind c1 (fun x => c2))
  (at level 61, c1 at next level, right associativity) : prog_scope.
Notation "c1 ;; c2" := (bind c1 (fun _ => c2))
  (at level 61, right associativity) : prog_scope.
Open Scope prog_scope.

(** [try { p } catch (e) { h e }] *)
Fixpoint try_catch {A : Type} (p : Prog A) (h : Err -> Prog A) : Prog A :=
  match p with
  | Ret a => Ret a
  | Throw e => h e
  | Vis call k => Vis call (fun x => try_catch (k x) h)
  end.

Definition perform {X : Type} (call : Eff X) : Prog X := Vis call Ret.

(** [await] of a promise of the environment. *)
Definition await (call : Eff Completion) : Prog JSVal :=
  Vis call (fun c => match c with
                     | Fulfilled v => Ret v
                     | Failed e => Throw e
                     end).

Definition lift {A : Type} (e : Err) (o : option A) : Prog A :=
  match o with
  | Some a => Ret a
  | None => Throw e
  end.

Fixpoint map_option {A B : Type} (f : A -> option B) (l : list A)
  : option (list B) :=
  match l with
  | [] => Some []
  | a :: rest =>
      match f a, map_option f rest with
      | Some b, Some bs => Some (b :: bs)
      | _, _ => None
      end
  end.

(** *** Executions *)

Inductive Outcome (A : Type) : Type :=
| Returned (a : A)
| Rejected (e : Err).

Arguments Returned {A} a.
Arguments Rejected {A} e.

(** One call and the answer it got. *)
Inductive Event : Type :=
| Called (X : Type) (call : Eff X) (answer : X).

Arguments Called {X} call answer.

(** [Exec p tr o]: [p] can make the calls of [tr], get their answers, and
    end in [o].  The environment is free to answer anything. *)
Fixpoint Exec {A : Type} (p : Prog A) (tr : list Event) (o : Outcome A) : Prop :=
  match p with
  | Ret a => tr = [] /\ o = Returned a
  | Throw e => tr = [] /\ o = Rejected e
  | Vis call k => exists x tr', tr = Called call x :: tr' /\ Exec (k x) tr' o
  end.

(** An environment that answers each call from the call alone: asked
    the same twice, it answers the same.  ([Machine] below is the
    environment with a state; what holds of every environment is stated
    on [Exec].) *)
Definition World : Type := forall X : Type, Eff X -> X.

Fixpoint run {A : Type} (w : World) (p : Prog A) : list Event * Outcome A :=
  match p with
  | Ret a => ([], Returned a)
  | Throw e => ([], Rejected e)
  | Vis call k =>
      let x := w _ call in
      let (tr, o) := run w (k x) in
      (Called call x :: tr, o)
  end.

(** An environment with a state: what it answers may depend on the calls
    made before (a clock that advances). *)
Record Machine : Type := {
  machine_state : Type;
  respond : forall X : Type, machine_state -> Eff X -> X * machine_state
}.

Fixpoint play {A : Type} (M : Machine) (s : machine_state M) (p : Prog A)
  : list Event * Outcome A :=
  match p with
  | Ret a => ([], Returned a)
  | Throw e => ([], Rejected e)
  | Vis call k =>
      let (x, s') := respond M _ s call in
      let (tr, o) := play M s' (k x) in
      (Called call x :: tr, o)
  end.

(** The upstream HTTP requests of a trace, in order. *)
Fixpoint upstream_calls (tr : list Event) : list (string * RequestInit) :=
  match tr with
  | [] => []
  | Called call _ :: rest =>
      match call with
      | Fetch url init => (url, init) :: upstream_calls rest
      | _ => upstream_calls rest
      end
  end.

(** Every value [p] can return satisfies [Q], whatever the environment
    answers. *)
Fixpoint AllReturns {A : Type} (Q : A -> Prop) (p : Prog A) : Prop :=
  match p with
  | Ret a => Q a
  | Throw _ => True
  | Vis call k => forall x, AllReturns Q (k x)
  end.

(** Every call [p] can make satisfies [Q], whatever the environment
    answers. *)
Fixpoint AllCalls {A : Type} (Q : forall X : Type, Eff X -> Prop) (p : Prog A)
  : Prop :=
  match p with
  | Ret _ => True
  | Throw _ => True
  | Vis call k => Q _ call /\ forall x, AllCalls Q (k x)
  end.

(** ** The response envelope *)

(** [corsHeaders] *)
Definition corsHeaders : list (string * string) :=
  [ ("Access-Control-Allow-Origin", "*");
    ("Access-Control-Allow-Methods", "GET, POST, PUT, DELETE, OPTIONS");
    ("Access-Control-Allow-Headers", "Content-Type, Authorization, X-API-Key") ].

(** [{ ...corsHeaders, 'Content-Type': 'application/json' }] *)
Definition json_headers : list (string * string) :=
  (corsHeaders ++ [("Content-Type", "application/json")])%list.

(** [json(data, status)] *)
Definition json (data : JSVal) (st : nat) : Response :=
  {| status := st;
     headers := json_headers;
     payload := JSON_stringify data 2 |}.

(** [new Response(null, { headers: corsHeaders })] *)
Definition preflight : Response :=
  {| status := 200; headers := corsHeaders; payload := None |}.

(** ** Statements shared by the handlers *)

(** [await request.json()] *)
Definition request_json (request : Request) : Prog JSVal :=
  lift SyntaxError (json_body request).

(** [v.k]; a [TypeError] on [null] and [undefined]. *)
Definition prop (v : JSVal) (k : string) : Prog JSVal :=
  lift TypeError (Get v k).

(** The default [d] of a destructuring pattern replaces [undefined]. *)
Definition default_to (d x : JSVal) : JSVal :=
  match x with
  | JUndefined => d
  | _ => x
  end.

(** [const { k = d } = v] *)
Definition prop_default (v : JSVal) (k : string) (d : JSVal) : Prog JSVal :=
  x <- prop v k ;; Ret (default_to d x).

(** [v?.k] *)
Definition optional_prop (v : JSVal) (k : string) : JSVal :=
  match Get v k with
  | Some x => x
  | None => JUndefined
  end.

(** [v.map(f)]: only an array has a [map] to call. *)
Definition Array_map (v : JSVal) (f : JSVal -> option JSVal) : Prog JSVal :=
  match v with
  | JArr items =>
      match map_option f items with
      | Some out => Ret (JArr out)
      | None => Throw TypeError
      end
  | _ => Throw TypeError
  end.

(** [v?.map(f) || []] *)
Definition map_or_empty (v : JSVal) (f : JSVal -> option JSVal) : Prog JSVal :=
  if is_nullish v then Ret (JArr [])
  else mapped <- Array_map v f ;; Ret (or_else mapped (JArr [])).

(** The object [{ k1: o.f1, ... }] an arrow function projects out of [o]. *)
Fixpoint project (o : JSVal) (fields : list (string * string))
  : option JSVal :=
  match fields with
  | [] => Some (JObj [])
  | (k, f) :: rest =>
      match Get o f, project o rest with
      | Some x, Some (JObj props) => Some (JObj ((k, x) :: props))
      | _, _ => None
      end
  end.

(** [path.split('/')[i]], read after the pattern of the route matched, so
    that the piece is there; a missing piece would splice as
    ["undefined"]. *)
Definition segment (path : string) (i : nat) : string :=
  match nth_error (Str.split "/" path) i with
  | Some s => s
  | None => "undefined"
  end.

(** [searchParams.get(k) || ''] *)
Fixpoint search_param (params : list (string * string)) (k : string) : string :=
  match params with
  | [] => ""
  | (k', v) :: rest => if k' =? k then v else search_param rest k
  end.

Definition str_list (l : list string) : JSVal := JArr (map JStr l).

Section Handlers.
Context {P : Platform}.

(** A value spliced into a template literal. *)
Definition spliced (v : JSVal) : Prog string := lift TypeError (ToString v).

(** [btoa(v)] *)
Definition btoa_call (v : JSVal) : Prog string :=
  s <- spliced v ;; lift InvalidCharacterError (btoa_string s).

(** [new URLSearchParams(record)]: every value is converted to a string,
    in property order. *)
Fixpoint URLSearchParams (record : list (string * JSVal))
  : Prog (list (string * string)) :=
  match record with
  | [] => Ret []
  | (k, v) :: rest =>
      s <- spliced v ;;
      pairs <- URLSearchParams rest ;;
      Ret ((k, s) :: pairs)
  end.

(** *** GitHub *)

(** The options [gh] passes to [fetch]: the caller's, with the three
    headers of the adapter before the caller's own. *)
Definition gh_init (env : Env) (options : RequestInit) : RequestInit :=
  {| init_method := init_method options;
     init_headers :=
       [ ("Authorization", "token " ++ GITHUB_TOKEN env);
         ("Accept", "application/vnd.github.v3+json");
         ("User-Agent", "BlackRoad-Command-Center") ]
       ++ init_headers options;
     init_body := init_body options |}.

Definition gh (env : Env) (endpoint : string) (options : RequestInit)
  : Prog JSVal :=
  await (Fetch ("https://api.github.com" ++ endpoint) (gh_init env options)).

(** [`/repos/${org}/${repo}/contents/${filePath}`] *)
Definition contents_endpoint (org repo filePath : JSVal) : Prog string :=
  o <- spliced org ;;
  r <- spliced repo ;;
  f <- spliced filePath ;;
  Ret ("/repos/" ++ o ++ "/" ++ r ++ "/contents/" ++ f).

(** The body of the write call:
    [JSON.stringify({ message, content: encoded, sha })]. *)
Definition write_body (message : JSVal) (encoded : string) (sha : JSVal)
  : option Body :=
  option_map BodyJson
    (JSON_stringify
       (JObj [("message", message); ("content", JStr encoded); ("sha", sha)]) 0).

(** The pre-check of the file route: [sha] stays [undefined] when the
    lookup throws. *)
Definition existing_sha (env : Env) (org repo filePath : JSVal) : Prog JSVal :=
  try_catch
    (endpoint <- contents_endpoint org repo filePath ;;
     existing <- gh env endpoint no_options ;;
     prop existing "sha")
    (fun _ => Ret JUndefined).

Definition github_routes : list string :=
  ["/github/orgs"; "/github/repos/:org"; "/github/repo"; "/github/file"].

Definition handleGitHub (request : Request) (env : Env) (path : string)
  : Prog Response :=
  if (path =? "/github/orgs") && (method request =? "GET") then
    orgs <- gh env "/user/orgs?per_page=100" no_options ;;
    out <- Array_map orgs
             (fun o => project o [("name", "login"); ("url", "html_url")]) ;;
    Ret (json out 200)
  else if Str.match_prefix_word "/github/repos/" path
          && (method request =? "GET") then
    let org := segment path 3 in
    repos <- gh env ("/orgs/" ++ org ++ "/repos?per_page=100") no_options ;;
    out <- Array_map repos
             (fun r => project r [("name", "name"); ("url", "html_url");
                                  ("language", "language")]) ;;
    Ret (json out 200)
  else if (path =? "/github/repo") && (method request =? "POST") then
    body <- request_json request ;;
    org <- prop_default body "org" (JStr "BlackRoad-OS") ;;
    name <- prop body "name" ;;
    description <- prop_default body "description" (JStr "") ;;
    isPrivate <- prop_default body "private" (JBool false) ;;
    o <- spliced org ;;
    result <- gh env ("/orgs/" ++ o ++ "/repos")
                {| init_method := Some "POST";
                   init_headers := [];
                   init_body :=
                     option_map BodyJson
                       (JSON_stringify
                          (JObj [("name", name); ("description", description);
                                 ("private", isPrivate);
                                 ("auto_init", JBool true)]) 0) |} ;;
    url <- prop result "html_url" ;;
    rname <- prop result "name" ;;
    Ret (json (JObj [("created", JBool true); ("url", url); ("name", rname)]) 200)
  else if (path =? "/github/file") && (method request =? "POST") then
    body <- request_json request ;;
    org <- prop_default body "org" (JStr "BlackRoad-OS") ;;
    repo <- prop body "repo" ;;
    filePath <- prop body "path" ;;
    content <- prop body "content" ;;
    message <- prop_default body "message" (JStr "Update via Command Center") ;;
    encoded <- btoa_call content ;;
    sha <- existing_sha env org repo filePath ;;
    endpoint <- contents_endpoint org repo filePath ;;
    result <- gh env endpoint
                {| init_method := Some "PUT";
                   init_headers := [];
                   init_body := write_body message encoded sha |} ;;
    written <- prop result "content" ;;
    Ret (json (JObj [("success", JBool true);
                     ("url", optional_prop written "html_url")]) 200)
  else
    Ret (json (JObj [("error", JStr "Unknown GitHub route");
                     ("available", str_list github_routes)]) 404).

(** *** Stripe *)

(** The options [stripe] passes to [fetch]. *)
Definition stripe_init (env : Env) (method : string) (form : option Body)
  : RequestInit :=
  {| init_method := Some method;
     init_headers :=
       [ ("Authorization", "Bearer " ++ STRIPE_SECRET_KEY env);
         ("Content-Type", "application/x-www-form-urlencoded") ];
     init_body := form |}.

Definition stripe (env : Env) (endpoint method : string)
           (body : option (list (string * JSVal))) : Prog JSVal :=
  form <- match body with
          | Some record =>
              pairs <- URLSearchParams record ;; Ret (Some (BodyForm pairs))
          | None => Ret None
          end ;;
  await (Fetch ("https://api.stripe.com/v1" ++ endpoint)
           (stripe_init env method form)).

(** [Math.round(price * 100)] *)
Definition minor_units (price : JSVal) : Prog spec_float :=
  p <- lift TypeError (ToNumber price) ;;
  Ret (Number.Math_round (Number.mul p (Number.of_Z 100))).

(** [priceData], with [recurring[interval]] set when [recurring] is truthy. *)
Definition priceData (productId : JSVal) (unit_amount : spec_float)
           (currency recurring : JSVal) : list (string * JSVal) :=
  let base := [("product", productId); ("unit_amount", JNum unit_amount);
               ("currency", currency)] in
  if ToBoolean recurring
  then set_property base "recurring[interval]" recurring
  else base.

Definition stripe_routes : list string :=
  ["/stripe/products"; "/stripe/product"; "/stripe/customers"].

Definition handleStripe (request : Request) (env : Env) (path : string)
  : Prog Response :=
  if (path =? "/stripe/products") && (method request =? "GET") then
    products <- stripe env "/products?limit=100" "GET" None ;;
    data <- prop products "data" ;;
    Ret (json data 200)
  else if (path =? "/stripe/product") && (method request =? "POST") then
    body <- request_json request ;;
    name <- prop body "name" ;;
    description <- prop_default body "description" (JStr "") ;;
    price <- prop body "price" ;;
    currency <- prop_default body "currency" (JStr "usd") ;;
    recurring <- prop body "recurring" ;;
    product <- stripe env "/products" "POST"
                 (Some [("name", name); ("description", description)]) ;;
    productId <- prop product "id" ;;
    unit_amount <- minor_units price ;;
    priceObj <- stripe env "/prices" "POST"
                  (Some (priceData productId unit_amount currency recurring)) ;;
    priceId <- prop priceObj "id" ;;
    link <- stripe env "/payment_links" "POST"
              (Some [("line_items[0][price]", priceId);
                     ("line_items[0][quantity]", JNumZ 1)]) ;;
    productName <- prop product "name" ;;
    url <- prop link "url" ;;
    Ret (json (JObj [("product", JObj [("id", productId); ("name", productName)]);
                     ("price", JObj [("id", priceId); ("amount", price);
                                     ("currency", currency)]);
                     ("payment_link", url)]) 200)
  else if (path =? "/stripe/customers") && (method request =? "GET") then
    customers <- stripe env "/customers?limit=100" "GET" None ;;
    data <- prop customers "data" ;;
    out <- Array_map data
             (fun c => project c [("id", "id"); ("email", "email");
                                  ("name", "name")]) ;;
    Ret (json out 200)
  else
    Ret (json (JObj [("error", JStr "Unknown Stripe route");
                     ("available", str_list stripe_routes)]) 404).

(** *** HuggingFace *)

Definition hf (env : Env) (endpoint : string) : Prog JSVal :=
  await (Fetch ("https://huggingface.co/api" ++ endpoint)
           {| init_method := None;
              init_headers := [("Authorization", "Bearer " ++ HF_TOKEN env)];
              init_body := None |}).

Definition hf_routes : list string := ["/hf/models?q="; "/hf/spaces?q="].

Definition handleHuggingFace (request : Request) (env : Env) (path : string)
  : Prog Response :=
  if (path =? "/hf/models") && (method request =? "GET") then
    let search := search_param (searchParams request) "q" in
    models <- hf env ("/models?search=" ++ search ++ "&limit=20") ;;
    out <- Array_map models
             (fun m => project m [("id", "id"); ("downloads", "downloads");
                                  ("likes", "likes")]) ;;
    Ret (json out 200)
  else if (path =? "/hf/spaces") && (method request =? "GET") then
    let search := search_param (searchParams request) "q" in
    spaces <- hf env ("/spaces?search=" ++ search ++ "&limit=20") ;;
    Ret (json spaces 200)
  else
    Ret (json (JObj [("error", JStr "Unknown HF route");
                     ("available", str_list hf_routes)]) 404).

(** *** Cloudflare *)

(** The request [cf] sends for an endpoint of the account. *)
Definition cf_call (env : Env) (endpoint : string) : Eff Completion :=
  Fetch ("https://api.cloudflare.com/client/v4/accounts/"
         ++ CLOUDFLARE_ACCOUNT_ID env ++ endpoint)
    {| init_method := None;
       init_headers :=
         [("Authorization", "Bearer " ++ CLOUDFLARE_API_TOKEN env)];
       init_body := None |}.

Definition cf (env : Env) (endpoint : string) : Prog JSVal :=
  await (cf_call env endpoint).

(** One listing route: [result.result?.map(f) || []]. *)
Definition cf_listing (env : Env) (endpoint : string)
           (fields : list (string * string)) : Prog Response :=
  result <- cf env endpoint ;;
  list <- prop result "result" ;;
  out <- map_or_empty list (fun item => project item fields) ;;
  Ret (json out 200).

Definition cf_routes : list string := ["/cf/workers"; "/cf/kv"; "/cf/d1"].

Definition handleCloudflare (request : Request) (env : Env) (path : string)
  : Prog Response :=
  if (path =? "/cf/workers") && (method request =? "GET") then
    cf_listing env "/workers/scripts" [("name", "id"); ("modified", "modified_on")]
  else if (path =? "/cf/kv") && (method request =? "GET") then
    cf_listing env "/storage/kv/namespaces" [("id", "id"); ("title", "title")]
  else if (path =? "/cf/d1") && (method request =? "GET") then
    cf_listing env "/d1/database" [("id", "uuid"); ("name", "name")]
  else
    Ret (json (JObj [("error", JStr "Unknown CF route");
                     ("available", str_list cf_routes)]) 404).

(** *** Agents *)

Definition select_all : string := "SELECT * FROM agents LIMIT 100".
Definition select_by_id : string := "SELECT * FROM agents WHERE id = ?".
Definition insert_agent : string :=
  "INSERT INTO agents (id, name, type, capabilities, birthday, created_at) VALUES (?, ?, ?, ?, ?, ?)".

Definition json_arg (v : JSVal) : SqlArg :=
  match JSON_stringify v 0 with
  | Some text => ArgText text
  | None => ArgValue JUndefined
  end.

Definition agents_routes : list string := ["/agents"; "/agents/:id"].

Definition handleAgents (request : Request) (env : Env) (path : string)
  : Prog Response :=
  if (path =? "/agents") && (method request =? "GET") then
    result <- await (D1_all select_all []) ;;
    rows <- prop result "results" ;;
    Ret (json (or_else rows (JArr [])) 200)
  else if (path =? "/agents") && (method request =? "POST") then
    body <- request_json request ;;
    name <- prop body "name" ;;
    type <- prop_default body "type" (JStr "general") ;;
    capabilities <- prop_default body "capabilities" (JArr []) ;;
    birthday <- prop body "birthday" ;;
    id <- perform RandomUUID ;;
    born <- (if ToBoolean birthday then Ret birthday
             else now <- perform Date_toISOString ;; Ret (JStr now)) ;;
    created_at <- perform Date_toISOString ;;
    await (D1_run insert_agent
             [ArgValue (JStr id); ArgValue name; ArgValue type;
              json_arg capabilities; ArgValue born;
              ArgValue (JStr created_at)]) ;;
    Ret (json (JObj [("created", JBool true); ("id", JStr id); ("name", name)]) 200)
  else if Str.match_prefix_word "/agents/" path && (method request =? "GET") then
    let id := segment path 2 in
    result <- await (D1_first select_by_id [ArgValue (JStr id)]) ;;
    Ret (if ToBoolean result then json result 200
         else json (JObj [("error", JStr "Agent not found")]) 404)
  else
    Ret (json (JObj [("error", JStr "Unknown agents route");
                     ("available", str_list agents_routes)]) 404).

(** *** Notify *)

(** The loop over the channels: [results] is the object built so far. *)
Fixpoint notify_channels (message : JSVal) (channels : list JSVal)
         (results : list (string * JSVal)) : Prog (list (string * JSVal)) :=
  match channels with
  | [] => Ret results
  | channel :: rest =>
      if strict_eq_string channel "log" then
        text <- spliced message ;;
        perform (Console_log ("[NOTIFY] " ++ text)) ;;
        notify_channels message rest (set_property results "log" (JBool true))
      else notify_channels message rest results
  end.

Definition handleNotify (request : Request) (env : Env) (path : string)
  : Prog Response :=
  if negb (method request =? "POST") then
    Ret (json (JObj [("error", JStr "POST only")]) 405)
  else
    body <- request_json request ;;
    message <- prop body "message" ;;
    channels <- prop_default body "channels" (JArr [JStr "log"]) ;;
    items <- lift TypeError (iterate channels) ;;
    results <- notify_channels message items [] ;;
    Ret (json (JObj [("sent", JBool true); ("channels", JObj results)]) 200).

(** *** Stats *)

Definition handleStats (env : Env) : Prog Response :=
  timestamp <- perform Date_toISOString ;;
  Ret (json (JObj
    [ ("timestamp", JStr timestamp);
      ("github", JObj [("orgs", JNumZ 15); ("repos", JStr "315+")]);
      ("cloudflare", JObj [("workers", JNumZ 82); ("d1", JNumZ 11);
                           ("kv", JNumZ 20)]);
      ("stripe", JObj [("account", JStr "acct_1SUDM8ChUUSEbzyh")]);
      ("huggingface", JObj [("user", JStr "blackroadio")]) ]) 200).

(** *** The entry point *)

Definition known_prefixes : list string :=
  ["/github"; "/stripe"; "/hf"; "/cf"; "/agents"; "/notify"; "/stats"].

(** [fetch(request, env)].  Inside the [try] block every handler promise
    is returned without [await], so a rejection of a handler is not seen
    by the [catch] clause: it rejects the promise of [fetch], and the
    program ends in [Rejected].  What is left under the [try] (string
    tests and [json]) does not throw, and the clause has nothing to
    catch. *)
Definition fetch (request : Request) (env : Env) : Prog Response :=
  if method request =? "OPTIONS" then Ret preflight
  else
    let path := pathname request in
    if (path =? "/") || (path =? "/health") then
      Ret (json (JObj [("status", JStr "ok");
                       ("service", JStr "blackroad-command-center");
                       ("version", JStr "1.0.0")]) 200)
    else if Str.startsWith path "/github" then handleGitHub request env path
    else if Str.startsWith path "/stripe" then handleStripe request env path
    else if Str.startsWith path "/hf" then handleHuggingFace request env path
    else if Str.startsWith path "/cf" then handleCloudflare request env path
    else if Str.startsWith path "/agents" then handleAgents request env path
    else if Str.startsWith path "/notify" then handleNotify request env path
    else if path =? "/stats" then handleStats env
    else
      Ret (json (JObj [("error", JStr "Not found");
                       ("routes", str_list known_prefixes)]) 404).

End Handlers.

(** ** Environments that answer from the call alone *)

(** The surroundings of a run: what the upstream services answer, the rows
    of the [agents] table, and the values [crypto] and [Date] give. *)
Record Surroundings : Type := {
  upstream : string -> RequestInit -> Completion;
  agents_table : list JSVal;
  uuid : string;
  clock : string
}.

(** [row.id] is the text [id]. *)
Definition row_has_id (id : string) (row : JSVal) : bool :=
  strict_eq_string (optional_prop row "id") id.

(** What D1 answers to the two queries of the worker: [all()] resolves to
    an object whose [results] are the selected rows, [first()] to the
    first selected row or [null]. *)
Definition d1_all (table : list JSVal) (sql : string) (args : list SqlArg)
  : Completion :=
  if sql =? select_all
  then Fulfilled (JObj [("success", JBool true);
                        ("results", JArr (firstn 100 table))])
  else Failed (OtherError "D1_ERROR").

Definition d1_first (table : list JSVal) (sql : string) (args : list SqlArg)
  : Completion :=
  match args with
  | [ArgValue (JStr id)] =>
      if sql =? select_by_id
      then match find (row_has_id id) table with
           | Some row => Fulfilled row
           | None => Fulfilled JNull
           end
      else Failed (OtherError "D1_ERROR")
  | _ => Failed (OtherError "D1_ERROR")
  end.

(** The world of given surroundings.  It answers each call from the call
    alone: an insertion is acknowledged and the table stays as it is. *)
Definition world_of (s : Surroundings) : World :=
  fun X call =>
    match call in Eff T return T with
    | Fetch url init => upstream s url init
    | D1_all sql args => d1_all (agents_table s) sql args
    | D1_first sql args => d1_first (agents_table s) sql args
    | D1_run _ _ => Fulfilled (JObj [("success", JBool true)])
    | RandomUUID => uuid s
    | Date_toISOString => clock s
    | Console_log _ => tt
    end.

(** ** The route table, as the handlers test it *)

(** The five groups that answer an unknown route with their own list. *)
Inductive Group : Type := GitHub | Stripe | HuggingFace | Cloudflare | Agents.

Definition group_prefix (g : Group) : string :=
  match g with
  | GitHub => "/github"
  | Stripe => "/stripe"
  | HuggingFace => "/hf"
  | Cloudflare => "/cf"
  | Agents => "/agents"
  end.

Definition group_error (g : Group) : string :=
  match g with
  | GitHub => "Unknown GitHub route"
  | Stripe => "Unknown Stripe route"
  | HuggingFace => "Unknown HF route"
  | Cloudflare => "Unknown CF route"
  | Agents => "Unknown agents route"
  end.

(** The routes the 404 of a group lists. *)
Definition group_routes (g : Group) : list string :=
  match g with
  | GitHub =>
      ["/github/orgs"; "/github/repos/:org"; "/github/repo"; "/github/file"]
  | Stripe => ["/stripe/products"; "/stripe/product"; "/stripe/customers"]
  | HuggingFace => ["/hf/models?q="; "/hf/spaces?q="]
  | Cloudflare => ["/cf/workers"; "/cf/kv"; "/cf/d1"]
  | Agents => ["/agents"; "/agents/:id"]
  end.

(** The method and the test on the path of every route of a group. *)
Definition group_table (g : Group) : list (string * (string -> bool)) :=
  match g with
  | GitHub =>
      [ ("GET", fun path => path =? "/github/orgs");
        ("GET", Str.match_prefix_word "/github/repos/");
        ("POST", fun path => path =? "/github/repo");
        ("POST", fun path => path =? "/github/file") ]
  | Stripe =>
      [ ("GET", fun path => path =? "/stripe/products");
        ("POST", fun path => path =? "/stripe/product");
        ("GET", fun path => path =? "/stripe/customers") ]
  | HuggingFace =>
      [ ("GET", fun path => path =? "/hf/models");
        ("GET", fun path => path =? "/hf/spaces") ]
  | Cloudflare =>
      [ ("GET", fun path => path =? "/cf/workers");
        ("GET", fun path => path =? "/cf/kv");
        ("GET", fun path => path =? "/cf/d1") ]
  | Agents =>
      [ ("GET", fun path => path =? "/agents");
        ("POST", fun path => path =? "/agents");
        ("GET", Str.match_prefix_word "/agents/") ]
  end.

(** Some route of the group takes this method and path. *)
Definition routed (g : Group) (m path : string) : bool :=
  existsb (fun r => snd r path && (m =? fst r)) (group_table g).

(** The path is the health path or [/stats], or starts with the prefix of
    a handler. *)
Definition known_path (path : string) : bool :=
  (path =? "/") || (path =? "/health")
  || existsb (Str.startsWith path)
       ["/github"; "/stripe"; "/hf"; "/cf"; "/agents"; "/notify"]
  || (path =? "/stats").

(** The 404 of a group: [{ error, available }]. *)
Definition scoped_404 (g : Group) : Response :=
  json (JObj [("error", JStr (group_error g));
              ("available", str_list (group_routes g))]) 404.

(** The 405 of the notify handler. *)
Definition post_only : Response :=
  json (JObj [("error", JStr "POST only")]) 405.

(** The 404 of the entry point: [{ error, routes }]. *)
Definition global_404 : Response :=
  json (JObj [("error", JStr "Not found");
              ("routes", str_list known_prefixes)]) 404.

(** The body of a response that is the pretty-printed text of [doc]. *)
Definition pretty (doc : JSVal) : option JsonText :=
  Some {| space := 2; document := doc |}.

(** The documents of the three error responses of the router. *)
Definition not_found_document : JSVal :=
  JObj [("error", JStr "Not found");
        ("routes", JArr [JStr "/github"; JStr "/stripe"; JStr "/hf";
                         JStr "/cf"; JStr "/agents"; JStr "/notify";
                         JStr "/stats"])].

Definition unknown_route_document (g : Group) : JSVal :=
  JObj [("error", JStr (group_error g));
        ("available", JArr (map JStr (group_routes g)))].

Definition post_only_document : JSVal := JObj [("error", JStr "POST only")].

(** The world answers [c] to every request to [url] made with the method
    [m] ([None]: no method given, a GET). *)
Definition replies (w : World) (url : string) (m : option string)
           (c : Completion) : Prop :=
  forall init : RequestInit,
    init_method init = m -> w _ (Fetch url init) = c.

(** The marker the pre-check of the file route yields from the answer to
    its lookup: [undefined] when the lookup failed or its answer has no
    [sha]. *)
Definition precheck_sha (answer : Completion) : JSVal :=
  match answer with
  | Fulfilled existing => optional_prop existing "sha"
  | Failed _ => JUndefined
  end.

(** The handler [fetch] hands a path of the group to. *)
Definition group_handler {P : Platform} (g : Group)
  : Request -> Env -> string -> Prog Response :=
  match g with
  | GitHub => handleGitHub
  | Stripe => handleStripe
  | HuggingFace => handleHuggingFace
  | Cloudflare => handleCloudflare
  | Agents => handleAgents
  end.

(** *** The file route, read off the request *)

(** No [undefined] inside and every Number finite: a value that
    [JSON.parse] can have built. *)
Fixpoint is_json (v : JSVal) : bool :=
  match v with
  | JUndefined => false
  | JNum x => Number.is_finite x
  | JArr items => forallb is_json items
  | JObj props => forallb (fun p => is_json (snd p)) props
  | _ => true
  end.

(** The member [k] of a JSON object. *)
Definition member (doc : JSVal) (k : string) : option JSVal :=
  match doc with
  | JObj props => option_map snd (find (fun p => fst p =? k) props)
  | _ => None
  end.

(** The revision marker a write call carries: the member [sha] of its
    JSON body. *)
Definition marker (b : option Body) : option JSVal :=
  match b with
  | Some (BodyJson text) => member (document text) "sha"
  | _ => None
  end.

(** [const { k = d } = b], for [b] that is not [null]. *)
Definition field_or (b : JSVal) (k : string) (d : JSVal) : JSVal :=
  default_to d (optional_prop b k).

Section FileRoute.
Context {P : Platform}.

(** The template [`/repos/${org}/${repo}/contents/${filePath}`] as a
    value; [None] when a conversion throws. *)
Definition contents_path (org repo filePath : JSVal) : option string :=
  match ToString org, ToString repo, ToString filePath with
  | Some o, Some r, Some f =>
      Some ("/repos/" ++ o ++ "/" ++ r ++ "/contents/" ++ f)
  | _, _, _ => None
  end.

(** [btoa(v)] as a value; [None] when it throws. *)
Definition btoa (v : JSVal) : option string :=
  match ToString v with
  | Some s => btoa_string s
  | None => None
  end.

(** What the file route takes from a body: the endpoint of both calls,
    the message and the encoded content.  [None] when the body is not a
    JSON text or is [null], or when a conversion or [btoa] throws: the
    handler then rejects before its first call. *)
Definition file_request (request : Request) : option (string * JSVal * string) :=
  match json_body request with
  | Some b =>
      if is_nullish b then None
      else
        match btoa (optional_prop b "content"),
              contents_path (field_or b "org" (JStr "BlackRoad-OS"))
                (optional_prop b "repo") (optional_prop b "path") with
        | Some encoded, Some endpoint =>
            Some (endpoint,
                  field_or b "message" (JStr "Update via Command Center"),
                  encoded)
        | _, _ => None
        end
  | None => None
  end.

End FileRoute.

(** *** The product route, read off the request *)

(** The value of the first pair named [k] of a form. *)
Fixpoint form_value (pairs : list (string * string)) (k : string)
  : option string :=
  match pairs with
  | [] => None
  | (k', v) :: rest => if k' =? k then Some v else form_value rest k
  end.

Definition form_field (b : option Body) (k : string) : option string :=
  match b with
  | Some (BodyForm pairs) => form_value pairs k
  | _ => None
  end.

(** The pairs of [new URLSearchParams(record)] as a value; [None] when a
    conversion throws. *)
Fixpoint form_of {P : Platform} (record : list (string * JSVal))
  : option (list (string * string)) :=
  match record with
  | [] => Some []
  | (k, v) :: rest =>
      match ToString v, form_of rest with
      | Some s, Some pairs => Some ((k, s) :: pairs)
      | _, _ => None
      end
  end.

(** The request, had it been sent to [path]. *)
Definition at_path (request : Request) (path : string) : Request :=
  {| method := method request;
     pathname := path;
     searchParams := searchParams request;
     json_body := json_body request |}.

(** The property [k] of the JSON body of a request. *)
Definition request_field (request : Request) (k : string) : JSVal :=
  match json_body request with
  | Some b => optional_prop b k
  | None => JUndefined
  end.

(** The text of [Math.round(price * 100)] in a form; [None] when the
    conversion of [price] to a Number throws. *)
Definition unit_amount_text {P : Platform} (price : JSVal) : option string :=
  option_map
    (fun p => Number.toString fraction_digits
                (Number.Math_round (Number.mul p (Number.of_Z 100))))
    (ToNumber price).

Definition prices_url : string := "https://api.stripe.com/v1/prices".

(** A call to the prices endpoint carries the minor-unit amount of
    [price]. *)
Definition carries_unit_amount {P : Platform} (price : JSVal)
  : forall X : Type, Eff X -> Prop :=
  fun X call =>
    match call with
    | Fetch url init =>
        url = prices_url ->
        unit_amount_text price <> None
        /\ form_field (init_body init) "unit_amount" = unit_amount_text price
    | _ => True
    end.

(** [const { k = d } = body] on the JSON body of a request. *)
Definition request_field_or (request : Request) (k : string) (d : JSVal)
  : JSVal :=
  match json_body request with
  | Some b => field_or b k d
  | None => d
  end.

(** A request to the prices endpoint posts the form of [priceData]. *)
Definition posts_price_form {P : Platform} (request : Request)
  : forall X : Type, Eff X -> Prop :=
  fun X call =>
    match call with
    | Fetch url init =>
        url = prices_url ->
        init_method init = Some "POST"
        /\ exists pairs,
             init_body init = Some (BodyForm pairs)
             /\ form_value pairs "currency"
                = ToString (request_field_or request "currency" (JStr "usd"))
             /\ form_value pairs "recurring[interval]"
                = (if ToBoolean (request_field request "recurring")
                   then ToString (request_field request "recurring")
                   else None)
             /\ map fst pairs
                = (["product"; "unit_amount"; "currency"]
                   ++ (if ToBoolean (request_field request "recurring")
                       then ["recurring[interval]"] else []))%list
    | _ => True
    end.

(** *** The notify, agents and Cloudflare routes, read off the request *)

Definition is_log (channel : JSVal) : bool := strict_eq_string channel "log".

(** The [channels] object of the notify response: [log] is reported when
    the string ["log"] is among the channels asked for, and nothing else
    ever is. *)
Definition notify_results (channels : list JSVal) : list (string * JSVal) :=
  if existsb is_log channels then [("log", JBool true)] else [].


(** A response built by [json]. *)
Definition enveloped (r : Response) : Prop := exists data st, r = json data st.

(** ** A platform, bindings and requests to evaluate against *)

Module Base64.

Definition alphabet : string :=
  "ABCDEFGHIJKLMNOPQRSTUVWXYZabcdefghijklmnopqrstuvwxyz0123456789+/".

Definition digit (n : nat) : ascii :=
  match String.get n alphabet with
  | Some c => c
  | None => "="%char
  end.

(** Three bytes give four digits; the last group is padded with [=]. *)
Fixpoint encode (s : string) : string :=
  match s with
  | EmptyString => EmptyString
  | String a EmptyString =>
      let x := nat_of_ascii a in
      String (digit (x / 4)) (String (digit (x mod 4 * 16)) "==")
  | String a (String b EmptyString) =>
      let x := nat_of_ascii a in
      let y := nat_of_ascii b in
      String (digit (x / 4))
        (String (digit (x mod 4 * 16 + y / 16))
           (String (digit (y mod 16 * 4)) "="))
  | String a (String b (String c rest)) =>
      let x := nat_of_ascii a in
      let y := nat_of_ascii b in
      let z := nat_of_ascii c in
      String (digit (x / 4))
        (String (digit (x mod 4 * 16 + y / 16))
           (String (digit (y mod 16 * 4 + z / 64))
              (String (digit (z mod 64)) (encode rest))))
  end.

End Base64.

(** A platform for the examples.  Every character of a [string] is below
    U+0100, so [btoa] encodes; the examples convert no fractional Number
    to a string and no string to a Number, and the two stand-ins for
    those conversions are not reached. *)
Definition example_platform : Platform :=
  {| fraction_digits := fun _ => "";
     StringToNumber := fun _ => S754_nan;
     btoa_string := fun s => Some (Base64.encode s) |}.

(** Bindings and requests for the examples. *)
Definition example_env : Env :=
  {| GITHUB_TOKEN := "ghp_example";
     STRIPE_SECRET_KEY := "sk_example";
     HF_TOKEN := "hf_example";
     CLOUDFLARE_API_TOKEN := "cf_example";
     CLOUDFLARE_ACCOUNT_ID := "account" |}.

Definition bodyless (m path : string) : Request :=
  {| method := m; pathname := path; searchParams := []; json_body := None |}.

Definition with_body (m path : string) (b : JSVal) : Request :=
  {| method := m; pathname := path; searchParams := []; json_body := Some b |}.

(** The scenario of the README: [{"name": "Pro Plan", "price": 29.99,
    "recurring": "month"}]. *)
Definition pro_plan : Request :=
  with_body "POST" "/stripe/product"
    (JObj [("name", JStr "Pro Plan");
           ("price", JNum (Number.decimal 2999 2));
           ("recurring", JStr "month")]).

(** A POST of a form to the payments provider. *)
Definition form_post (env : Env) (pairs : list (string * string))
  : RequestInit :=
  {| init_method := Some "POST";
     init_headers :=
       [ ("Authorization", "Bearer " ++ STRIPE_SECRET_KEY env);
         ("Content-Type", "application/x-www-form-urlencoded") ];
     init_body := Some (BodyForm pairs) |}.

(** Stripe answering the three calls of the scenario. *)
Definition stripe_account : Surroundings :=
  {| upstream := fun url init =>
       if url =? "https://api.stripe.com/v1/products"
       then Fulfilled (JObj [("id", JStr "prod_1"); ("object", JStr "product");
                             ("name", JStr "Pro Plan")])
       else if url =? prices_url
       then Fulfilled (JObj [("id", JStr "price_1"); ("object", JStr "price")])
       else Fulfilled (JObj [("id", JStr "plink_1");
                             ("url", JStr "https://buy.stripe.com/test_1")]);
     agents_table := [];
     uuid := "00000000-0000-4000-8000-000000000000";
     clock := "2026-01-01T00:00:00.000Z" |}.

Definition file_example : Request :=
  with_body "POST" "/github/file"
    (JObj [("repo", JStr "docs"); ("path", JStr "a.txt");
           ("content", JStr "hello")]).

(** GitHub with the file present at revision [sha], or absent. *)
Definition github (sha : option string) : Surroundings :=
  {| upstream := fun url init =>
       match init_method init, sha with
       | None, Some s => Fulfilled (JObj [("name", JStr "a.txt"); ("sha", JStr s)])
       | None, None => Fulfilled (JObj [("message", JStr "Not Found")])
       | Some _, _ =>
           Fulfilled (JObj [("content",
                             JObj [("html_url", JStr "https://github.com/a")])])
       end;
     agents_table := [];
     uuid := "00000000-0000-4000-8000-000000000000";
     clock := "2026-01-01T00:00:00.000Z" |}.


(** A record store holding the given rows. *)
Definition registry (rows : list JSVal) : Surroundings :=
  {| upstream := fun url init => Failed TypeError;
     agents_table := rows;
     uuid := "00000000-0000-4000-8000-000000000000";
     clock := "2026-01-01T00:00:00.000Z" |}.

Definition atlas : JSVal :=
  JObj [("id", JStr "atlas-1"); ("name", JStr "Atlas");
        ("type", JStr "researcher"); ("capabilities", JStr "[]");
        ("birthday", JStr "2026-01-01T00:00:00.000Z");
        ("created_at", JStr "2026-01-01T00:00:00.000Z")].

Definition notify_example (channels : list JSVal) : Request :=
  with_body "POST" "/notify"
    (JObj [("message", JStr "deploy done"); ("channels", JArr channels)]).

(** ** Further readings of the handlers *)

(** *** The four upstream providers *)

Inductive Provider : Type := SourceControl | Payments | ModelHub | Infrastructure.

(** The path prefix under which the gateway serves a provider. *)
Definition provider_prefix (p : Provider) : string :=
  match p with
  | SourceControl => "/github"
  | Payments => "/stripe"
  | ModelHub => "/hf"
  | Infrastructure => "/cf"
  end.

(** The base URL of the adapter of a provider. *)
Definition provider_base (env : Env) (p : Provider) : string :=
  match p with
  | SourceControl => "https://api.github.com"
  | Payments => "https://api.stripe.com/v1"
  | ModelHub => "https://huggingface.co/api"
  | Infrastructure =>
      "https://api.cloudflare.com/client/v4/accounts/"
      ++ CLOUDFLARE_ACCOUNT_ID env
  end.

(** The headers the adapter of a provider sends. *)
Definition provider_headers (env : Env) (p : Provider)
  : list (string * string) :=
  match p with
  | SourceControl =>
      [ ("Authorization", "token " ++ GITHUB_TOKEN env);
        ("Accept", "application/vnd.github.v3+json");
        ("User-Agent", "BlackRoad-Command-Center") ]
  | Payments =>
      [ ("Authorization", "Bearer " ++ STRIPE_SECRET_KEY env);
        ("Content-Type", "application/x-www-form-urlencoded") ]
  | ModelHub => [("Authorization", "Bearer " ++ HF_TOKEN env)]
  | Infrastructure =>
      [("Authorization", "Bearer " ++ CLOUDFLARE_API_TOKEN env)]
  end.

(** An upstream request goes to the provider the path of the inbound
    request names, at an endpoint under the base URL of that provider,
    with the headers of that provider and no other. *)
Definition pinned (request : Request) (env : Env) (url : string)
           (init : RequestInit) : Prop :=
  exists (p : Provider) (endpoint : string),
    Str.startsWith (pathname request) (provider_prefix p) = true
    /\ url = provider_base env p ++ endpoint
    /\ Str.startsWith endpoint "/" = true
    /\ init_headers init = provider_headers env p.

(** A property of the upstream requests, as a property of calls. *)
Definition on_fetch (R : string -> RequestInit -> Prop)
  : forall X : Type, Eff X -> Prop :=
  fun X call =>
    match call with
    | Fetch url init => R url init
    | _ => True
    end.

(** A call that writes nothing: an upstream request without a body whose
    method is GET, a query of the record store, or a call to [crypto],
    [Date] or [console]. *)
Definition reads_only (X : Type) (call : Eff X) : Prop :=
  match call with
  | Fetch _ init =>
      init_body init = None
      /\ (init_method init = None \/ init_method init = Some "GET")
  | D1_run _ _ => False
  | _ => True
  end.

(** The calls of a trace, without their answers. *)
Definition on_calls (Q : forall X : Type, Eff X -> Prop) (ev : Event) : Prop :=
  match ev with
  | Called call _ => Q _ call
  end.

(** *** The route patterns *)

(** The prefixes [fetch] tests with [startsWith], in the order of the
    tests. *)
Definition handler_prefixes : list string :=
  ["/github"; "/stripe"; "/hf"; "/cf"; "/agents"; "/notify"].

(** The two routes with a path parameter: the literal part of the
    pattern and the index of the parameter after [split('/')]. *)
Definition parameter_routes : list (string * nat) :=
  [("/github/repos/", 3); ("/agents/", 2)].

(** *** The listing routes *)



(** The seven routes that project a list of upstream objects. *)
Inductive Listing : Type :=
| Orgs
| Repos (org : string)
| Customers
| Models
| Workers
| Namespaces
| Databases.

Definition listing_path (l : Listing) : string :=
  match l with
  | Orgs => "/github/orgs"
  | Repos org => "/github/repos/" ++ org
  | Customers => "/stripe/customers"
  | Models => "/hf/models"
  | Workers => "/cf/workers"
  | Namespaces => "/cf/kv"
  | Databases => "/cf/d1"
  end.

(** The one upstream request of a listing route. *)
Definition listing_call (env : Env) (request : Request) (l : Listing)
  : Eff Completion :=
  match l with
  | Orgs =>
      Fetch "https://api.github.com/user/orgs?per_page=100"
        (gh_init env no_options)
  | Repos org =>
      Fetch ("https://api.github.com/orgs/" ++ org ++ "/repos?per_page=100")
        (gh_init env no_options)
  | Customers =>
      Fetch "https://api.stripe.com/v1/customers?limit=100"
        (stripe_init env "GET" None)
  | Models =>
      Fetch ("https://huggingface.co/api/models?search="
             ++ search_param (searchParams request) "q" ++ "&limit=20")
        {| init_method := None;
           init_headers := [("Authorization", "Bearer " ++ HF_TOKEN env)];
           init_body := None |}
  | Workers => cf_call env "/workers/scripts"
  | Namespaces => cf_call env "/storage/kv/namespaces"
  | Databases => cf_call env "/d1/database"
  end.

(** Where the list is in the answer: the answer itself, its [data] or its
    [result]; [None] when the read throws. *)
Definition listing_source (l : Listing) (answer : JSVal) : option JSVal :=
  match l with
  | Orgs | Repos _ | Models => Some answer
  | Customers => Get answer "data"
  | Workers | Namespaces | Databases => Get answer "result"
  end.

(** The fields of the response and the upstream fields they are read
    from. *)
Definition listing_fields (l : Listing) : list (string * string) :=
  match l with
  | Orgs => [("name", "login"); ("url", "html_url")]
  | Repos _ => [("name", "name"); ("url", "html_url"); ("language", "language")]
  | Customers => [("id", "id"); ("email", "email"); ("name", "name")]
  | Models => [("id", "id"); ("downloads", "downloads"); ("likes", "likes")]
  | Workers => [("name", "id"); ("modified", "modified_on")]
  | Namespaces => [("id", "id"); ("title", "title")]
  | Databases => [("id", "uuid"); ("name", "name")]
  end.

(** The parameter of the route, when it has one, is one that its pattern
    matches. *)
Definition listing_wellformed (l : Listing) : Prop :=
  match l with
  | Repos org => org <> "" /\ Str.all_chars Str.word_or_dash org = true
  | _ => True
  end.

(** The three routes that take a missing list for an empty one. *)
Definition lenient (l : Listing) : bool :=
  match l with
  | Workers | Namespaces | Databases => true
  | _ => false
  end.

(** The value is a list the route cannot project: it is no array, and
    it is not the missing list of a lenient route. *)
Definition unlistable (l : Listing) (v : JSVal) : bool :=
  match v with
  | JArr _ => false
  | _ => negb (lenient l && is_nullish v)
  end.

(** The handler of a listing route. *)
Definition listing_handler {P : Platform} (l : Listing)
  : Request -> Env -> string -> Prog Response :=
  match l with
  | Orgs | Repos _ => handleGitHub
  | Customers => handleStripe
  | Models => handleHuggingFace
  | Workers | Namespaces | Databases => handleCloudflare
  end.

(** *** The write routes of the source-control group *)

(** The request of [POST /github/repo] for a body [b] whose organization
    converts to [o]. *)
Definition repo_call (env : Env) (b : JSVal) (o : string) : Eff Completion :=
  Fetch ("https://api.github.com/orgs/" ++ o ++ "/repos")
    (gh_init env
       {| init_method := Some "POST";
          init_headers := [];
          init_body :=
            option_map BodyJson
              (JSON_stringify
                 (JObj [("name", optional_prop b "name");
                        ("description", field_or b "description" (JStr ""));
                        ("private", field_or b "private" (JBool false));
                        ("auto_init", JBool true)]) 0) |}).

(** The two requests of [POST /github/file]. *)
Definition lookup_call (env : Env) (endpoint : string) : Eff Completion :=
  Fetch ("https://api.github.com" ++ endpoint) (gh_init env no_options).

Definition write_call (env : Env) (endpoint : string) (message : JSVal)
           (encoded : string) (sha : JSVal) : Eff Completion :=
  Fetch ("https://api.github.com" ++ endpoint)
    (gh_init env {| init_method := Some "PUT";
                    init_headers := [];
                    init_body := write_body message encoded sha |}).

(** *** The agents routes *)

(** The values [POST /agents] binds to its insertion for a body [b], the
    identifier [id], the birthday [born] and the time of creation. *)
Definition inserted_values (b : JSVal) (id : string) (born : JSVal)
           (created : string) : list SqlArg :=
  [ ArgValue (JStr id);
    ArgValue (optional_prop b "name");
    ArgValue (field_or b "type" (JStr "general"));
    ArgText {| space := 0;
               document := JSON_value (field_or b "capabilities" (JArr [])) |};
    ArgValue born;
    ArgValue (JStr created) ].

(** *** The routes that pass an upstream value on *)



(** *** The notify route *)

(** The log line of a notification. *)
Definition log_line (text : string) : Event :=
  Called (Console_log ("[NOTIFY] " ++ text)) tt.

(** The channels a body asks for: its [channels], by default [["log"]]. *)
Definition requested_channels (b : JSVal) : JSVal :=
  field_or b "channels" (JArr [JStr "log"]).

(** *** The product route, call by call *)

(** A trace made of upstream requests alone: the URL, the options and
    the answer of each, in order. *)
Definition exchange (urls : list string) (inits : list RequestInit)
           (answers : list Completion) : list Event :=
  map (fun c => Called (Fetch (fst (fst c)) (snd (fst c))) (snd c))
    (combine (combine urls inits) answers).

(** A request that posts a form. *)
Definition posts_form (init : RequestInit) : Prop :=
  init_method init = Some "POST"
  /\ exists pairs, init_body init = Some (BodyForm pairs).

(** *** Where the other calls are made *)

(** The three statements the worker prepares. *)
Definition statements : list string := [select_all; select_by_id; insert_agent].

(** A call to the record store runs one of the three statements and is
    made under [/agents]; an identifier is drawn by a POST under
    [/agents]; a line is logged under [/notify]; the clock is read under
    [/agents] or on [/stats]. *)
Definition confined (request : Request) (X : Type) (call : Eff X) : Prop :=
  match call with
  | Fetch _ _ => True
  | D1_all sql _ | D1_first sql _ | D1_run sql _ =>
      In sql statements
      /\ Str.startsWith (pathname request) "/agents" = true
  | RandomUUID =>
      Str.startsWith (pathname request) "/agents" = true
      /\ method request = "POST"
  | Date_toISOString =>
      Str.startsWith (pathname request) "/agents" = true
      \/ pathname request = "/stats"
  | Console_log _ =>
      Str.startsWith (pathname request) "/notify" = true
      /\ method request = "POST"
  end.

(** A call that reaches nothing outside the worker: a read of the clock. *)
Definition clock_only (X : Type) (call : Eff X) : Prop :=
  match call with
  | Date_toISOString => True
  | _ => False
  end.

(** The body of the request cannot be destructured: it is no JSON text,
    or it is [null]. *)
Definition unusable_body (request : Request) : Prop :=
  json_body request = None \/ json_body request = Some JNull.

(** *** More requests and surroundings to evaluate against *)

(** Every provider answering every request with the same value. *)
Definition upstream_answering (answer : JSVal) : Surroundings :=
  {| upstream := fun url init => Fulfilled answer;
     agents_table := [];
     uuid := "00000000-0000-4000-8000-000000000000";
     clock := "2026-01-01T00:00:00.000Z" |}.

Definition two_repos : list JSVal :=
  [ JObj [("id", JNumZ 1); ("name", JStr "command-center");
          ("html_url", JStr "https://github.com/BlackRoad-OS/command-center");
          ("language", JStr "TypeScript"); ("fork", JBool false)];
    JObj [("id", JNumZ 2); ("name", JStr "docs");
          ("html_url", JStr "https://github.com/BlackRoad-OS/docs");
          ("language", JNull); ("fork", JBool false)] ].

Definition bad_credentials : JSVal :=
  JObj [("message", JStr "Bad credentials"); ("status", JStr "401")].

Definition repo_example : JSVal :=
  JObj [("name", JStr "my-new-repo"); ("org", JStr "BlackRoad-AI")].

Definition agent_example : JSVal :=
  JObj [("name", JStr "Atlas"); ("type", JStr "researcher");
        ("capabilities", JArr [JStr "search"; JStr "analyze"])].

(** A file whose content cannot be converted to a string: the parsed
    object has an own [toString] that is no function. *)
Definition unencodable_file : Request :=
  with_body "POST" "/github/file"
    (JObj [("repo", JStr "docs"); ("path", JStr "a.txt");
           ("content", JObj [("toString", JStr "x")])]).

(** A notification whose message cannot be converted to a string. *)
Definition unprintable_notification : Request :=
  with_body "POST" "/notify"
    (JObj [("message", JObj [("toString", JNumZ 1)]);
           ("channels", JArr [JStr "log"])]).

(** The surroundings [s] with a clock that advances: the successive reads
    give the successive [times]. *)
Definition ticking (s : Surroundings) (times : list string) : Machine :=
  {| machine_state := nat;
     respond := fun X n call =>
       match call in Eff T return T * nat with
       | Fetch url init => (upstream s url init, n)
       | D1_all sql args => (d1_all (agents_table s) sql args, n)
       | D1_first sql args => (d1_first (agents_table s) sql args, n)
       | D1_run _ _ => (Fulfilled (JObj [("success", JBool true)]), n)
       | RandomUUID => (uuid s, n)
       | Date_toISOString => (nth n times (clock s), S n)
       | Console_log _ => (tt, n)
       end |}.

(** A product body without a price. *)
Definition unpriced : Request :=
  with_body "POST" "/stripe/product" (JObj [("name", JStr "Free Plan")]).

(** * Properties *)

(** ** Programs and their executions *)

Lemma run_bind {A B : Type} (w : World) (p : Prog A) (f : A -> Prog B) :
  run w (bind p f) =
  match run w p with
  | (tr, Returned a) => let (tr', o) := run w (f a) in ((tr ++ tr')%list, o)
  | (tr, Rejected e) => (tr, Rejected e)
  end.
Proof.
  induction p as [a | e | X call k IH]; simpl.
  - destruct (run w (f a)); reflexivity.
  - reflexivity.
  - rewrite IH. destruct (run w (k (w X call))) as [tr [a | e]]; simpl.
    + destruct (run w (f a)); reflexivity.
    + reflexivity.
Qed.

(** A run is an execution. *)
Lemma run_Exec {A : Type} (w : World) (p : Prog A) :
  Exec p (fst (run w p)) (snd (run w p)).
Proof.
  induction p as [a | e | X call k IH]; simpl; auto.
  specialize (IH (w X call)).
  destruct (run w (k (w X call))) as [tr o]; simpl in *.
  exists (w X call), tr. auto.
Qed.

Lemma AllReturns_Exec {A : Type} (Q : A -> Prop) (p : Prog A) :
  AllReturns Q p -> forall tr a, Exec p tr (Returned a) -> Q a.
Proof.
  induction p as [a | e | X call k IH]; simpl; intros HQ tr r HE.
  - destruct HE as [_ HE]. inversion HE. subst. exact HQ.
  - destruct HE as [_ HE]. discriminate HE.
  - destruct HE as (x & tr' & _ & HE). eapply IH; eauto.
Qed.

Lemma AllReturns_bind {A B : Type} (Q : B -> Prop) (p : Prog A)
      (f : A -> Prog B) :
  (forall a, AllReturns Q (f a)) -> AllReturns Q (bind p f).
Proof.
  intros Hf. induction p as [a | e | X call k IH]; simpl; auto.
Qed.

(** A play of a machine is an execution. *)
Lemma play_Exec {A : Type} (M : Machine) (p : Prog A) :
  forall s : machine_state M, Exec p (fst (play M s p)) (snd (play M s p)).
Proof.
  induction p as [a | e | X call k IH]; intros s; simpl; auto.
  destruct (respond M X s call) as [x s'].
  specialize (IH x s').
  destruct (play M s' (k x)) as [tr o]; simpl in *.
  exists x, tr. auto.
Qed.

(** ** Strings *)

Lemma startsWith_inv (s p : string) :
  Str.startsWith s p = true -> exists rest, s = p ++ rest.
Proof.
  unfold Str.startsWith. revert s.
  induction p as [| a p IH]; intros s H.
  - exists s. reflexivity.
  - destruct s as [| b s]; simpl in H; [discriminate |].
    destruct (ascii_dec a b) as [-> | Hab]; [| discriminate].
    destruct (IH _ H) as [rest ->]. exists rest. reflexivity.
Qed.

Lemma eqb_false_of_neq (a b : string) : a <> b -> (a =? b) = false.
Proof. apply String.eqb_neq. Qed.

(** ** Routing *)

Section Routing.
Context {P : Platform}.

Lemma not_OPTIONS (request : Request) :
  method request <> "OPTIONS" -> (method request =? "OPTIONS") = false.
Proof. apply String.eqb_neq. Qed.

Lemma handler_unrouted (g : Group) (request : Request) (env : Env) (path : string) :
  routed g (method request) path = false ->
  group_handler g request env path = Ret (scoped_404 g).
Proof.
  unfold routed. intros H.
  destruct g; simpl in H;
    repeat (apply orb_false_elim in H; destruct H as [? H]);
    simpl;
    [ unfold handleGitHub | unfold handleStripe | unfold handleHuggingFace
    | unfold handleCloudflare | unfold handleAgents ];
    repeat match goal with
           | E : _ = false |- _ => rewrite E; clear E
           end;
    reflexivity.
Qed.

Lemma dispatch (g : Group) (request : Request) (env : Env) :
  method request <> "OPTIONS" ->
  Str.startsWith (pathname request) (group_prefix g) = true ->
  fetch request env = group_handler g request env (pathname request).
Proof.
  intros Hm Hp. unfold fetch. rewrite (not_OPTIONS _ Hm).
  destruct (startsWith_inv _ _ Hp) as [rest ->].
  destruct g; destruct rest; reflexivity.
Qed.

Lemma slashless_unrouted (g : Group) (m : string) (c : ascii) (rest : string) :
  c <> "/"%char -> routed g m (group_prefix g ++ String c rest) = false.
Proof.
  intros Hc.
  assert (H1 : Ascii.eqb c "/" = false) by (apply Ascii.eqb_neq; exact Hc).
  assert (H2 : Ascii.eqb "/" c = false) by (apply Ascii.eqb_neq; congruence).
  destruct g; unfold routed; simpl; unfold Str.match_prefix_word; simpl;
    rewrite ?H1, ?H2; reflexivity.
Qed.

Lemma startsWith_app (p rest : string) : Str.startsWith (p ++ rest) p = true.
Proof.
  unfold Str.startsWith. induction p as [| a p IH]; simpl.
  - destruct rest; reflexivity.
  - destruct (ascii_dec a a) as [_ | Ha]; [exact IH | contradiction].
Qed.

Lemma dispatch_notify (request : Request) (env : Env) :
  method request <> "OPTIONS" ->
  Str.startsWith (pathname request) "/notify" = true ->
  fetch request env = handleNotify request env (pathname request).
Proof.
  intros Hm Hp. unfold fetch. rewrite (not_OPTIONS _ Hm).
  destruct (startsWith_inv _ _ Hp) as [rest ->].
  destruct rest; reflexivity.
Qed.

Lemma global_404_shape :
  status global_404 = 404 /\ payload global_404 = pretty not_found_document.
Proof. split; reflexivity. Qed.

Lemma scoped_404_shape (g : Group) :
  status (scoped_404 g) = 404
  /\ payload (scoped_404 g) = pretty (unknown_route_document g).
Proof. destruct g; split; reflexivity. Qed.

Lemma post_only_shape :
  status post_only = 405 /\ payload post_only = pretty post_only_document.
Proof. split; reflexivity. Qed.

Lemma pretty_inj (a b : JSVal) : pretty a = pretty b -> a = b.
Proof. intros H. inversion H. reflexivity. Qed.

(** The list of a group holds routes of that group alone, and its
    document is not the one that lists the prefixes. *)
Lemma group_routes_scoped (g : Group) :
  Forall (fun route => Str.startsWith route (group_prefix g) = true)
    (group_routes g)
  /\ unknown_route_document g <> not_found_document.
Proof.
  destruct g; (split; [repeat constructor | intros H; discriminate H]).
Qed.

(** C4 (as amended).  A preflight request gets the preflight response on
    any path.  Any other request whose path is neither a health path, nor
    [/stats], nor under the prefix of a handler gets status 404 and the
    document that lists the seven prefixes.  Under the prefix of one of
    the five groups with a route list, a method and path that no route of
    the group takes get status 404 and the document of that group, which
    lists routes of that group alone and is not the list of prefixes.
    Under [/notify] every method but POST gets status 405 and
    [{"error": "POST only"}], on any path. *)
Theorem unmatched_route_404 (request : Request) (env : Env) :
  (method request = "OPTIONS" ->
   exists r, fetch request env = Ret r
     /\ status r = 200 /\ headers r = corsHeaders /\ payload r = None)
  /\ (method request <> "OPTIONS" ->
      (known_path (pathname request) = false ->
       exists r, fetch request env = Ret r
         /\ status r = 404
         /\ payload r
            = pretty (JObj [("error", JStr "Not found");
                            ("routes",
                             JArr [JStr "/github"; JStr "/stripe"; JStr "/hf";
                                   JStr "/cf"; JStr "/agents"; JStr "/notify";
                                   JStr "/stats"])]))
      /\ (forall g : Group,
            Str.startsWith (pathname request) (group_prefix g) = true ->
            routed g (method request) (pathname request) = false ->
            exists r, fetch request env = Ret r
              /\ status r = 404
              /\ payload r
                 = pretty (JObj [("error", JStr (group_error g));
                                 ("available",
                                  JArr (map JStr (group_routes g)))])
              /\ Forall (fun route =>
                           Str.startsWith route (group_prefix g) = true)
                   (group_routes g)
              /\ unknown_route_document g <> not_found_document)
      /\ (Str.startsWith (pathname request) "/notify" = true ->
          method request <> "POST" ->
          exists r, fetch request env = Ret r
            /\ status r = 405
            /\ payload r = pretty (JObj [("error", JStr "POST only")]))).
Proof.
  split.
  - intros Hm. exists preflight. unfold fetch. rewrite Hm.
    repeat split.
  - intros Hm. split; [| split].
    + unfold known_path. simpl. intros H.
      repeat match goal with
             | E : _ || _ = false |- _ =>
                 apply orb_false_elim in E; destruct E
             end.
      exists global_404. split; [| exact global_404_shape].
      unfold fetch. rewrite (not_OPTIONS _ Hm).
      repeat match goal with
             | E : _ = false |- _ => rewrite E; clear E
             end.
      reflexivity.
    + intros g Hp Hr. exists (scoped_404 g).
      split; [rewrite (dispatch g _ env Hm Hp); apply handler_unrouted;
              exact Hr |].
      destruct (scoped_404_shape g) as [Hs Hd].
      destruct (group_routes_scoped g) as [Hl Hn].
      repeat split; assumption.
    + intros Hp Hpost. exists post_only. split; [| exact post_only_shape].
      rewrite (dispatch_notify _ env Hm Hp).
      unfold handleNotify. rewrite (eqb_false_of_neq _ _ Hpost). reflexivity.
Qed.

End Routing.

Section Envelope.
Context {P : Platform}.

Lemma json_enveloped (data : JSVal) (st : nat) : enveloped (json data st).
Proof. exists data, st. reflexivity. Qed.

Ltac envelope :=
  repeat first
    [ apply json_enveloped
    | apply AllReturns_bind; intros
    | match goal with
      | |- AllReturns _ (if ?b then _ else _) => destruct b
      | |- AllReturns _ (Ret (if ?b then _ else _)) => destruct b
      | |- AllReturns _ (Ret _) => simpl
      end ].

Lemma fetch_enveloped (request : Request) (env : Env) :
  method request <> "OPTIONS" -> AllReturns enveloped (fetch request env).
Proof.
  intros Hm. unfold fetch. rewrite (not_OPTIONS _ Hm).
  unfold handleGitHub, handleStripe, handleHuggingFace, handleCloudflare,
    handleAgents, handleNotify, handleStats, cf_listing.
  envelope.
Qed.

(** C5 (as amended).  Every response to a request that is not a preflight
    is built by [json]: it carries the CORS headers followed by
    [Content-Type: application/json], and its body is
    [JSON.stringify(data, null, 2)] of the data of the handler, the
    pretty-printed JSON text of that data whenever the data is not
    [undefined].  The preflight response is made before any routing: its
    status is 200, it has no body and carries the CORS headers alone. *)
Theorem responses_are_enveloped (request : Request) (env : Env)
        (tr : list Event) (r : Response) :
  Exec (fetch request env) tr (Returned r) ->
  (method request = "OPTIONS" ->
   tr = [] /\ status r = 200 /\ headers r = corsHeaders /\ payload r = None)
  /\ (method request <> "OPTIONS" ->
      headers r = json_headers
      /\ exists data,
          payload r = JSON_stringify data 2
          /\ (data <> JUndefined ->
              payload r = Some {| space := 2; document := JSON_value data |})).
Proof.
  intros HE. split.
  - intros Hm. unfold fetch in HE. rewrite Hm in HE. simpl in HE.
    destruct HE as [-> HE]. inversion HE. subst r. repeat split.
  - intros Hm.
    destruct (AllReturns_Exec _ _ (fetch_enveloped request env Hm) _ _ HE)
      as (data & st & ->).
    split; [reflexivity |].
    exists data. split; [reflexivity |].
    intros Hd. simpl. destruct data; try reflexivity. contradiction.
Qed.
End Envelope.

(** ** The file route *)

Section FileUpsert.
Context {P : Platform}.

Lemma prop_eq (v : JSVal) (k : string) :
  prop v k = if is_nullish v then Throw TypeError else Ret (optional_prop v k).
Proof. destruct v; reflexivity. Qed.

Lemma prop_default_eq (v : JSVal) (k : string) (d : JSVal) :
  prop_default v k d =
  if is_nullish v then Throw TypeError else Ret (field_or v k d).
Proof. destruct v; reflexivity. Qed.

Lemma JSON_value_id : forall v : JSVal, is_json v = true -> JSON_value v = v.
Proof.
  fix IH 1. intros [ | | b | x | s | items | props]; simpl; intros H;
    try reflexivity; try discriminate.
  - rewrite H. reflexivity.
  - f_equal. induction items as [| e items IHitems]; simpl in *; [reflexivity |].
    apply andb_prop in H. destruct H as [He Hitems].
    rewrite (IHitems Hitems). f_equal.
    rewrite (IH e He). destruct e; try reflexivity. discriminate He.
  - f_equal. induction props as [| [k e] props IHprops]; simpl in *; [reflexivity |].
    apply andb_prop in H. destruct H as [He Hprops].
    rewrite (IHprops Hprops). rewrite (IH e He).
    destruct e; try reflexivity. discriminate He.
Qed.

Lemma marker_write_body (message : JSVal) (encoded : string) (sha : JSVal) :
  marker (write_body message encoded sha) =
  if is_undefined sha then None else Some (JSON_value sha).
Proof. destruct message, sha; reflexivity. Qed.


Lemma write_body_members (message : JSVal) (encoded : string) (sha : JSVal) :
  exists text,
    write_body message encoded sha = Some (BodyJson text)
    /\ space text = 0
    /\ member (document text) "content" = Some (JStr encoded).
Proof. eexists. split; [reflexivity |]. destruct message, sha; split; reflexivity. Qed.

(** The executions of the file route, with the requests as the adapter
    builds them. *)
Lemma file_route_executions (request : Request) (env : Env)
      (tr : list Event) (o : Outcome Response) :
  method request = "POST" ->
  pathname request = "/github/file" ->
  Exec (fetch request env) tr o ->
  match file_request request with
  | None => tr = [] /\ exists e, o = Rejected e
  | Some (endpoint, message, encoded) =>
      exists answer written : Completion,
        tr = [ Called (Fetch ("https://api.github.com" ++ endpoint)
                         (gh_init env no_options)) answer;
               Called (Fetch ("https://api.github.com" ++ endpoint)
                         (gh_init env
                            {| init_method := Some "PUT";
                               init_headers := [];
                               init_body :=
                                 write_body message encoded
                                   (precheck_sha answer) |})) written ]
  end.
Proof.
  intros Hm Hp HE. unfold fetch in HE. rewrite Hm, Hp in HE. simpl in HE.
  unfold handleGitHub in HE. rewrite Hm in HE. simpl in HE.
  unfold file_request, request_json in *.
  assert (Hstop : forall e, tr = [] /\ o = Rejected e ->
                            tr = [] /\ exists e', o = Rejected e')
    by (intros e [-> ->]; eauto).
  destruct (json_body request) as [b |]; simpl in HE; [| exact (Hstop _ HE)].
  rewrite !prop_default_eq, !prop_eq in HE.
  destruct (is_nullish b); simpl in HE; [exact (Hstop _ HE) |].
  unfold btoa_call, btoa, spliced in *.
  destruct (ToString (optional_prop b "content")) as [text |];
    simpl in HE; [| exact (Hstop _ HE)].
  destruct (btoa_string text) as [encoded |]; simpl in HE;
    [| exact (Hstop _ HE)].
  unfold existing_sha, contents_endpoint, contents_path, spliced in *.
  destruct (ToString (field_or b "org" (JStr "BlackRoad-OS"))) as [org |];
    simpl in HE; [| exact (Hstop _ HE)].
  destruct (ToString (optional_prop b "repo")) as [repo |];
    simpl in HE; [| exact (Hstop _ HE)].
  destruct (ToString (optional_prop b "path")) as [filePath |];
    simpl in HE; [| exact (Hstop _ HE)].
  clear Hstop.
  destruct HE as (answer & tr1 & -> & HE).
  assert (HE' :
    Exec (Vis (Fetch ("https://api.github.com" ++ "/repos/" ++ org ++ "/"
                      ++ repo ++ "/contents/" ++ filePath)
                 (gh_init env
                    {| init_method := Some "PUT";
                       init_headers := [];
                       init_body :=
                         write_body
                           (field_or b "message"
                              (JStr "Update via Command Center"))
                           encoded (precheck_sha answer) |}))
            (fun x : Completion =>
               result <- match x with
                         | Fulfilled v => Ret v
                         | Failed e => Throw e
                         end ;;
               written <- prop result "content" ;;
               Ret (json (JObj [("success", JBool true);
                                ("url", optional_prop written "html_url")])
                      200))) tr1 o).
  { destruct answer as [existing | e]; simpl in HE; [| exact HE].
    rewrite prop_eq in HE. destruct existing; exact HE. }
  clear HE. simpl in HE'. destruct HE' as (written & tr2 & -> & HE).
  exists answer, written.
  f_equal. f_equal.
  destruct written as [result | e]; simpl in HE; [| apply HE].
  rewrite prop_eq in HE. destruct (is_nullish result); apply HE.
Qed.

(** C1 (as amended).  On [POST /github/file] the handler either rejects
    before any call (the body is no JSON text or is [null], or a
    conversion or [btoa] throws), or makes exactly two requests to the
    same contents endpoint: first the lookup, a GET without a body, then
    the write, a PUT whose JSON body holds the encoded content.  The body
    of the write has no [sha] member when the lookup gave none (it
    failed, or its answer has no [sha]), and otherwise has the [sha] of
    the lookup, as it is. *)
Theorem file_upsert_marker (request : Request) (env : Env)
        (tr : list Event) (o : Outcome Response) :
  method request = "POST" ->
  pathname request = "/github/file" ->
  Exec (fetch request env) tr o ->
  match file_request request with
  | None => tr = [] /\ exists e, o = Rejected e
  | Some (endpoint, message, encoded) =>
      exists (lookup write : RequestInit) (answer written : Completion),
        tr = [ Called (Fetch ("https://api.github.com" ++ endpoint) lookup)
                 answer;
               Called (Fetch ("https://api.github.com" ++ endpoint) write)
                 written ]
        /\ init_method lookup = None
        /\ init_body lookup = None
        /\ init_method write = Some "PUT"
        /\ (exists text,
              init_body write = Some (BodyJson text)
              /\ member (document text) "content" = Some (JStr encoded))
        /\ marker (init_body write)
           = (if is_undefined (precheck_sha answer) then None
              else Some (JSON_value (precheck_sha answer)))
        /\ (is_json (precheck_sha answer) = true ->
            marker (init_body write) = Some (precheck_sha answer))
  end.
Proof.
  intros Hm Hp HE.
  pose proof (file_route_executions request env tr o Hm Hp HE) as H.
  destruct (file_request request) as [[[endpoint message] encoded] |];
    [| exact H].
  destruct H as (answer & written & ->).
  eexists. eexists. exists answer, written.
  split; [reflexivity |].
  split; [reflexivity |]. split; [reflexivity |]. split; [reflexivity |].
  cbn [gh_init init_body].
  split.
  { destruct (write_body_members message encoded (precheck_sha answer))
      as (text & Hbody & _ & Hcontent).
    exists text. split; assumption. }
  split.
  - apply marker_write_body.
  - intros Hj. rewrite marker_write_body.
    destruct (precheck_sha answer); try discriminate Hj;
      rewrite (JSON_value_id _ Hj); reflexivity.
Qed.

End FileUpsert.

(** ** The product route *)

Lemma AllCalls_upstream {A : Type} (Q : forall X : Type, Eff X -> Prop)
      (p : Prog A) :
  AllCalls Q p ->
  forall tr o, Exec p tr o ->
  forall url init, In (url, init) (upstream_calls tr) -> Q _ (Fetch url init).
Proof.
  induction p as [a | e | X call k IH]; simpl; intros HQ tr o HE url init Hin.
  - destruct HE as [-> _]. destruct Hin.
  - destruct HE as [-> _]. destruct Hin.
  - destruct HE as (x & tr' & -> & HE). destruct HQ as [Hcall Hk].
    simpl in Hin. destruct call; try (eapply IH; eauto; fail).
    destruct Hin as [Heq | Hin]; [| eapply IH; eauto].
    inversion Heq. subst. exact Hcall.
Qed.

Section Product.
Context {P : Platform}.

Lemma URLSearchParams_eq (record : list (string * JSVal)) :
  URLSearchParams record = lift TypeError (form_of record).
Proof.
  induction record as [| [k v] rest IH]; simpl; [reflexivity |].
  unfold spliced. destruct (ToString v); simpl; [| reflexivity].
  rewrite IH. destruct (form_of rest); reflexivity.
Qed.

Lemma stripe_eq (env : Env) (endpoint m : string)
      (record : list (string * JSVal)) :
  stripe env endpoint m (Some record) =
  (pairs <- lift TypeError (form_of record) ;;
   await (Fetch ("https://api.stripe.com/v1" ++ endpoint)
            (stripe_init env m (Some (BodyForm pairs))))).
Proof.
  unfold stripe. rewrite URLSearchParams_eq.
  destruct (form_of record); reflexivity.
Qed.

Lemma priceData_unit_amount (productId : JSVal) (u : spec_float)
      (currency recurring : JSVal) (pairs : list (string * string)) :
  form_of (priceData productId u currency recurring) = Some pairs ->
  form_value pairs "unit_amount" = Some (Number.toString fraction_digits u).
Proof.
  unfold priceData. destruct (ToBoolean recurring); simpl;
    destruct (ToString productId); try discriminate;
    destruct (ToString currency); try discriminate;
    try (destruct (ToString recurring); try discriminate);
    intros H; inversion H; reflexivity.
Qed.

Lemma product_calls (request : Request) (env : Env) :
  method request = "POST" ->
  pathname request = "/stripe/product" ->
  AllCalls (carries_unit_amount (request_field request "price"))
    (fetch request env).
Proof.
  intros Hm Hp. unfold fetch. rewrite Hm, Hp. simpl.
  unfold handleStripe. rewrite Hm. simpl.
  unfold request_field, request_json.
  destruct (json_body request) as [b |]; simpl; [| exact I].
  rewrite !prop_default_eq, !prop_eq.
  destruct (is_nullish b); simpl; [exact I |].
  rewrite stripe_eq.
  destruct (form_of _) as [form1 |]; simpl; [| exact I].
  split; [intros H; discriminate H |].
  intros [product | e]; simpl; [| exact I].
  rewrite prop_eq. destruct (is_nullish product); simpl; [exact I |].
  unfold minor_units.
  destruct (ToNumber (optional_prop b "price")) as [p |] eqn:Hn; simpl;
    [| exact I].
  rewrite stripe_eq.
  destruct (form_of (priceData _ _ _ _)) as [form2 |] eqn:Hform; simpl;
    [| exact I].
  split.
  { intros _. unfold unit_amount_text. rewrite Hn. simpl.
    split; [discriminate |].
    apply (priceData_unit_amount _ _ _ _ _ Hform). }
  intros [priceObj | e]; simpl; [| exact I].
  rewrite prop_eq. destruct (is_nullish priceObj); simpl; [exact I |].
  rewrite stripe_eq.
  destruct (form_of [_; _]) as [form3 |]; simpl; [| exact I].
  split; [intros H; discriminate H |].
  intros [link | e]; simpl; [| exact I].
  rewrite !prop_eq.
  destruct (is_nullish product), (is_nullish link); exact I.
Qed.

Lemma run_stripe {A : Type} (w : World) (env : Env) (endpoint m : string)
      (record : list (string * JSVal)) (pairs : list (string * string))
      (v : JSVal) (f : JSVal -> Prog A) :
  form_of record = Some pairs ->
  w _ (Fetch ("https://api.stripe.com/v1" ++ endpoint)
         (stripe_init env m (Some (BodyForm pairs)))) = Fulfilled v ->
  run w (bind (stripe env endpoint m (Some record)) f) =
  let (tr, o) := run w (f v) in
  (Called (Fetch ("https://api.stripe.com/v1" ++ endpoint)
             (stripe_init env m (Some (BodyForm pairs)))) (Fulfilled v) :: tr,
   o).
Proof.
  intros Hform Hw. rewrite stripe_eq, Hform.
  cbn [lift bind await run]. rewrite Hw. reflexivity.
Qed.

Lemma run_prop {A : Type} (w : World) (v : JSVal) (k : string) (x : JSVal)
      (f : JSVal -> Prog A) :
  Get v k = Some x -> run w (bind (prop v k) f) = run w (f x).
Proof. intros H. unfold prop. rewrite H. reflexivity. Qed.

Lemma round_half_up_nearest (s : bool) (m : positive) (e : Z) :
  (e < 0)%Z ->
  let n := Number.round_half_up s m e in
  let d := (2 ^ (- e))%Z in
  (2 * d * n - d <= 2 * cond_Zopp s (Zpos m) < 2 * d * n + d)%Z.
Proof.
  intros He n d. unfold n, Number.round_half_up.
  replace (1 - e)%Z with (Z.succ (- e)) by lia.
  rewrite Z.pow_succ_r by lia. fold d.
  assert (Hd : (0 < d)%Z) by (unfold d; apply Z.pow_pos_nonneg; lia).
  set (a := (2 * cond_Zopp s (Z.pos m) + d)%Z).
  pose proof (Z.mul_div_le a (2 * d) ltac:(lia)).
  pose proof (Z.mul_succ_div_gt a (2 * d) ltac:(lia)).
  unfold a in *. lia.
Qed.

(** [Math.round] of a Number that is not integral is the Number of the
    integer [n] with [n - 1/2 <= x < n + 1/2]: the nearest integer, a tie
    going up. *)
Lemma Math_round_nearest (s : bool) (m : positive) (e : Z) :
  (e < 0)%Z ->
  exists n : Z,
    Number.Math_round (S754_finite s m e)
    = (if (n =? 0)%Z then S754_zero s else Number.of_Z n)
    /\ (2 * 2 ^ (- e) * n - 2 ^ (- e)
        <= 2 * cond_Zopp s (Zpos m)
        < 2 * 2 ^ (- e) * n + 2 ^ (- e))%Z.
Proof.
  intros He. exists (Number.round_half_up s m e). split.
  - unfold Number.Math_round.
    replace (0 <=? e)%Z with false by (symmetry; apply Z.leb_gt; exact He).
    reflexivity.
  - exact (round_half_up_nearest s m e He).
Qed.

(** C3.  Whatever the upstream services answer, a request to the prices
    endpoint carries as [unit_amount] the text of
    [Math.round(price * 100)]: the [price] of the body converted to a
    Number, the product with 100 in binary64, then the nearest integer
    [n], with [n - 1/2 <= x < n + 1/2], so that a tie goes up (an
    integral product, a NaN and an infinity stay as they are).  For the
    price 29.99 the request carries 2999; for 10.005, whose Number lies
    just above the decimal, 1001, and for 1.005, whose Number lies just
    below, 100; for the exact ties 0.125 and -0.125 it carries 13 and
    -12. *)
Theorem minor_unit_amount :
  (forall (request : Request) (env : Env) (tr : list Event)
          (o : Outcome Response) (init : RequestInit),
      method request = "POST" ->
      pathname request = "/stripe/product" ->
      Exec (fetch request env) tr o ->
      In (prices_url, init) (upstream_calls tr) ->
      (exists p : spec_float,
         ToNumber (request_field request "price") = Some p
         /\ form_field (init_body init) "unit_amount"
            = Some (Number.toString fraction_digits
                      (Number.Math_round (Number.mul p (Number.of_Z 100)))))
      /\ (request_field request "price" = JNum (Number.decimal 2999 2) ->
          form_field (init_body init) "unit_amount" = Some "2999")
      /\ (request_field request "price" = JNum (Number.decimal 10005 3) ->
          form_field (init_body init) "unit_amount" = Some "1001")
      /\ (request_field request "price" = JNum (Number.decimal 1005 3) ->
          form_field (init_body init) "unit_amount" = Some "100")
      /\ (request_field request "price" = JNum (Number.decimal 125 3) ->
          form_field (init_body init) "unit_amount" = Some "13")
      /\ (request_field request "price" = JNum (Number.decimal (-125) 3) ->
          form_field (init_body init) "unit_amount" = Some "-12"))
  /\ (forall (s : bool) (m : positive) (e : Z),
        (e < 0)%Z ->
        exists n : Z,
          Number.Math_round (S754_finite s m e)
          = (if (n =? 0)%Z then S754_zero s else Number.of_Z n)
          /\ (2 * 2 ^ (- e) * n - 2 ^ (- e)
              <= 2 * cond_Zopp s (Zpos m)
              < 2 * 2 ^ (- e) * n + 2 ^ (- e))%Z)
  /\ (forall x : spec_float,
        match x with
        | S754_finite _ _ e => (0 <= e)%Z
        | _ => True
        end ->
        Number.Math_round x = x).
Proof.
  split; [| split].
  - intros request env tr o init Hm Hp HE Hin.
    destruct (AllCalls_upstream _ _ (product_calls request env Hm Hp)
                tr o HE prices_url init Hin eq_refl) as [Hsome Hfield].
    split.
    { unfold unit_amount_text in *.
      destruct (ToNumber (request_field request "price")) as [p |];
        [| contradiction Hsome; reflexivity].
      exists p. split; [reflexivity | exact Hfield]. }
    rewrite Hfield.
    repeat split; intros ->; vm_compute; reflexivity.
  - exact Math_round_nearest.
  - intros [sg | sg | | sg m e] H; try reflexivity.
    unfold Number.Math_round.
    replace (0 <=? e)%Z with true by (symmetry; apply Z.leb_le; exact H).
    reflexivity.
Qed.

(** C2.  On the scenario of the README, with Stripe answering a product,
    a price and a payment link, the handler makes exactly three requests,
    in this order, each a POST with a form: the product; the price with
    [unit_amount=2999], [recurring[interval]=month] and the id of the
    product just returned; the payment link with the id of the price just
    returned.  The response has status 200 and its document holds the
    product id, the price with [amount] 29.99 and the URL of the link. *)
Theorem product_saga (env : Env) (w : World)
        (product priceObj link : JSVal) (pid name prid url : string) :
  replies w "https://api.stripe.com/v1/products" (Some "POST")
    (Fulfilled product) ->
  Get product "id" = Some (JStr pid) ->
  Get product "name" = Some (JStr name) ->
  replies w "https://api.stripe.com/v1/prices" (Some "POST")
    (Fulfilled priceObj) ->
  Get priceObj "id" = Some (JStr prid) ->
  replies w "https://api.stripe.com/v1/payment_links" (Some "POST")
    (Fulfilled link) ->
  Get link "url" = Some (JStr url) ->
  exists (create_product create_price create_link : RequestInit)
         (r : Response),
    run w (fetch pro_plan env)
    = ( [ Called (Fetch "https://api.stripe.com/v1/products" create_product)
            (Fulfilled product);
          Called (Fetch "https://api.stripe.com/v1/prices" create_price)
            (Fulfilled priceObj);
          Called (Fetch "https://api.stripe.com/v1/payment_links" create_link)
            (Fulfilled link) ],
        Returned r )
    /\ init_method create_product = Some "POST"
    /\ init_body create_product
       = Some (BodyForm [("name", "Pro Plan"); ("description", "")])
    /\ init_method create_price = Some "POST"
    /\ init_body create_price
       = Some (BodyForm [("product", pid); ("unit_amount", "2999");
                         ("currency", "usd");
                         ("recurring[interval]", "month")])
    /\ init_method create_link = Some "POST"
    /\ init_body create_link
       = Some (BodyForm [("line_items[0][price]", prid);
                         ("line_items[0][quantity]", "1")])
    /\ status r = 200
    /\ payload r
       = pretty (JObj [("product", JObj [("id", JStr pid);
                                         ("name", JStr name)]);
                       ("price", JObj [("id", JStr prid);
                                       ("amount", JNum (Number.decimal 2999 2));
                                       ("currency", JStr "usd")]);
                       ("payment_link", JStr url)]).
Proof.
  intros Hw1 Hid1 Hname Hw2 Hid2 Hw3 Hurl.
  assert (Hprog :
    fetch pro_plan env =
    (product <- stripe env "/products" "POST"
                  (Some [("name", JStr "Pro Plan"); ("description", JStr "")]) ;;
     productId <- prop product "id" ;;
     priceObj <- stripe env "/prices" "POST"
                   (Some [("product", productId);
                          ("unit_amount", JNum (Number.of_Z 2999));
                          ("currency", JStr "usd");
                          ("recurring[interval]", JStr "month")]) ;;
     priceId <- prop priceObj "id" ;;
     link <- stripe env "/payment_links" "POST"
               (Some [("line_items[0][price]", priceId);
                      ("line_items[0][quantity]", JNumZ 1)]) ;;
     productName <- prop product "name" ;;
     url <- prop link "url" ;;
     Ret (json (JObj [("product", JObj [("id", productId);
                                        ("name", productName)]);
                      ("price", JObj [("id", priceId);
                                      ("amount", JNum (Number.decimal 2999 2));
                                      ("currency", JStr "usd")]);
                      ("payment_link", url)]) 200))) by reflexivity.
  rewrite Hprog. clear Hprog.
  rewrite (run_stripe w env "/products" "POST"
             [("name", JStr "Pro Plan"); ("description", JStr "")]
             [("name", "Pro Plan"); ("description", "")] product _
             eq_refl (Hw1 (stripe_init env "POST" _) eq_refl)).
  rewrite (run_prop w product "id" _ _ Hid1).
  assert (Hform2 :
    form_of [("product", JStr pid); ("unit_amount", JNum (Number.of_Z 2999));
             ("currency", JStr "usd"); ("recurring[interval]", JStr "month")]
    = Some [("product", pid); ("unit_amount", "2999"); ("currency", "usd");
            ("recurring[interval]", "month")])
    by (vm_compute; reflexivity).
  rewrite (run_stripe w env "/prices" "POST" _ _ priceObj _ Hform2
             (Hw2 (stripe_init env "POST" _) eq_refl)).
  rewrite (run_prop w priceObj "id" _ _ Hid2).
  assert (Hform3 :
    form_of [("line_items[0][price]", JStr prid);
             ("line_items[0][quantity]", JNumZ 1)]
    = Some [("line_items[0][price]", prid); ("line_items[0][quantity]", "1")])
    by (vm_compute; reflexivity).
  rewrite (run_stripe w env "/payment_links" "POST" _ _ link _ Hform3
             (Hw3 (stripe_init env "POST" _) eq_refl)).
  rewrite (run_prop w product "name" _ _ Hname).
  rewrite (run_prop w link "url" _ _ Hurl).
  cbn [run].
  eexists. eexists. eexists. eexists.
  split; [reflexivity |].
  repeat (split; [reflexivity |]).
  vm_compute. reflexivity.
Qed.

End Product.

(** ** Notify, agents and Cloudflare *)

Section Notify.
Context {P : Platform}.

Lemma set_property_idem (props : list (string * JSVal)) (k : string) (v : JSVal) :
  set_property (set_property props k v) k v = set_property props k v.
Proof.
  induction props as [| [k' v'] rest IH]; simpl.
  - rewrite String.eqb_refl. reflexivity.
  - destruct (k' =? k) eqn:Hk; simpl; rewrite Hk; [reflexivity |].
    rewrite IH. reflexivity.
Qed.

Lemma notify_channels_outcome {A : Type} (w : World) (message : JSVal)
      (channels : list JSVal) (f : list (string * JSVal) -> Prog A) :
  (existsb is_log channels = true -> ToString message <> None) ->
  forall acc,
    snd (run w (bind (notify_channels message channels acc) f)) =
    snd (run w (f (if existsb is_log channels
                   then set_property acc "log" (JBool true)
                   else acc))).
Proof.
  induction channels as [| channel rest IH]; intros Hmsg acc.
  - reflexivity.
  - cbn [notify_channels existsb] in *. fold (is_log channel).
    destruct (is_log channel) eqn:Hlog; cbn [orb] in *.
    + destruct (ToString message) as [text |] eqn:Htext;
        [| exfalso; apply Hmsg; reflexivity].
      unfold spliced. rewrite Htext. cbn [lift bind perform run].
      destruct (run w (bind (notify_channels message rest _) f))
        as [tr o] eqn:Hrun.
      cbn [snd]. change o with (snd (tr, o)). rewrite <- Hrun.
      rewrite IH by (intros _; discriminate).
      destruct (existsb is_log rest); [rewrite set_property_idem |];
        reflexivity.
    + apply IH. exact Hmsg.
Qed.

Lemma notify_program (request : Request) (env : Env) (b : JSVal)
      (channels : list JSVal) :
  method request = "POST" ->
  Str.startsWith (pathname request) "/notify" = true ->
  json_body request = Some b ->
  Get b "channels" = Some (JArr channels) ->
  fetch request env =
  (results <- notify_channels (optional_prop b "message") channels [] ;;
   Ret (json (JObj [("sent", JBool true); ("channels", JObj results)]) 200)).
Proof.
  intros Hm Hp Hb Hc.
  rewrite (dispatch_notify request env) by (rewrite ?Hm; congruence).
  unfold handleNotify, request_json. rewrite Hm, Hb. simpl.
  rewrite prop_default_eq, prop_eq.
  destruct (is_nullish b) eqn:Hnull;
    [destruct b; discriminate Hnull || discriminate Hc |].
  unfold field_or, optional_prop. rewrite Hc. reflexivity.
Qed.

Lemma notify_channels_throws {A : Type} (w : World) (message : JSVal)
      (channels : list JSVal) (f : list (string * JSVal) -> Prog A) :
  ToString message = None ->
  existsb is_log channels = true ->
  forall acc,
    run w (bind (notify_channels message channels acc) f)
    = ([], Rejected TypeError).
Proof.
  intros Hmsg. induction channels as [| channel rest IH]; intros Hlog acc.
  - discriminate Hlog.
  - cbn [notify_channels existsb] in *. fold (is_log channel) in *.
    destruct (is_log channel); cbn [orb] in Hlog.
    + unfold spliced. rewrite Hmsg. reflexivity.
    + apply IH. exact Hlog.
Qed.

(** What the notify route answers to a body with a channels list: 200
    with [sent: true] and the channels reported, when the message can be
    logged where it has to be; a [TypeError] before any line is logged
    when it cannot. *)
Lemma notify_outcome (request : Request) (env : Env) (w : World)
      (b : JSVal) (channels : list JSVal) :
  method request = "POST" ->
  Str.startsWith (pathname request) "/notify" = true ->
  json_body request = Some b ->
  Get b "channels" = Some (JArr channels) ->
  ((existsb is_log channels = true ->
    ToString (optional_prop b "message") <> None) ->
   exists r, snd (run w (fetch request env)) = Returned r
     /\ status r = 200
     /\ payload r
        = pretty (JObj [("sent", JBool true);
                        ("channels", JObj (notify_results channels))]))
  /\ (existsb is_log channels = true ->
      ToString (optional_prop b "message") = None ->
      run w (fetch request env) = ([], Rejected TypeError)).
Proof.
  intros Hm Hp Hb Hc.
  rewrite (notify_program request env b channels Hm Hp Hb Hc). split.
  - intros Hmsg.
    rewrite (notify_channels_outcome w _ channels _ Hmsg []).
    unfold notify_results. destruct (existsb is_log channels);
      eexists; (split; [reflexivity |]); split; reflexivity.
  - intros Hlog Hmsg. apply notify_channels_throws; assumption.
Qed.

(** C9 (as amended).  A POST to [/notify] whose body gives a channels
    list is answered 200 with [sent: true] for every list, provided the
    message converts to a string when the list holds ["log"]; the
    [channels] object reports [log] when the list holds ["log"] and is
    empty otherwise, so for the empty list and for a list of
    unrecognized names alone.  When the list holds ["log"] and the
    message does not convert, the handler throws a [TypeError] before
    it logs anything, and no response is made. *)
Theorem notify_always_sent (request : Request) (env : Env) (w : World)
        (b : JSVal) (channels : list JSVal) :
  method request = "POST" ->
  pathname request = "/notify" ->
  json_body request = Some b ->
  Get b "channels" = Some (JArr channels) ->
  ((existsb is_log channels = true ->
    ToString (optional_prop b "message") <> None) ->
   exists r, snd (run w (fetch request env)) = Returned r
     /\ status r = 200
     /\ payload r
        = pretty (JObj [("sent", JBool true);
                        ("channels", JObj (notify_results channels))]))
  /\ (existsb is_log channels = false -> notify_results channels = [])
  /\ (existsb is_log channels = true ->
      ToString (optional_prop b "message") = None ->
      run w (fetch request env) = ([], Rejected TypeError)).
Proof.
  intros Hm Hp Hb Hc.
  assert (Hs : Str.startsWith (pathname request) "/notify" = true)
    by (rewrite Hp; reflexivity).
  destruct (notify_outcome request env w b channels Hm Hs Hb Hc) as [H1 H2].
  split; [exact H1 |]. split; [| exact H2].
  intros H. unfold notify_results. rewrite H. reflexivity.
Qed.

(** C6.  With the channels [["log", "unknown-channel"]] the handler logs
    the message once and answers with status 200 and the document
    [{ sent: true, channels: { log: true } }]: the channels object has
    the entry [log] and no entry for the unknown name, which fails
    nothing. *)
Theorem notify_ignores_unknown_channel (request : Request) (env : Env)
        (w : World) (b : JSVal) (text : string) :
  method request = "POST" ->
  pathname request = "/notify" ->
  json_body request = Some b ->
  Get b "channels" = Some (JArr [JStr "log"; JStr "unknown-channel"]) ->
  ToString (optional_prop b "message") = Some text ->
  exists (r : Response) (reported : JSVal),
    run w (fetch request env)
    = ([Called (Console_log ("[NOTIFY] " ++ text)) tt], Returned r)
    /\ status r = 200
    /\ payload r
       = pretty (JObj [("sent", JBool true); ("channels", reported)])
    /\ reported = JObj [("log", JBool true)]
    /\ member reported "log" = Some (JBool true)
    /\ member reported "unknown-channel" = None.
Proof.
  intros Hm Hp Hb Hc Hmsg.
  assert (Hs : Str.startsWith (pathname request) "/notify" = true)
    by (rewrite Hp; reflexivity).
  rewrite (notify_program request env b _ Hm Hs Hb Hc).
  cbn [notify_channels strict_eq_string String.eqb Ascii.eqb Bool.eqb andb].
  unfold spliced. rewrite Hmsg.
  cbn [lift bind perform run set_property].
  destruct (w unit (Console_log ("[NOTIFY] " ++ text))).
  eexists. exists (JObj [("log", JBool true)]).
  split; [reflexivity |]. repeat split.
Qed.

End Notify.

Section PrefixDispatch.
Context {P : Platform}.

(** C10 (as amended).  The entry point tests the prefix as a string, not
    as a path segment.  For the five groups with a route list, a path
    that continues the prefix with a character other than a slash is
    handed to the handler of the group and gets status 404 with the
    document of that group, not the one that lists the prefixes, unless
    the request is a preflight.  A path that continues [/notify] is
    handed to the notify handler, which has no route list and does not
    look at the path: every method but POST gets status 405 and
    [{"error": "POST only"}], and a POST is answered as it is on
    [/notify], with status 200 and [sent: true] for a body with a
    channels list whose message can be logged. *)
Theorem prefix_is_a_string_test (request : Request) (env : Env) :
  method request <> "OPTIONS" ->
  (forall (g : Group) (c : ascii) (rest : string),
      pathname request = group_prefix g ++ String c rest ->
      c <> "/"%char ->
      fetch request env = group_handler g request env (pathname request)
      /\ exists r, fetch request env = Ret r
           /\ status r = 404
           /\ payload r
              = pretty (JObj [("error", JStr (group_error g));
                              ("available",
                               JArr (map JStr (group_routes g)))])
           /\ payload r <> pretty not_found_document)
  /\ (forall rest : string,
        pathname request = "/notify" ++ rest ->
        fetch request env = handleNotify request env (pathname request)
        /\ fetch request env = fetch (at_path request "/notify") env
        /\ (method request <> "POST" ->
            exists r, fetch request env = Ret r
              /\ status r = 405
              /\ payload r = pretty (JObj [("error", JStr "POST only")]))
        /\ (method request = "POST" ->
            forall (w : World) (b : JSVal) (channels : list JSVal),
              json_body request = Some b ->
              Get b "channels" = Some (JArr channels) ->
              (existsb is_log channels = true ->
               ToString (optional_prop b "message") <> None) ->
              exists r, snd (run w (fetch request env)) = Returned r
                /\ status r = 200
                /\ payload r
                   = pretty (JObj [("sent", JBool true);
                                   ("channels",
                                    JObj (notify_results channels))]))).
Proof.
  intros Hm. split.
  - intros g c rest Hp Hc.
    assert (Hs : Str.startsWith (pathname request) (group_prefix g) = true)
      by (rewrite Hp; apply startsWith_app).
    split; [apply dispatch; assumption |].
    exists (scoped_404 g).
    split; [rewrite (dispatch g _ env Hm Hs); apply handler_unrouted;
            rewrite Hp; apply slashless_unrouted; exact Hc |].
    destruct (scoped_404_shape g) as [Hst Hd].
    split; [exact Hst |]. split; [exact Hd |].
    rewrite Hd. intros H. apply (proj2 (group_routes_scoped g)).
    apply pretty_inj. exact H.
  - intros rest Hp.
    assert (Hs : Str.startsWith (pathname request) "/notify" = true)
      by (rewrite Hp; apply startsWith_app).
    split; [apply dispatch_notify; assumption |].
    split.
    { rewrite (dispatch_notify request env Hm Hs).
      rewrite (dispatch_notify (at_path request "/notify") env Hm eq_refl).
      reflexivity. }
    split.
    + intros Hpost. exists post_only. split; [| exact post_only_shape].
      rewrite (dispatch_notify _ env Hm Hs).
      unfold handleNotify. rewrite (eqb_false_of_neq _ _ Hpost). reflexivity.
    + intros Hpost w b channels Hb Hc Hmsg.
      exact (proj1 (notify_outcome request env w b channels Hpost Hs Hb Hc)
               Hmsg).
Qed.

End PrefixDispatch.

Section Agents.
Context {P : Platform}.

Lemma word_is_not_slash (c : ascii) :
  Str.word_or_dash c = true -> Ascii.eqb c "/" = false.
Proof.
  intros H. apply Ascii.eqb_neq. intros ->. vm_compute in H. discriminate H.
Qed.

Lemma split_word (id : string) :
  Str.all_chars Str.word_or_dash id = true -> Str.split "/" id = [id].
Proof.
  induction id as [| c r IH]; simpl; intros H; [reflexivity |].
  apply andb_prop in H. destruct H as [Hc Hr].
  rewrite (word_is_not_slash c Hc), (IH Hr). reflexivity.
Qed.

Lemma agent_program (request : Request) (env : Env) (id : string) :
  method request = "GET" ->
  pathname request = "/agents/" ++ id ->
  id <> "" ->
  Str.all_chars Str.word_or_dash id = true ->
  fetch request env =
  (result <- await (D1_first select_by_id [ArgValue (JStr id)]) ;;
   Ret (if ToBoolean result then json result 200
        else json (JObj [("error", JStr "Agent not found")]) 404)).
Proof.
  intros Hm Hp Hid Hword. unfold fetch. rewrite Hm, Hp.
  destruct id as [| c r]; [contradiction |].
  unfold handleAgents, segment, Str.match_prefix_word. rewrite Hm.
  pose proof (split_word _ Hword) as Hsplit.
  simpl in *. rewrite Hword, Hsplit. reflexivity.
Qed.

(** C7.  With the [agents] table as the record store: [GET /agents/{id}]
    for an id that no row has is answered with status 404 and the
    document [{"error": "Agent not found"}], a response and not a
    rejection; and [GET /agents] on the empty table is answered with
    status 200 and the empty array. *)
Theorem agent_lookup_and_listing (request : Request) (env : Env)
        (s : Surroundings) :
  method request = "GET" ->
  (forall id : string,
      pathname request = "/agents/" ++ id ->
      id <> "" ->
      Str.all_chars Str.word_or_dash id = true ->
      (forall row, In row (agents_table s) -> row_has_id id row = false) ->
      exists r,
        run (world_of s) (fetch request env)
        = ( [Called (D1_first select_by_id [ArgValue (JStr id)])
               (Fulfilled JNull)],
            Returned r )
        /\ status r = 404
        /\ payload r = pretty (JObj [("error", JStr "Agent not found")]))
  /\ (pathname request = "/agents" ->
      agents_table s = [] ->
      exists r,
        run (world_of s) (fetch request env)
        = ( [Called (D1_all select_all [])
               (Fulfilled (JObj [("success", JBool true);
                                 ("results", JArr [])]))],
            Returned r )
        /\ status r = 200
        /\ payload r = pretty (JArr [])).
Proof.
  intros Hm. split.
  - intros id Hp Hid Hword Hrows.
    rewrite (agent_program request env id Hm Hp Hid Hword).
    assert (Hfind : find (row_has_id id) (agents_table s) = None).
    { induction (agents_table s) as [| row rows IH]; simpl; [reflexivity |].
      rewrite (Hrows row (or_introl eq_refl)).
      apply IH. intros r Hr. apply Hrows. right. exact Hr. }
    simpl. unfold d1_first. rewrite Hfind.
    eexists. split; [reflexivity |]. split; reflexivity.
  - intros Hp Hempty. unfold fetch. rewrite Hm, Hp. simpl.
    unfold handleAgents. rewrite Hm. simpl.
    unfold d1_all. rewrite Hempty.
    eexists. split; [reflexivity |]. split; reflexivity.
Qed.

End Agents.

Section Cloudflare.
Context {P : Platform}.


End Cloudflare.

(** ** Invariants of the calls *)

Create HintDb calls.

Lemma AllCalls_bind {A B : Type} (Q : forall X : Type, Eff X -> Prop)
      (p : Prog A) (f : A -> Prog B) :
  AllCalls Q p -> (forall a, AllCalls Q (f a)) -> AllCalls Q (bind p f).
Proof.
  intros Hp Hf. induction p as [a | e | X call k IH]; simpl; auto.
  destruct Hp as [Hcall Hk]. split; auto.
Qed.

Lemma AllCalls_try_catch {A : Type} (Q : forall X : Type, Eff X -> Prop)
      (p : Prog A) (h : Err -> Prog A) :
  AllCalls Q p -> (forall e, AllCalls Q (h e)) -> AllCalls Q (try_catch p h).
Proof.
  intros Hp Hh. induction p as [a | e | X call k IH]; simpl; auto.
  destruct Hp as [Hcall Hk]. split; auto.
Qed.

Lemma AllCalls_events {A : Type} (Q : forall X : Type, Eff X -> Prop)
      (p : Prog A) :
  AllCalls Q p -> forall tr o, Exec p tr o -> Forall (on_calls Q) tr.
Proof.
  induction p as [a | e | X call k IH]; simpl; intros HQ tr o HE.
  - destruct HE as [-> _]. constructor.
  - destruct HE as [-> _]. constructor.
  - destruct HE as (x & tr' & -> & HE). destruct HQ as [Hcall Hk].
    constructor; [exact Hcall | eapply IH; eauto].
Qed.

Lemma AllCalls_lift {A : Type} (Q : forall X : Type, Eff X -> Prop)
      (e : Err) (o : option A) : AllCalls Q (lift e o).
Proof. destruct o; exact I. Qed.

Lemma AllCalls_await (Q : forall X : Type, Eff X -> Prop)
      (call : Eff Completion) : Q _ call -> AllCalls Q (await call).
Proof. intros H. split; [exact H | intros [v | e]; exact I]. Qed.

Lemma AllCalls_perform {X : Type} (Q : forall X : Type, Eff X -> Prop)
      (call : Eff X) : Q _ call -> AllCalls Q (perform call).
Proof. intros H. split; [exact H | intros x; exact I]. Qed.

Lemma AllCalls_Array_map (Q : forall X : Type, Eff X -> Prop) (v : JSVal)
      (f : JSVal -> option JSVal) : AllCalls Q (Array_map v f).
Proof.
  destruct v; try exact I. simpl. destruct (map_option f items); exact I.
Qed.

Lemma AllCalls_map_or_empty (Q : forall X : Type, Eff X -> Prop) (v : JSVal)
      (f : JSVal -> option JSVal) : AllCalls Q (map_or_empty v f).
Proof.
  unfold map_or_empty. destruct (is_nullish v); [exact I |].
  apply AllCalls_bind; [apply AllCalls_Array_map | intros a; exact I].
Qed.

Section CallInvariants.
Context {P : Platform}.

Lemma AllCalls_URLSearchParams (Q : forall X : Type, Eff X -> Prop)
      (record : list (string * JSVal)) : AllCalls Q (URLSearchParams record).
Proof. rewrite URLSearchParams_eq. apply AllCalls_lift. Qed.

Lemma AllCalls_stripe (Q : forall X : Type, Eff X -> Prop) (env : Env)
      (endpoint m : string) (body : option (list (string * JSVal))) :
  (forall form,
      (body = None -> form = None) ->
      Q _ (Fetch ("https://api.stripe.com/v1" ++ endpoint)
             (stripe_init env m form))) ->
  AllCalls Q (stripe env endpoint m body).
Proof.
  intros HQ. destruct body as [record |].
  - rewrite stripe_eq. destruct (form_of record); [| exact I].
    apply AllCalls_await. apply HQ. discriminate.
  - apply AllCalls_await. apply HQ. reflexivity.
Qed.

Lemma AllCalls_prop (Q : forall X : Type, Eff X -> Prop) (v : JSVal)
      (k : string) : AllCalls Q (prop v k).
Proof. apply AllCalls_lift. Qed.

Lemma AllCalls_prop_default (Q : forall X : Type, Eff X -> Prop) (v : JSVal)
      (k : string) (d : JSVal) : AllCalls Q (prop_default v k d).
Proof. rewrite prop_default_eq. destruct (is_nullish v); exact I. Qed.

Lemma AllCalls_request_json (Q : forall X : Type, Eff X -> Prop)
      (request : Request) : AllCalls Q (request_json request).
Proof. apply AllCalls_lift. Qed.

Lemma AllCalls_spliced (Q : forall X : Type, Eff X -> Prop) (v : JSVal) :
  AllCalls Q (spliced v).
Proof. apply AllCalls_lift. Qed.

Lemma AllCalls_btoa_call (Q : forall X : Type, Eff X -> Prop) (v : JSVal) :
  AllCalls Q (btoa_call v).
Proof.
  unfold btoa_call. apply AllCalls_bind; [apply AllCalls_spliced |].
  intros s. apply AllCalls_lift.
Qed.

Lemma AllCalls_minor_units (Q : forall X : Type, Eff X -> Prop) (v : JSVal) :
  AllCalls Q (minor_units v).
Proof.
  unfold minor_units. apply AllCalls_bind; [apply AllCalls_lift |].
  intros p. exact I.
Qed.

Lemma contents_endpoint_eq (org repo filePath : JSVal) :
  contents_endpoint org repo filePath =
  lift TypeError (contents_path org repo filePath).
Proof.
  unfold contents_endpoint, contents_path, spliced.
  destruct (ToString org); [| reflexivity].
  destruct (ToString repo); [| reflexivity].
  destruct (ToString filePath); reflexivity.
Qed.

Lemma contents_path_rooted (org repo filePath : JSVal) (endpoint : string) :
  contents_path org repo filePath = Some endpoint ->
  Str.startsWith endpoint "/" = true.
Proof.
  unfold contents_path.
  destruct (ToString org); [| discriminate].
  destruct (ToString repo); [| discriminate].
  destruct (ToString filePath); [| discriminate].
  intros H. inversion H. reflexivity.
Qed.

Lemma AllCalls_contents {A : Type} (Q : forall X : Type, Eff X -> Prop)
      (org repo filePath : JSVal) (f : string -> Prog A) :
  (forall endpoint,
      Str.startsWith endpoint "/" = true -> AllCalls Q (f endpoint)) ->
  AllCalls Q (bind (contents_endpoint org repo filePath) f).
Proof.
  intros Hf. rewrite contents_endpoint_eq.
  destruct (contents_path org repo filePath) as [endpoint |] eqn:He;
    [| exact I].
  apply Hf. exact (contents_path_rooted _ _ _ _ He).
Qed.

Lemma AllCalls_notify_channels (Q : forall X : Type, Eff X -> Prop)
      (message : JSVal) (channels : list JSVal) :
  (forall line, Q _ (Console_log line)) ->
  forall acc, AllCalls Q (notify_channels message channels acc).
Proof.
  intros HQ. induction channels as [| channel rest IH]; intros acc;
    cbn [notify_channels]; [exact I |].
  destruct (strict_eq_string channel "log"); [| apply IH].
  apply AllCalls_bind; [apply AllCalls_spliced | intros text].
  apply AllCalls_bind; [apply AllCalls_perform, HQ | intros _; apply IH].
Qed.

#[local] Hint Resolve AllCalls_lift AllCalls_Array_map AllCalls_map_or_empty
  AllCalls_URLSearchParams AllCalls_prop AllCalls_prop_default
  AllCalls_request_json AllCalls_spliced AllCalls_btoa_call
  AllCalls_minor_units AllCalls_await AllCalls_perform : calls.
#[local] Hint Resolve AllCalls_contents | 0 : calls.
#[local] Hint Resolve AllCalls_bind AllCalls_try_catch | 2 : calls.
#[local] Hint Extern 0 (AllCalls _ (Ret _)) => exact I : calls.
#[local] Hint Extern 0 (AllCalls _ (Throw _)) => exact I : calls.
#[local] Hint Extern 0 (_ = true) => reflexivity : calls.
#[local] Hint Extern 1 (AllCalls _ (if ?b then _ else _)) => destruct b : calls.
#[local] Hint Extern 0 (on_fetch _ _ _) => exact I : calls.
#[local] Hint Extern 0 (reads_only _ _) => exact I : calls.

(** The requests of the four adapters are pinned. *)
Lemma pinned_request (request : Request) (env : Env) (p : Provider)
      (endpoint : string) (init : RequestInit) :
  Str.startsWith (pathname request) (provider_prefix p) = true ->
  Str.startsWith endpoint "/" = true ->
  init_headers init = provider_headers env p ->
  pinned request env (provider_base env p ++ endpoint) init.
Proof. intros H1 H2 H3. exists p, endpoint. auto. Qed.

Lemma gh_pinned (request : Request) (env : Env) (endpoint : string)
      (options : RequestInit) :
  Str.startsWith (pathname request) "/github" = true ->
  Str.startsWith endpoint "/" = true ->
  init_headers options = [] ->
  AllCalls (on_fetch (pinned request env)) (gh env endpoint options).
Proof.
  intros H1 H2 H3. apply AllCalls_await.
  apply (pinned_request request env SourceControl endpoint); auto.
  unfold gh_init. rewrite H3. reflexivity.
Qed.

Lemma stripe_pinned (request : Request) (env : Env) (endpoint m : string)
      (body : option (list (string * JSVal))) :
  Str.startsWith (pathname request) "/stripe" = true ->
  Str.startsWith endpoint "/" = true ->
  AllCalls (on_fetch (pinned request env)) (stripe env endpoint m body).
Proof.
  intros H1 H2. apply AllCalls_stripe. intros form _.
  apply (pinned_request request env Payments endpoint); auto.
Qed.

Lemma hf_pinned (request : Request) (env : Env) (endpoint : string) :
  Str.startsWith (pathname request) "/hf" = true ->
  Str.startsWith endpoint "/" = true ->
  AllCalls (on_fetch (pinned request env)) (hf env endpoint).
Proof.
  intros H1 H2. apply AllCalls_await.
  apply (pinned_request request env ModelHub endpoint); auto.
Qed.

Lemma cf_pinned (request : Request) (env : Env) (endpoint : string) :
  Str.startsWith (pathname request) "/cf" = true ->
  Str.startsWith endpoint "/" = true ->
  AllCalls (on_fetch (pinned request env)) (cf env endpoint).
Proof.
  intros H1 H2. apply AllCalls_await.
  exact (pinned_request request env Infrastructure endpoint
           {| init_method := None;
              init_headers := provider_headers env Infrastructure;
              init_body := None |} H1 H2 eq_refl).
Qed.

Lemma fetch_pinned (request : Request) (env : Env) :
  AllCalls (on_fetch (pinned request env)) (fetch request env).
Proof.
  unfold fetch.
  destruct (method request =? "OPTIONS"); [exact I |].
  destruct ((pathname request =? "/") || (pathname request =? "/health"));
    [exact I |].
  destruct (Str.startsWith (pathname request) "/github") eqn:Hgithub.
  { unfold handleGitHub, existing_sha.
    repeat match goal with
           | |- AllCalls _ (if ?b then _ else _) => destruct b
           end;
      auto 40 using gh_pinned with calls. }
  destruct (Str.startsWith (pathname request) "/stripe") eqn:Hstripe.
  { unfold handleStripe.
    repeat match goal with
           | |- AllCalls _ (if ?b then _ else _) => destruct b
           end;
      auto 40 using stripe_pinned with calls. }
  destruct (Str.startsWith (pathname request) "/hf") eqn:Hhf.
  { unfold handleHuggingFace.
    repeat match goal with
           | |- AllCalls _ (if ?b then _ else _) => destruct b
           end;
      auto 40 using hf_pinned with calls. }
  destruct (Str.startsWith (pathname request) "/cf") eqn:Hcf.
  { unfold handleCloudflare, cf_listing.
    repeat match goal with
           | |- AllCalls _ (if ?b then _ else _) => destruct b
           end;
      auto 40 using cf_pinned with calls. }
  destruct (Str.startsWith (pathname request) "/agents") eqn:Hagents.
  { unfold handleAgents.
    repeat match goal with
           | |- AllCalls _ (if ?b then _ else _) => destruct b
           end;
      auto 40 with calls. }
  destruct (Str.startsWith (pathname request) "/notify") eqn:Hnotify.
  { unfold handleNotify.
    repeat match goal with
           | |- AllCalls _ (if ?b then _ else _) => destruct b
           end;
      auto 40 using AllCalls_notify_channels with calls. }
  destruct (pathname request =? "/stats"); [| exact I].
  unfold handleStats. auto 40 with calls.
Qed.


(** X1.  Whatever the request and whatever the environment answers, an
    upstream request goes to the provider named by the prefix of the
    inbound path, at an endpoint under the base URL of that provider, and
    carries the headers of that provider alone: no credential is sent to
    another host, and a path under no provider prefix reaches no
    provider. *)
Theorem upstream_requests_are_pinned (request : Request) (env : Env)
        (tr : list Event) (o : Outcome Response)
        (url : string) (init : RequestInit) :
  Exec (fetch request env) tr o ->
  In (url, init) (upstream_calls tr) ->
  pinned request env url init.
Proof.
  intros HE Hin.
  exact (AllCalls_upstream _ _ (fetch_pinned request env) tr o HE url init Hin).
Qed.

Lemma gh_reads (env : Env) (endpoint : string) :
  AllCalls reads_only (gh env endpoint no_options).
Proof. apply AllCalls_await. simpl. auto. Qed.

Lemma stripe_reads (env : Env) (endpoint : string) :
  AllCalls reads_only (stripe env endpoint "GET" None).
Proof.
  apply AllCalls_stripe. intros form Hform. simpl.
  rewrite (Hform eq_refl). auto.
Qed.

Lemma hf_reads (env : Env) (endpoint : string) :
  AllCalls reads_only (hf env endpoint).
Proof. apply AllCalls_await. simpl. auto. Qed.

Lemma cf_reads (env : Env) (endpoint : string) :
  AllCalls reads_only (cf env endpoint).
Proof. apply AllCalls_await. simpl. auto. Qed.

Lemma fetch_reads_only (request : Request) (env : Env) :
  method request <> "POST" -> AllCalls reads_only (fetch request env).
Proof.
  intros Hm. unfold fetch, handleGitHub, handleStripe, handleHuggingFace,
    handleCloudflare, handleAgents, handleNotify, handleStats, cf_listing.
  rewrite (eqb_false_of_neq _ _ Hm), !andb_false_r. cbn [negb].
  repeat match goal with
         | |- AllCalls _ (if ?b then _ else _) => destruct b
         end;
    auto 40 using gh_reads, stripe_reads, hf_reads, cf_reads with calls.
Qed.

(** X2.  A request whose method is not POST changes nothing upstream:
    every upstream request it causes has no body and the method GET, and
    no statement is run against the record store (the two queries
    apart). *)
Theorem only_post_writes (request : Request) (env : Env)
        (tr : list Event) (o : Outcome Response) :
  method request <> "POST" ->
  Exec (fetch request env) tr o ->
  (forall url init,
      In (url, init) (upstream_calls tr) ->
      init_body init = None
      /\ (init_method init = None \/ init_method init = Some "GET"))
  /\ (forall sql args answer, ~ In (Called (D1_run sql args) answer) tr).
Proof.
  intros Hm HE. pose proof (fetch_reads_only request env Hm) as Hall. split.
  - intros url init Hin.
    exact (AllCalls_upstream _ _ Hall tr o HE url init Hin).
  - intros sql args answer Hin.
    pose proof (AllCalls_events _ _ Hall tr o HE) as Hev.
    rewrite Forall_forall in Hev. exact (Hev _ Hin).
Qed.

End CallInvariants.

(** ** The route patterns *)

Lemma strip_prefix_inv (p s rest : string) :
  Str.strip_prefix p s = Some rest -> s = p ++ rest.
Proof.
  revert s. induction p as [| a p IH]; intros s H; simpl in H.
  - inversion H. reflexivity.
  - destruct s as [| b s]; [discriminate |].
    destruct (Ascii.eqb b a) eqn:Hab; [| discriminate].
    apply Ascii.eqb_eq in Hab. subst b. simpl. f_equal. apply IH. exact H.
Qed.

Lemma strip_prefix_app (p rest : string) :
  Str.strip_prefix p (p ++ rest) = Some rest.
Proof.
  induction p as [| a p IH]; simpl; [reflexivity |].
  rewrite Ascii.eqb_refl. exact IH.
Qed.

Lemma split_not_nil (s : string) : Str.split "/" s <> [].
Proof.
  destruct s as [| c r]; simpl; [discriminate |].
  destruct (Ascii.eqb c "/"); [discriminate |].
  destruct (Str.split "/" r); discriminate.
Qed.

(** When the last piece of [p] is empty, what is appended to [p] without
    a slash becomes the last piece. *)
Lemma split_last_piece (p rest : string) (n : nat) :
  Str.all_chars Str.word_or_dash rest = true ->
  nth_error (Str.split "/" p) n = Some "" ->
  List.length (Str.split "/" p) = S n ->
  nth_error (Str.split "/" (p ++ rest)) n = Some rest.
Proof.
  intros Hrest. revert n.
  induction p as [| c p IH]; intros n Hnth Hlen.
  - simpl in *. destruct n; [| discriminate].
    rewrite (split_word _ Hrest). reflexivity.
  - simpl in *. destruct (Ascii.eqb c "/").
    + destruct n as [| n].
      * simpl in Hlen. pose proof (split_not_nil p) as Hne.
        destruct (Str.split "/" p); [contradiction | discriminate].
      * simpl in *. apply IH; [exact Hnth | congruence].
    + pose proof (split_not_nil (p ++ rest)) as Hne.
      destruct (Str.split "/" p) as [| piece pieces];
        [simpl in Hlen; destruct n; discriminate |].
      destruct n as [| n]; [discriminate |].
      simpl in Hnth, Hlen.
      assert (Hn : nth_error (Str.split "/" (p ++ rest)) (S n) = Some rest)
        by (apply IH; [exact Hnth | exact Hlen]).
      destruct (Str.split "/" (p ++ rest)) as [| piece' pieces'];
        [contradiction |].
      exact Hn.
Qed.

(** X13.  On the two routes with a path parameter, the pattern matches
    exactly the paths made of the literal part followed by one or more
    word characters or dashes, and the piece the handler takes out of
    [split('/')] is that parameter, whole: it holds no slash, no query
    and no escape. *)
Theorem path_parameter (literal path : string) (i : nat) :
  In (literal, i) parameter_routes ->
  Str.match_prefix_word literal path = true ->
  exists parameter,
    path = literal ++ parameter
    /\ parameter <> ""
    /\ Str.all_chars Str.word_or_dash parameter = true
    /\ segment path i = parameter.
Proof.
  intros Hin Hmatch. unfold Str.match_prefix_word in Hmatch.
  destruct (Str.strip_prefix literal path) as [rest |] eqn:Hstrip;
    [| discriminate].
  pose proof (strip_prefix_inv _ _ _ Hstrip) as Hpath.
  destruct rest as [| c r]; [discriminate |].
  exists (String c r). split; [exact Hpath |]. split; [discriminate |].
  split; [exact Hmatch |].
  unfold segment. subst path.
  destruct Hin as [H | [H | []]]; inversion H; subst literal i;
    rewrite (split_last_piece _ _ _ Hmatch); reflexivity.
Qed.

Lemma startsWith_both (path p q : string) :
  Str.startsWith path p = true ->
  Str.startsWith path q = true ->
  Str.startsWith p q = true \/ Str.startsWith q p = true.
Proof.
  unfold Str.startsWith. revert p q.
  induction path as [| c path IH]; intros p q Hp Hq.
  - destruct p; [| discriminate]. right. destruct q; reflexivity.
  - destruct p as [| a p]; [right; destruct q; reflexivity |].
    destruct q as [| b q]; [left; reflexivity |].
    simpl in *.
    destruct (ascii_dec a c) as [-> |]; [| discriminate].
    destruct (ascii_dec b c) as [-> |]; [| discriminate].
    destruct (ascii_dec c c) as [_ | Hc]; [| contradiction].
    apply IH; assumption.
Qed.

(** X12.  No path starts with two of the six handler prefixes, and the
    health paths and [/stats] start with none: the handler a path is
    handed to does not depend on the order of the tests. *)
Theorem prefixes_do_not_overlap (path p q : string) :
  In p handler_prefixes ->
  Str.startsWith path p = true ->
  (In q handler_prefixes -> Str.startsWith path q = true -> p = q)
  /\ path <> "/" /\ path <> "/health" /\ path <> "/stats".
Proof.
  intros Hp Hsp. split.
  - intros Hq Hsq.
    destruct (startsWith_both _ _ _ Hsp Hsq) as [H | H];
      simpl in Hp, Hq;
      repeat (destruct Hp as [<- | Hp]; [| try contradiction]);
      repeat (destruct Hq as [<- | Hq]; [| try contradiction]);
      try reflexivity; try discriminate H; contradiction.
  - destruct (startsWith_inv _ _ Hsp) as [rest ->].
    simpl in Hp.
    repeat (destruct Hp as [<- | Hp]; [| try contradiction]);
      repeat split; intros H; discriminate H.
Qed.

(** ** The listing routes *)


Lemma project_null (fields : list (string * string)) (o : JSVal) :
  is_nullish o = true -> fields <> [] -> project o fields = None.
Proof.
  intros Ho Hf. destruct fields as [| [k f] rest]; [contradiction |].
  simpl. destruct o; try discriminate Ho; reflexivity.
Qed.





Section Listings.
Context {P : Platform}.

(** The program of a listing route. *)
Lemma listing_program (request : Request) (env : Env) (l : Listing) :
  method request = "GET" ->
  pathname request = listing_path l ->
  listing_wellformed l ->
  fetch request env = listing_handler l request env (pathname request)
  /\ listing_handler l request env (pathname request) =
     (answer <- await (listing_call env request l) ;;
      list <- lift TypeError (listing_source l answer) ;;
      out <- (if lenient l
              then map_or_empty list (fun o => project o (listing_fields l))
              else Array_map list (fun o => project o (listing_fields l))) ;;
      Ret (json out 200)).
Proof.
  intros Hm Hp Hwf.
  destruct l; simpl in Hp, Hwf;
    unfold fetch, listing_handler, handleGitHub, handleStripe,
      handleHuggingFace, handleCloudflare; rewrite Hm, Hp;
    try (split; reflexivity).
  destruct Hwf as [Hne Hword]. destruct org as [| c r]; [contradiction |].
  unfold Str.match_prefix_word, segment.
  pose proof (split_word _ Hword) as Hsplit.
  simpl in *. rewrite Hword, Hsplit. split; reflexivity.
Qed.


(** X4.  On a listing route an upstream answer that holds no list where
    the route reads one (an error object, for one) is not passed on: the
    handler makes its one request and throws a [TypeError].  The same
    happens when the list holds [null]. *)
Theorem listing_rejects_what_is_no_list (request : Request) (env : Env)
        (w : World) (l : Listing) (answer : JSVal) :
  method request = "GET" ->
  pathname request = listing_path l ->
  listing_wellformed l ->
  w _ (listing_call env request l) = Fulfilled answer ->
  match listing_source l answer with
  | Some (JArr items) => Exists (fun o => is_nullish o = true) items
  | Some v => unlistable l v = true
  | None => True
  end ->
  run w (listing_handler l request env (pathname request)) =
  ( [Called (listing_call env request l) (Fulfilled answer)],
    Rejected TypeError ).
Proof.
  intros Hm Hp Hwf Hw Hbad.
  destruct (listing_program request env l Hm Hp Hwf) as [_ ->].
  unfold await. cbn [bind run]. rewrite Hw. cbn [bind].
  destruct (listing_source l answer) as [v |]; [| reflexivity].
  cbn [lift bind].
  assert (Hmap : forall items,
    Exists (fun o => is_nullish o = true) items ->
    map_option (fun o => project o (listing_fields l)) items = None).
  { induction 1 as [o items Ho | o items _ IH]; simpl.
    - rewrite (project_null _ o Ho) by (destruct l; discriminate).
      reflexivity.
    - rewrite IH. destruct (project o (listing_fields l)); reflexivity. }
  unfold map_or_empty, Array_map.
  destruct v; try (destruct l; simpl in Hbad; try discriminate Hbad; reflexivity).
  rewrite (Hmap _ Hbad). destruct (lenient l); reflexivity.
Qed.

End Listings.

(** ** The write routes of the source-control group *)

Lemma run_await {A : Type} (w : World) (call : Eff Completion) (v : JSVal)
      (f : JSVal -> Prog A) :
  w _ call = Fulfilled v ->
  run w (bind (await call) f) =
  let (tr, o) := run w (f v) in (Called call (Fulfilled v) :: tr, o).
Proof. intros Hw. unfold await. cbn [bind run]. rewrite Hw. reflexivity. Qed.

Section SourceControl.
Context {P : Platform}.

(** A member of the text [JSON.stringify] writes for an object: the first
    property of that name whose value is not [undefined]. *)
Lemma member_JSON_value (props : list (string * JSVal)) (k : string) :
  member (JSON_value (JObj props)) k
  = option_map (fun p => JSON_value (snd p))
      (find (fun p => (fst p =? k) && negb (is_undefined (snd p))) props).
Proof.
  cbn [JSON_value member].
  induction props as [| [k' e] rest IH]; [reflexivity |].
  cbn [find fst snd].
  destruct e; cbn [is_undefined negb];
    rewrite ?andb_false_r, ?andb_true_r;
    try exact IH;
    cbn [find fst snd]; (destruct (k' =? k); [reflexivity | exact IH]).
Qed.

(** X6.  [POST /github/repo] makes one request: a POST to the repos of
    the organization (by default [BlackRoad-OS]) whose JSON body holds
    the name, the description (by default empty), the private flag (by
    default false) and always [auto_init: true].  Whatever object the
    provider answers, an error object too, the response has status 200
    and its document holds [created: true] and the [html_url] and [name]
    of the answer. *)
Theorem repo_creation (request : Request) (env : Env) (w : World)
        (b result : JSVal) (o : string) :
  method request = "POST" ->
  pathname request = "/github/repo" ->
  json_body request = Some b ->
  is_nullish b = false ->
  ToString (field_or b "org" (JStr "BlackRoad-OS")) = Some o ->
  replies w ("https://api.github.com/orgs/" ++ o ++ "/repos") (Some "POST")
    (Fulfilled result) ->
  is_nullish result = false ->
  exists (create : RequestInit) (sent : JsonText) (r : Response)
         (doc : JSVal),
    run w (fetch request env)
    = ( [Called (Fetch ("https://api.github.com/orgs/" ++ o ++ "/repos")
                   create) (Fulfilled result)],
        Returned r )
    /\ init_method create = Some "POST"
    /\ init_body create = Some (BodyJson sent)
    /\ document sent
       = JSON_value
           (JObj [("name", optional_prop b "name");
                  ("description", field_or b "description" (JStr ""));
                  ("private", field_or b "private" (JBool false));
                  ("auto_init", JBool true)])
    /\ member (document sent) "auto_init" = Some (JBool true)
    /\ status r = 200
    /\ payload r = pretty doc
    /\ doc = JSON_value (JObj [("created", JBool true);
                               ("url", optional_prop result "html_url");
                               ("name", optional_prop result "name")])
    /\ member doc "created" = Some (JBool true).
Proof.
  intros Hm Hp Hb Hnull Horg Hw Hres.
  assert (Hprog :
    fetch request env =
    (result <- await (repo_call env b o) ;;
     url <- prop result "html_url" ;;
     rname <- prop result "name" ;;
     Ret (json (JObj [("created", JBool true); ("url", url);
                      ("name", rname)]) 200))).
  { unfold fetch. rewrite Hm, Hp. simpl.
    unfold handleGitHub, request_json. rewrite Hm, Hb. simpl.
    rewrite !prop_default_eq, !prop_eq, Hnull. cbn [bind].
    unfold spliced. rewrite Horg. reflexivity. }
  assert (Hcall : w _ (repo_call env b o) = Fulfilled result)
    by (apply Hw; reflexivity).
  rewrite Hprog, (run_await w _ result _ Hcall), !prop_eq, Hres.
  cbn [bind run]. unfold repo_call.
  eexists.
  exists {| space := 0;
            document :=
              JSON_value
                (JObj [("name", optional_prop b "name");
                       ("description", field_or b "description" (JStr ""));
                       ("private", field_or b "private" (JBool false));
                       ("auto_init", JBool true)]) |}.
  eexists.
  exists (JSON_value (JObj [("created", JBool true);
                            ("url", optional_prop result "html_url");
                            ("name", optional_prop result "name")])).
  split; [reflexivity |].
  split; [reflexivity |].
  split; [reflexivity |].
  split; [reflexivity |].
  split; [cbn [document]; rewrite member_JSON_value; reflexivity |].
  split; [reflexivity |].
  split; [reflexivity |].
  split; [reflexivity |].
  rewrite member_JSON_value. reflexivity.
Qed.

(** The program of the file route on a body it can use. *)
Lemma file_program (request : Request) (env : Env) (endpoint : string)
      (message : JSVal) (encoded : string) :
  method request = "POST" ->
  pathname request = "/github/file" ->
  file_request request = Some (endpoint, message, encoded) ->
  fetch request env =
  (sha <- try_catch (existing <- await (lookup_call env endpoint) ;;
                     prop existing "sha")
            (fun _ => Ret JUndefined) ;;
   result <- await (write_call env endpoint message encoded sha) ;;
   written <- prop result "content" ;;
   Ret (json (JObj [("success", JBool true);
                    ("url", optional_prop written "html_url")]) 200)).
Proof.
  intros Hm Hp Hreq. unfold fetch. rewrite Hm, Hp. simpl.
  unfold handleGitHub, request_json. rewrite Hm. simpl.
  unfold file_request, btoa, contents_path in Hreq.
  destruct (json_body request) as [b |]; [| discriminate].
  destruct (is_nullish b) eqn:Hnull; [discriminate |].
  destruct (ToString (optional_prop b "content")) as [text |] eqn:Htext;
    [| discriminate].
  destruct (btoa_string text) as [enc |] eqn:Henc; [| discriminate].
  destruct (ToString (field_or b "org" (JStr "BlackRoad-OS"))) as [org |]
    eqn:Horg; [| discriminate].
  destruct (ToString (optional_prop b "repo")) as [repo |] eqn:Hrepo;
    [| discriminate].
  destruct (ToString (optional_prop b "path")) as [filePath |] eqn:Hpath;
    [| discriminate].
  inversion Hreq. subst endpoint message encoded. clear Hreq.
  cbn [lift bind]. rewrite !prop_default_eq, !prop_eq, Hnull. cbn [bind].
  unfold btoa_call, existing_sha, contents_endpoint, spliced.
  rewrite Htext, Horg, Hrepo, Hpath. cbn [lift bind]. rewrite Henc.
  reflexivity.
Qed.

(** X7.  On a body it can use, [POST /github/file] answers with status
    200 and a document holding [success: true] and the [html_url] of the
    written content whenever the write request, a PUT, is answered by an
    object, whatever the lookup gave: a lookup that fails does not fail
    the request, the write carries the marker the lookup gave, and the
    answer to the write is not inspected for an error. *)
Theorem file_upsert_response (request : Request) (env : Env) (w : World)
        (endpoint : string) (message : JSVal) (encoded : string)
        (answer : Completion) (result : JSVal) :
  method request = "POST" ->
  pathname request = "/github/file" ->
  file_request request = Some (endpoint, message, encoded) ->
  replies w ("https://api.github.com" ++ endpoint) None answer ->
  replies w ("https://api.github.com" ++ endpoint) (Some "PUT")
    (Fulfilled result) ->
  is_nullish result = false ->
  exists (lookup write : RequestInit) (r : Response) (doc : JSVal),
    run w (fetch request env)
    = ( [ Called (Fetch ("https://api.github.com" ++ endpoint) lookup) answer;
          Called (Fetch ("https://api.github.com" ++ endpoint) write)
            (Fulfilled result) ],
        Returned r )
    /\ init_method write = Some "PUT"
    /\ marker (init_body write)
       = (if is_undefined (precheck_sha answer) then None
          else Some (JSON_value (precheck_sha answer)))
    /\ status r = 200
    /\ payload r = pretty doc
    /\ doc = JSON_value
               (JObj [("success", JBool true);
                      ("url", optional_prop (optional_prop result "content")
                                "html_url")])
    /\ member doc "success" = Some (JBool true).
Proof.
  intros Hm Hp Hreq Hlookup Hwrite Hres.
  rewrite (file_program request env endpoint message encoded Hm Hp Hreq).
  unfold await. cbn [try_catch bind run].
  assert (Hl : w _ (lookup_call env endpoint) = answer)
    by (apply Hlookup; reflexivity).
  assert (Hw : w _ (write_call env endpoint message encoded
                      (precheck_sha answer)) = Fulfilled result)
    by (apply Hwrite; reflexivity).
  rewrite Hl.
  assert (Hsha :
    try_catch
      (existing <- match answer with
                   | Fulfilled v => Ret v
                   | Failed e => Throw e
                   end ;;
       prop existing "sha")
      (fun _ => Ret JUndefined)
    = Ret (precheck_sha answer)).
  { destruct answer as [existing | e]; [| reflexivity].
    cbn [bind]. rewrite prop_eq. destruct existing; reflexivity. }
  rewrite Hsha. cbn [bind run]. rewrite Hw. cbn [bind].
  rewrite !prop_eq, Hres. cbn [bind run].
  unfold lookup_call, write_call.
  eexists. eexists. eexists.
  exists (JSON_value
            (JObj [("success", JBool true);
                   ("url", optional_prop (optional_prop result "content")
                             "html_url")])).
  split; [reflexivity |].
  split; [reflexivity |].
  split; [cbn [gh_init init_body]; apply marker_write_body |].
  split; [reflexivity |].
  split; [reflexivity |].
  split; [reflexivity |].
  rewrite member_JSON_value. reflexivity.
Qed.

End SourceControl.

(** ** The agents routes *)

Section AgentRoutes.
Context {P : Platform}.

(** X8.  Whatever the environment answers, [POST /agents] on a body it
    can use draws one identifier, reads the clock for the birthday when
    the body gives none, reads the clock again for the time of creation,
    and runs one insertion: its values are that identifier, the name,
    the type (by default ["general"]), the capabilities written as JSON
    text (by default [[]]), the birthday of the body or the first time
    read, and the second time read.  When the insertion succeeds the
    response has status 200 and holds [created: true], that same
    identifier and the name; when it fails the handler rejects with the
    error of the store and nothing is reported as created. *)
Theorem agent_creation (request : Request) (env : Env) (b : JSVal)
        (tr : list Event) (o : Outcome Response) :
  method request = "POST" ->
  pathname request = "/agents" ->
  json_body request = Some b ->
  is_nullish b = false ->
  Exec (fetch request env) tr o ->
  exists (id created : string) (born : JSVal) (birthday_reads : list Event)
         (answer : Completion),
    tr = (Called RandomUUID id :: birthday_reads
          ++ [ Called Date_toISOString created;
               Called (D1_run insert_agent (inserted_values b id born created))
                 answer ])%list
    /\ (if ToBoolean (optional_prop b "birthday")
        then birthday_reads = [] /\ born = optional_prop b "birthday"
        else exists t : string,
               birthday_reads = [Called Date_toISOString t] /\ born = JStr t)
    /\ match answer with
       | Fulfilled _ =>
           exists r, o = Returned r
             /\ status r = 200
             /\ payload r
                = pretty (JSON_value
                            (JObj [("created", JBool true); ("id", JStr id);
                                   ("name", optional_prop b "name")]))
       | Failed e => o = Rejected e
       end.
Proof.
  intros Hm Hp Hb Hnull HE.
  unfold fetch in HE. rewrite Hm, Hp in HE. simpl in HE.
  unfold handleAgents, request_json in HE. rewrite Hm, Hb in HE.
  simpl in HE. rewrite !prop_default_eq, !prop_eq, Hnull in HE.
  cbn [bind perform] in HE. simpl in HE.
  destruct HE as (id & tr1 & -> & HE).
  assert (Harg : json_arg (field_or b "capabilities" (JArr []))
                 = ArgText {| space := 0;
                              document :=
                                JSON_value
                                  (field_or b "capabilities" (JArr [])) |}).
  { unfold field_or. destruct (optional_prop b "capabilities"); reflexivity. }
  assert (Hend : forall (born : JSVal) (t : list Event),
    Exec (created_at <- perform Date_toISOString ;;
          await (D1_run insert_agent
                   [ArgValue (JStr id); ArgValue (optional_prop b "name");
                    ArgValue (field_or b "type" (JStr "general"));
                    json_arg (field_or b "capabilities" (JArr []));
                    ArgValue born; ArgValue (JStr created_at)]) ;;
          Ret (json (JObj [("created", JBool true); ("id", JStr id);
                           ("name", optional_prop b "name")]) 200)) t o ->
    exists (created : string) (answer : Completion),
      t = [ Called Date_toISOString created;
            Called (D1_run insert_agent (inserted_values b id born created))
              answer ]
      /\ match answer with
         | Fulfilled _ =>
             exists r, o = Returned r
               /\ status r = 200
               /\ payload r
                  = pretty (JSON_value
                              (JObj [("created", JBool true); ("id", JStr id);
                                     ("name", optional_prop b "name")]))
         | Failed e => o = Rejected e
         end).
  { intros born t H. simpl in H.
    destruct H as (created & t1 & -> & answer & t2 & -> & H).
    exists created, answer. unfold inserted_values. rewrite <- Harg.
    destruct answer as [v | e]; simpl in H; destruct H as [-> ->].
    - split; [reflexivity |]. eexists. split; [reflexivity |].
      split; reflexivity.
    - split; reflexivity. }
  destruct (ToBoolean (optional_prop b "birthday")) eqn:Hbirthday.
  - cbn [bind] in HE.
    destruct (Hend _ _ HE) as (created & answer & -> & Ho).
    exists id, created, (optional_prop b "birthday"), [], answer.
    repeat split; assumption.
  - cbn [bind perform] in HE. simpl in HE.
    destruct HE as (t & tr2 & -> & HE).
    destruct (Hend (JStr t) _ HE) as (created & answer & -> & Ho).
    exists id, created, (JStr t), [Called Date_toISOString t], answer.
    split; [reflexivity |]. split; [exists t; split; reflexivity | exact Ho].
Qed.


End AgentRoutes.

(** ** The routes that pass an upstream value on *)

Section PassThrough.
Context {P : Platform}.


End PassThrough.

(** ** The notify route *)

Section NotifyTrace.
Context {P : Platform}.

Lemma notify_channels_run {A : Type} (w : World) (message : JSVal)
      (text : string) (f : list (string * JSVal) -> Prog A) :
  ToString message = Some text ->
  forall (channels : list JSVal) (acc : list (string * JSVal)),
    run w (bind (notify_channels message channels acc) f) =
    let (tr, o) :=
      run w (f (if existsb is_log channels
                then set_property acc "log" (JBool true)
                else acc)) in
    ((repeat (log_line text) (List.length (filter is_log channels)) ++ tr)%list,
     o).
Proof.
  intros Htext. induction channels as [| channel rest IH]; intros acc.
  - cbn. destruct (run w (f acc)); reflexivity.
  - cbn [notify_channels existsb filter]. fold (is_log channel).
    destruct (is_log channel); cbn [orb].
    + unfold spliced. rewrite Htext. cbn [lift bind perform run].
      rewrite IH.
      destruct (w unit (Console_log ("[NOTIFY] " ++ text))).
      replace (if existsb is_log rest
               then set_property (set_property acc "log" (JBool true))
                      "log" (JBool true)
               else set_property acc "log" (JBool true))
        with (set_property acc "log" (JBool true))
        by (destruct (existsb is_log rest);
            [rewrite set_property_idem |]; reflexivity).
      destruct (run w (f (set_property acc "log" (JBool true)))).
      reflexivity.
    + apply IH.
Qed.

Lemma characters_are_not_log (s : string) :
  filter is_log (map JStr (Str.chars s)) = [].
Proof.
  induction s as [| c r IH]; [reflexivity |].
  cbn [Str.chars map filter]. rewrite IH.
  unfold is_log. cbn [strict_eq_string String.eqb].
  destruct (Ascii.eqb c "l"); reflexivity.
Qed.

(** X10.  [POST /notify] goes through the channels of the body, by
    default the single channel ["log"], writes the log line of the
    message once for every channel that is the string ["log"], and calls
    nothing else; the response has status 200 and reports [sent: true]
    and the channels logged.  A [channels] that is a string is gone
    through character by character, so that it logs nothing and reports
    no channel, the string ["log"] too. *)
Theorem notify_log_lines (request : Request) (env : Env) (w : World)
        (b : JSVal) (channels : list JSVal) (text : string) :
  method request = "POST" ->
  pathname request = "/notify" ->
  json_body request = Some b ->
  is_nullish b = false ->
  iterate (requested_channels b) = Some channels ->
  ToString (optional_prop b "message") = Some text ->
  (exists r,
     run w (fetch request env)
     = ( repeat (Called (Console_log ("[NOTIFY] " ++ text)) tt)
           (List.length (filter is_log channels)),
         Returned r )
     /\ status r = 200
     /\ payload r
        = pretty (JObj [("sent", JBool true);
                        ("channels", JObj (notify_results channels))]))
  /\ (forall s, requested_channels b = JStr s ->
      filter is_log channels = [] /\ notify_results channels = []).
Proof.
  intros Hm Hp Hb Hnull Hiter Htext. split.
  - assert (Hprog :
      fetch request env =
      (results <- notify_channels (optional_prop b "message") channels [] ;;
       Ret (json (JObj [("sent", JBool true);
                        ("channels", JObj results)]) 200))).
    { unfold fetch. rewrite Hm, Hp. simpl.
      unfold handleNotify, request_json. rewrite Hm, Hb. simpl.
      rewrite prop_default_eq, prop_eq, Hnull. cbn [bind].
      fold (requested_channels b). rewrite Hiter. reflexivity. }
    rewrite Hprog, (notify_channels_run w _ text _ Htext). cbn [run].
    rewrite app_nil_r. unfold notify_results, log_line.
    destruct (existsb is_log channels);
      eexists; (split; [reflexivity |]); split; reflexivity.
  - intros s Hs. rewrite Hs in Hiter. inversion Hiter. subst channels.
    pose proof (characters_are_not_log s) as Hnone.
    split; [exact Hnone |].
    unfold notify_results.
    replace (existsb is_log (map JStr (Str.chars s))) with false;
      [reflexivity |].
    symmetry. apply not_true_is_false. intros Hex.
    apply existsb_exists in Hex. destruct Hex as (c & Hin & Hc).
    assert (Hf : In c (filter is_log (map JStr (Str.chars s))))
      by (apply filter_In; split; assumption).
    rewrite Hnone in Hf. exact Hf.
Qed.

End NotifyTrace.

(** ** The product route, call by call *)

Section Saga.
Context {P : Platform}.

Lemma priceData_form (productId currency recurring : JSVal) (u : spec_float)
      (pairs : list (string * string)) :
  form_of (priceData productId u currency recurring) = Some pairs ->
  form_value pairs "product" = ToString productId
  /\ form_value pairs "unit_amount" = Some (Number.toString fraction_digits u)
  /\ form_value pairs "currency" = ToString currency
  /\ form_value pairs "recurring[interval]"
     = (if ToBoolean recurring then ToString recurring else None)
  /\ map fst pairs
     = (["product"; "unit_amount"; "currency"]
        ++ (if ToBoolean recurring then ["recurring[interval]"] else []))%list.
Proof.
  unfold priceData. destruct (ToBoolean recurring); simpl;
    destruct (ToString productId); try discriminate;
    destruct (ToString currency); try discriminate;
    try (destruct (ToString recurring); try discriminate);
    intros H; inversion H; repeat split.
Qed.

Lemma product_price_form (request : Request) (env : Env) :
  method request = "POST" ->
  pathname request = "/stripe/product" ->
  AllCalls (posts_price_form request) (fetch request env).
Proof.
  intros Hm Hp. unfold fetch. rewrite Hm, Hp. simpl.
  unfold handleStripe. rewrite Hm. simpl.
  unfold posts_price_form, request_field, request_field_or, request_json.
  destruct (json_body request) as [b |]; simpl; [| exact I].
  rewrite !prop_default_eq, !prop_eq.
  destruct (is_nullish b); simpl; [exact I |].
  rewrite stripe_eq.
  destruct (form_of _) as [form1 |]; simpl; [| exact I].
  split; [intros H; discriminate H |].
  intros [product | e]; simpl; [| exact I].
  rewrite prop_eq. destruct (is_nullish product); simpl; [exact I |].
  unfold minor_units.
  destruct (ToNumber (optional_prop b "price")) as [p |] eqn:Hn; simpl;
    [| exact I].
  rewrite stripe_eq.
  destruct (form_of (priceData _ _ _ _)) as [form2 |] eqn:Hform; simpl;
    [| exact I].
  split.
  { intros _. split; [reflexivity |]. exists form2.
    destruct (priceData_form _ _ _ _ _ Hform) as (_ & _ & H3 & H4 & H5).
    split; [reflexivity |]. repeat split; assumption. }
  intros [priceObj | e]; simpl; [| exact I].
  rewrite prop_eq. destruct (is_nullish priceObj); simpl; [exact I |].
  rewrite stripe_eq.
  destruct (form_of [_; _]) as [form3 |]; simpl; [| exact I].
  split; [intros H; discriminate H |].
  intros [link | e]; simpl; [| exact I].
  rewrite !prop_eq.
  destruct (is_nullish product), (is_nullish link); exact I.
Qed.

(** X14.  Whatever the environment answers, a request to the prices
    endpoint is a POST of a form that holds the product, the minor-unit
    amount and the currency (by default [usd]), in this order, and after
    them [recurring[interval]] exactly when the [recurring] of the body
    is truthy: an absent, [null], [false], zero or empty [recurring]
    makes a one-off price of three fields. *)
Theorem price_form (request : Request) (env : Env) (tr : list Event)
        (o : Outcome Response) (init : RequestInit) :
  method request = "POST" ->
  pathname request = "/stripe/product" ->
  Exec (fetch request env) tr o ->
  In (prices_url, init) (upstream_calls tr) ->
  init_method init = Some "POST"
  /\ exists pairs,
       init_body init = Some (BodyForm pairs)
       /\ form_value pairs "currency"
          = ToString (request_field_or request "currency" (JStr "usd"))
       /\ form_value pairs "recurring[interval]"
          = (if ToBoolean (request_field request "recurring")
             then ToString (request_field request "recurring")
             else None)
       /\ map fst pairs
          = (["product"; "unit_amount"; "currency"]
             ++ (if ToBoolean (request_field request "recurring")
                 then ["recurring[interval]"] else []))%list
       /\ (In (request_field request "recurring")
             [JUndefined; JNull; JBool false; JStr ""; JNumZ 0] ->
           form_value pairs "recurring[interval]" = None
           /\ List.length pairs = 3).
Proof.
  intros Hm Hp HE Hin.
  destruct (AllCalls_upstream _ _ (product_price_form request env Hm Hp)
              tr o HE prices_url init Hin eq_refl)
    as (Hmethod & pairs & Hbody & Hcur & Hrec & Hkeys).
  split; [exact Hmethod |]. exists pairs.
  repeat (split; [assumption |]).
  intros Hfalsy.
  assert (Hf : ToBoolean (request_field request "recurring") = false).
  { simpl in Hfalsy.
    repeat (destruct Hfalsy as [<- | Hfalsy]; [reflexivity |]).
    contradiction. }
  rewrite Hf in Hrec, Hkeys. split; [exact Hrec |].
  rewrite <- (length_map fst), Hkeys. reflexivity.
Qed.

Lemma form_of_link (priceId : JSVal) (pairs : list (string * string)) :
  form_of [("line_items[0][price]", priceId);
           ("line_items[0][quantity]", JNumZ 1)] = Some pairs ->
  form_value pairs "line_items[0][price]" = ToString priceId
  /\ form_value pairs "line_items[0][quantity]" = Some "1".
Proof.
  cbn [form_of]. destruct (ToString priceId); [| discriminate].
  intros H. inversion H. split; reflexivity.
Qed.

(** X5.  [POST /stripe/product] requests the product, price and
    payment-link endpoints in this order and nothing else, each with the
    method POST and a form, and makes a request only when the one before
    was answered: the form of the price request names the [id] of the
    product just answered and the form of the link request the [id] of
    the price just answered, with quantity 1.  The run stops at the first
    request that fails, without any request that would undo the earlier
    ones, and a response is returned only after all three were
    answered. *)
Theorem saga_order (request : Request) (env : Env) (tr : list Event)
        (o : Outcome Response) :
  method request = "POST" ->
  pathname request = "/stripe/product" ->
  Exec (fetch request env) tr o ->
  exists (inits : list RequestInit) (answers : list Completion),
    tr = exchange ["https://api.stripe.com/v1/products";
                   "https://api.stripe.com/v1/prices";
                   "https://api.stripe.com/v1/payment_links"] inits answers
    /\ List.length inits = List.length answers
    /\ List.length answers <= 3
    /\ Forall posts_form inits
    /\ (forall i, S i < List.length answers ->
        exists v, nth_error answers i = Some (Fulfilled v))
    /\ (forall product init,
        nth_error answers 0 = Some (Fulfilled product) ->
        nth_error inits 1 = Some init ->
        form_field (init_body init) "product"
        = ToString (optional_prop product "id"))
    /\ (forall priceObj init,
        nth_error answers 1 = Some (Fulfilled priceObj) ->
        nth_error inits 2 = Some init ->
        form_field (init_body init) "line_items[0][price]"
        = ToString (optional_prop priceObj "id")
        /\ form_field (init_body init) "line_items[0][quantity]" = Some "1")
    /\ (forall r, o = Returned r ->
        exists link, nth_error answers 2 = Some (Fulfilled link)).
Proof.
  intros Hm Hp HE.
  pose (shape := fun t : list Event =>
    exists (inits : list RequestInit) (answers : list Completion),
      t = exchange ["https://api.stripe.com/v1/products";
                    "https://api.stripe.com/v1/prices";
                    "https://api.stripe.com/v1/payment_links"] inits answers
      /\ List.length inits = List.length answers
      /\ List.length answers <= 3
      /\ Forall posts_form inits
      /\ (forall i, S i < List.length answers ->
          exists v, nth_error answers i = Some (Fulfilled v))
      /\ (forall product init,
          nth_error answers 0 = Some (Fulfilled product) ->
          nth_error inits 1 = Some init ->
          form_field (init_body init) "product"
          = ToString (optional_prop product "id"))
      /\ (forall priceObj init,
          nth_error answers 1 = Some (Fulfilled priceObj) ->
          nth_error inits 2 = Some init ->
          form_field (init_body init) "line_items[0][price]"
          = ToString (optional_prop priceObj "id")
          /\ form_field (init_body init) "line_items[0][quantity]"
             = Some "1")
      /\ (forall r, o = Returned r ->
          exists link, nth_error answers 2 = Some (Fulfilled link))).
  change (shape tr).
  assert (Hposts : forall form,
    posts_form (stripe_init env "POST" (Some (BodyForm form))))
    by (intros form; split; [reflexivity | eexists; reflexivity]).
  unfold fetch in HE. rewrite Hm, Hp in HE. simpl in HE.
  unfold handleStripe in HE. rewrite Hm in HE. simpl in HE.
  unfold request_json in HE.
  (* the handler stops before its first request *)
  assert (Hnone : forall e tr', (tr' = [] /\ o = Rejected e) -> shape tr').
  { intros e tr' [-> Ho]. exists [], [].
    split; [reflexivity |]. split; [reflexivity |]. split; [simpl; lia |].
    split; [constructor |].
    split; [simpl; intros i Hi; lia |].
    split; [intros product init H; discriminate H |].
    split; [intros priceObj init H; discriminate H |].
    intros r Hr. rewrite Ho in Hr. discriminate Hr. }
  destruct (json_body request) as [b |]; simpl in HE;
    [| exact (Hnone _ _ HE)].
  rewrite !prop_default_eq, !prop_eq in HE.
  destruct (is_nullish b); simpl in HE; [exact (Hnone _ _ HE) |].
  rewrite stripe_eq in HE.
  destruct (form_of _) as [form1 |]; simpl in HE; [| exact (Hnone _ _ HE)].
  clear Hnone. destruct HE as (a1 & tr1 & -> & HE).
  (* it stops after the product request *)
  assert (Hone : forall e tr', (tr' = [] /\ o = Rejected e) ->
    shape (Called (Fetch ("https://api.stripe.com/v1" ++ "/products")
                     (stripe_init env "POST" (Some (BodyForm form1)))) a1
           :: tr')).
  { intros e tr' [-> Ho].
    exists [stripe_init env "POST" (Some (BodyForm form1))], [a1].
    split; [reflexivity |]. split; [reflexivity |]. split; [simpl; lia |].
    split; [repeat constructor; apply Hposts |].
    split; [simpl; intros i Hi; lia |].
    split; [intros product init _ H; discriminate H |].
    split; [intros priceObj init H; discriminate H |].
    intros r Hr. rewrite Ho in Hr. discriminate Hr. }
  destruct a1 as [product | e]; simpl in HE; [| exact (Hone _ _ HE)].
  rewrite prop_eq in HE.
  destruct (is_nullish product); simpl in HE; [exact (Hone _ _ HE) |].
  unfold minor_units in HE.
  destruct (ToNumber (optional_prop b "price")) as [p |]; simpl in HE;
    [| exact (Hone _ _ HE)].
  rewrite stripe_eq in HE.
  destruct (form_of (priceData _ _ _ _)) as [form2 |] eqn:Hform2;
    simpl in HE; [| exact (Hone _ _ HE)].
  clear Hone. destruct (priceData_form _ _ _ _ _ Hform2) as (Hproduct & _).
  destruct HE as (a2 & tr2 & -> & HE).
  (* it stops after the price request *)
  assert (Htwo : forall e tr', (tr' = [] /\ o = Rejected e) ->
    shape (Called (Fetch ("https://api.stripe.com/v1" ++ "/products")
                     (stripe_init env "POST" (Some (BodyForm form1))))
             (Fulfilled product)
           :: Called (Fetch ("https://api.stripe.com/v1" ++ "/prices")
                        (stripe_init env "POST" (Some (BodyForm form2)))) a2
           :: tr')).
  { intros e tr' [-> Ho].
    exists [stripe_init env "POST" (Some (BodyForm form1));
            stripe_init env "POST" (Some (BodyForm form2))],
           [Fulfilled product; a2].
    split; [reflexivity |]. split; [reflexivity |]. split; [simpl; lia |].
    split; [repeat constructor; apply Hposts |].
    split; [simpl; intros [| i] Hi; [eexists; reflexivity | lia] |].
    split; [intros product' init H1 H2; inversion H1; inversion H2;
            subst; exact Hproduct |].
    split; [intros priceObj init _ H; discriminate H |].
    intros r Hr. rewrite Ho in Hr. discriminate Hr. }
  destruct a2 as [priceObj | e]; simpl in HE; [| exact (Htwo _ _ HE)].
  rewrite prop_eq in HE.
  destruct (is_nullish priceObj); simpl in HE; [exact (Htwo _ _ HE) |].
  rewrite stripe_eq in HE.
  destruct (form_of [_; _]) as [form3 |] eqn:Hform3; simpl in HE;
    [| exact (Htwo _ _ HE)].
  clear Htwo. destruct HE as (a3 & tr3 & -> & HE).
  (* all three requests were made *)
  assert (Hend : tr3 = [] /\ (forall r, o = Returned r ->
                               exists link, a3 = Fulfilled link)).
  { destruct a3 as [link | e]; simpl in HE.
    - rewrite !prop_eq in HE.
      destruct (is_nullish product), (is_nullish link); simpl in HE;
        destruct HE as [-> Ho]; (split; [reflexivity |]);
        intros r Hr; eauto.
    - destruct HE as [-> Ho]. split; [reflexivity |].
      intros r Hr. rewrite Ho in Hr. discriminate Hr. }
  destruct Hend as [-> Hret].
  exists [stripe_init env "POST" (Some (BodyForm form1));
          stripe_init env "POST" (Some (BodyForm form2));
          stripe_init env "POST" (Some (BodyForm form3))],
         [Fulfilled product; Fulfilled priceObj; a3].
  split; [reflexivity |]. split; [reflexivity |]. split; [simpl; lia |].
  split; [repeat constructor; apply Hposts |].
  split; [simpl; intros [| [| i]] Hi; [eexists; reflexivity ..| lia] |].
  split; [intros product' init H1 H2; inversion H1; inversion H2;
          subst; exact Hproduct |].
  split; [intros priceObj' init H1 H2; inversion H1; inversion H2; subst;
          exact (form_of_link _ _ Hform3) |].
  intros r Hr. destruct (Hret r Hr) as [link ->]. exists link. reflexivity.
Qed.

(** X15.  The product route does not validate the price: whatever the
    environment answers, a price call carries [unit_amount=NaN] when the
    body has no [price], [unit_amount=0] when it is [null], and for a
    string the rounding of what the string converts to. *)
Theorem price_is_not_validated (request : Request) (env : Env)
        (tr : list Event) (o : Outcome Response) (init : RequestInit) :
  method request = "POST" ->
  pathname request = "/stripe/product" ->
  Exec (fetch request env) tr o ->
  In (prices_url, init) (upstream_calls tr) ->
  (request_field request "price" = JUndefined ->
   form_field (init_body init) "unit_amount" = Some "NaN")
  /\ (request_field request "price" = JNull ->
      form_field (init_body init) "unit_amount" = Some "0")
  /\ (forall s, request_field request "price" = JStr s ->
      form_field (init_body init) "unit_amount"
      = Some (Number.toString fraction_digits
                (Number.Math_round
                   (Number.mul (StringToNumber s) (Number.of_Z 100))))).
Proof.
  intros Hm Hp HE Hin.
  destruct (AllCalls_upstream _ _ (product_calls request env Hm Hp)
              tr o HE prices_url init Hin eq_refl) as [_ Hfield].
  rewrite Hfield.
  split; [| split]; [intros -> | intros -> | intros s ->]; reflexivity.
Qed.

End Saga.

(** ** Where the other calls are made *)

Section Confinement.
Context {P : Platform}.

#[local] Hint Resolve AllCalls_lift AllCalls_Array_map AllCalls_map_or_empty
  AllCalls_URLSearchParams AllCalls_prop AllCalls_prop_default
  AllCalls_request_json AllCalls_spliced AllCalls_btoa_call
  AllCalls_minor_units : calls.
#[local] Hint Resolve AllCalls_contents | 0 : calls.
#[local] Hint Resolve AllCalls_bind AllCalls_try_catch | 2 : calls.
#[local] Hint Extern 0 (AllCalls _ (Ret _)) => exact I : calls.
#[local] Hint Extern 0 (AllCalls _ (Throw _)) => exact I : calls.
#[local] Hint Extern 1 (AllCalls _ (if ?b then _ else _)) => destruct b : calls.

Lemma fetch_unconfined (request : Request) (env : Env) (url : string)
      (init : RequestInit) : AllCalls (confined request) (await (Fetch url init)).
Proof. apply AllCalls_await. exact I. Qed.

Lemma gh_confined (request : Request) (env : Env) (endpoint : string)
      (options : RequestInit) :
  AllCalls (confined request) (gh env endpoint options).
Proof. apply AllCalls_await. exact I. Qed.

Lemma stripe_confined (request : Request) (env : Env) (endpoint m : string)
      (body : option (list (string * JSVal))) :
  AllCalls (confined request) (stripe env endpoint m body).
Proof. apply AllCalls_stripe. intros form _. exact I. Qed.

Lemma hf_confined (request : Request) (env : Env) (endpoint : string) :
  AllCalls (confined request) (hf env endpoint).
Proof. apply AllCalls_await. exact I. Qed.

Lemma cf_confined (request : Request) (env : Env) (endpoint : string) :
  AllCalls (confined request) (cf env endpoint).
Proof. apply AllCalls_await. exact I. Qed.

Lemma fetch_confined (request : Request) (env : Env) :
  AllCalls (confined request) (fetch request env).
Proof.
  unfold fetch.
  destruct (method request =? "OPTIONS"); [exact I |].
  destruct ((pathname request =? "/") || (pathname request =? "/health"));
    [exact I |].
  destruct (Str.startsWith (pathname request) "/github").
  { unfold handleGitHub, existing_sha.
    repeat match goal with
           | |- AllCalls _ (if ?b then _ else _) => destruct b
           end;
      auto 40 using gh_confined with calls. }
  destruct (Str.startsWith (pathname request) "/stripe").
  { unfold handleStripe.
    repeat match goal with
           | |- AllCalls _ (if ?b then _ else _) => destruct b
           end;
      auto 40 using stripe_confined with calls. }
  destruct (Str.startsWith (pathname request) "/hf").
  { unfold handleHuggingFace.
    repeat match goal with
           | |- AllCalls _ (if ?b then _ else _) => destruct b
           end;
      auto 40 using hf_confined with calls. }
  destruct (Str.startsWith (pathname request) "/cf").
  { unfold handleCloudflare, cf_listing.
    repeat match goal with
           | |- AllCalls _ (if ?b then _ else _) => destruct b
           end;
      auto 40 using cf_confined with calls. }
  destruct (Str.startsWith (pathname request) "/agents") eqn:Hagents.
  { unfold handleAgents.
    destruct ((pathname request =? "/agents") && (method request =? "GET")).
    { apply AllCalls_bind; [| auto 10 with calls].
      apply AllCalls_await. simpl. auto. }
    destruct ((pathname request =? "/agents") && (method request =? "POST"))
      eqn:Hpost.
    { apply andb_prop in Hpost. destruct Hpost as [_ Hpost].
      apply String.eqb_eq in Hpost.
      repeat (apply AllCalls_bind; [solve [auto 10 with calls] | intros ?]).
      apply AllCalls_bind; [apply AllCalls_perform; simpl; auto | intros ?].
      apply AllCalls_bind.
      { destruct (ToBoolean _); [exact I |].
        apply AllCalls_bind; [apply AllCalls_perform; simpl; auto |].
        intros ?. exact I. }
      intros ?.
      apply AllCalls_bind; [apply AllCalls_perform; simpl; auto | intros ?].
      apply AllCalls_bind; [| intros ?; exact I].
      apply AllCalls_await. simpl. auto. }
    destruct (Str.match_prefix_word "/agents/" (pathname request)
              && (method request =? "GET")); [| exact I].
    apply AllCalls_bind; [| intros ?; exact I].
    apply AllCalls_await. simpl. auto. }
  destruct (Str.startsWith (pathname request) "/notify") eqn:Hnotify.
  { unfold handleNotify.
    destruct (method request =? "POST") eqn:Hpost; [| exact I].
    apply String.eqb_eq in Hpost. cbn [negb].
    repeat (apply AllCalls_bind; [solve [auto 10 with calls] | intros ?]).
    apply AllCalls_bind; [| intros ?; exact I].
    apply AllCalls_notify_channels. intros line. simpl. auto. }
  destruct (pathname request =? "/stats") eqn:Hstats; [| exact I].
  apply String.eqb_eq in Hstats.
  unfold handleStats. apply AllCalls_bind; [| intros ?; exact I].
  apply AllCalls_perform. simpl. auto.
Qed.

(** X16.  Whatever the request and whatever the environment answers, the
    record store is called only under [/agents] and only with one of the
    three statements of the source, the data of the request going in as
    bound values and never into the text of a statement; an identifier
    is drawn only by a POST under [/agents], and a line is logged only by
    a POST under [/notify]. *)
Theorem other_calls_are_confined (request : Request) (env : Env)
        (tr : list Event) (o : Outcome Response) :
  Exec (fetch request env) tr o ->
  (forall sql args answer,
      In (Called (D1_all sql args) answer) tr
      \/ In (Called (D1_first sql args) answer) tr
      \/ In (Called (D1_run sql args) answer) tr ->
      In sql statements
      /\ Str.startsWith (pathname request) "/agents" = true)
  /\ (forall id, In (Called RandomUUID id) tr ->
      Str.startsWith (pathname request) "/agents" = true
      /\ method request = "POST")
  /\ (forall line u, In (Called (Console_log line) u) tr ->
      Str.startsWith (pathname request) "/notify" = true
      /\ method request = "POST").
Proof.
  intros HE.
  pose proof (AllCalls_events _ _ (fetch_confined request env) tr o HE) as Hev.
  rewrite Forall_forall in Hev.
  split; [| split].
  - intros sql args answer [H | [H | H]]; exact (Hev _ H).
  - intros id H. exact (Hev _ H).
  - intros line u H. exact (Hev _ H).
Qed.


Lemma fetch_on_unusable_body (request : Request) (env : Env) :
  method request = "POST" ->
  unusable_body request ->
  AllCalls clock_only (fetch request env).
Proof.
  intros Hm Hbody. unfold fetch, handleGitHub, handleStripe,
    handleHuggingFace, handleCloudflare, handleAgents, handleNotify.
  rewrite Hm.
  replace ("POST" =? "GET") with false by reflexivity.
  replace ("POST" =? "POST") with true by reflexivity.
  replace ("POST" =? "OPTIONS") with false by reflexivity.
  rewrite !andb_false_r. cbn [negb].
  assert (Hparse : forall (A : Type) (f : JSVal -> Prog A),
    f JNull = Throw TypeError ->
    AllCalls clock_only (bind (request_json request) f)).
  { intros A f Hf. unfold request_json.
    destruct Hbody as [-> | ->]; cbn [lift bind]; [exact I |].
    rewrite Hf. exact I. }
  repeat match goal with
         | |- AllCalls _ (if ?b then _ else _) => destruct b
         end;
    try exact I; try (apply Hparse; reflexivity).
  all: unfold handleStats; split; [exact I | intros x; exact I].
Qed.

(** X17.  A POST whose body is no JSON text, or is [null], reaches
    nothing: no upstream request is made, no statement is run, no
    identifier is drawn and no line is logged, on any path (the body is
    read before the first call of every route that reads it). *)
Theorem unusable_body_reaches_nothing (request : Request) (env : Env)
        (tr : list Event) (o : Outcome Response) :
  method request = "POST" ->
  unusable_body request ->
  Exec (fetch request env) tr o ->
  upstream_calls tr = []
  /\ Forall (on_calls clock_only) tr.
Proof.
  intros Hm Hbody HE.
  pose proof (fetch_on_unusable_body request env Hm Hbody) as Hall.
  split; [| exact (AllCalls_events _ _ Hall tr o HE)].
  destruct (upstream_calls tr) as [| [url init] rest] eqn:Hcalls;
    [reflexivity |].
  exfalso.
  refine (AllCalls_upstream _ _ Hall tr o HE url init _).
  rewrite Hcalls. left. reflexivity.
Qed.

End Confinement.

(** ** Examples, with the platform and the bindings fixed *)

Lemma unmatched_route_404_witness :
  method (bodyless "GET" "/github/unknown") <> "OPTIONS"
  /\ exists r,
       fetch (P := example_platform) (bodyless "GET" "/github/unknown")
         example_env = Ret r
       /\ status r = 404
       /\ payload r
          = pretty (JObj [("error", JStr "Unknown GitHub route");
                          ("available",
                           JArr [JStr "/github/orgs";
                                 JStr "/github/repos/:org";
                                 JStr "/github/repo"; JStr "/github/file"])])
       /\ Forall (fun route => Str.startsWith route "/github" = true)
            (group_routes GitHub)
       /\ unknown_route_document GitHub <> not_found_document.
Proof.
  assert (Hm : method (bodyless "GET" "/github/unknown") <> "OPTIONS")
    by (intros H; discriminate H).
  split; [exact Hm |].
  apply (proj1 (proj2 (proj2 (unmatched_route_404 (P := example_platform)
                                (bodyless "GET" "/github/unknown")
                                example_env) Hm)) GitHub);
    reflexivity.
Defined.

(** The other cases on examples: no known prefix, a method that is not
    POST under [/notify], and a preflight. *)
Example unmatched_route_examples :
  (exists r,
     fetch (P := example_platform) (bodyless "GET" "/nowhere") example_env
     = Ret r
     /\ status r = 404 /\ payload r = pretty not_found_document)
  /\ (exists r,
        fetch (P := example_platform) (bodyless "GET" "/notify") example_env
        = Ret r
        /\ status r = 405 /\ payload r = pretty post_only_document)
  /\ (exists r,
        fetch (P := example_platform) (bodyless "OPTIONS" "/nowhere")
          example_env = Ret r
        /\ status r = 200 /\ payload r = None).
Proof.
  split; [| split]; eexists; (split; [reflexivity |]); split; reflexivity.
Qed.

(** C4 fails as stated.  [GET /notify/unknown] is under the prefix of the
    notify group and is no route of it, and the answer is the 405 [POST
    only], which lists no route; [OPTIONS /nowhere] is under no known
    prefix, and the answer is the preflight response, with status 200. *)
Lemma notify_and_preflight_get_no_404 :
  Str.startsWith "/notify/unknown" "/notify" = true
  /\ fetch (P := example_platform) (bodyless "GET" "/notify/unknown")
       example_env
     = Ret post_only
  /\ status post_only = 405
  /\ option_map (fun text => member (document text) "available")
       (payload post_only) = Some None
  /\ known_path "/nowhere" = false
  /\ fetch (P := example_platform) (bodyless "OPTIONS" "/nowhere") example_env
     = Ret preflight
  /\ status preflight = 200.
Proof. repeat split. Qed.

Lemma responses_are_enveloped_witness :
  Exec (fetch (P := example_platform) (bodyless "GET" "/health") example_env)
    [] (Returned (json (JObj [("status", JStr "ok");
                              ("service", JStr "blackroad-command-center");
                              ("version", JStr "1.0.0")]) 200))
  /\ headers (json (JObj [("status", JStr "ok");
                          ("service", JStr "blackroad-command-center");
                          ("version", JStr "1.0.0")]) 200) = json_headers.
Proof.
  assert (HE : Exec (fetch (P := example_platform) (bodyless "GET" "/health")
                       example_env)
                 [] (Returned (json (JObj [("status", JStr "ok");
                              ("service", JStr "blackroad-command-center");
                              ("version", JStr "1.0.0")]) 200)))
    by (simpl; split; reflexivity).
  split; [exact HE |].
  apply (proj2 (responses_are_enveloped (P := example_platform) _ _ _ _ HE)).
  intros H; discriminate H.
Defined.

(** C5 fails as stated.  The response to a preflight request has no body,
    so it is no JSON text, and no [Content-Type] header. *)
Lemma preflight_is_not_json :
  fetch (P := example_platform) (bodyless "OPTIONS" "/health") example_env
  = Ret preflight
  /\ payload preflight = None
  /\ existsb (fun h => fst h =? "Content-Type") (headers preflight) = false.
Proof. repeat split. Qed.

Lemma prefix_is_a_string_test_witness :
  method (bodyless "GET" "/githubextra") <> "OPTIONS"
  /\ fetch (P := example_platform) (bodyless "GET" "/githubextra") example_env
     = group_handler (P := example_platform) GitHub
         (bodyless "GET" "/githubextra") example_env "/githubextra"
  /\ exists r,
       fetch (P := example_platform) (bodyless "GET" "/githubextra")
         example_env = Ret r
       /\ status r = 404
       /\ payload r
          = pretty (JObj [("error", JStr "Unknown GitHub route");
                          ("available",
                           JArr [JStr "/github/orgs";
                                 JStr "/github/repos/:org";
                                 JStr "/github/repo"; JStr "/github/file"])])
       /\ payload r <> pretty not_found_document.
Proof.
  assert (Hm : method (bodyless "GET" "/githubextra") <> "OPTIONS")
    by (intros H; discriminate H).
  split; [exact Hm |].
  apply (proj1 (prefix_is_a_string_test (P := example_platform)
                  (bodyless "GET" "/githubextra") example_env Hm)
           GitHub "e"%char "xtra").
  - reflexivity.
  - intros H; discriminate H.
Defined.

(** C10 fails as stated.  [/notifyextra] continues the prefix [/notify]
    without a slash and is handed to the notify handler, which answers
    405 to a GET and 200 to a POST: neither is a 404 with a route list. *)
Lemma notifyextra_gets_no_route_list :
  fetch (P := example_platform) (bodyless "GET" "/notifyextra") example_env
  = Ret post_only
  /\ status post_only = 405
  /\ option_map (fun text => member (document text) "available")
       (payload post_only) = Some None
  /\ fetch (P := example_platform)
       (with_body "POST" "/notifyextra" (JObj [("message", JStr "hi")]))
       example_env
     = (perform (Console_log "[NOTIFY] hi") ;;
        Ret (json (JObj [("sent", JBool true);
                         ("channels", JObj [("log", JBool true)])]) 200)).
Proof. repeat split. Qed.

Lemma file_upsert_marker_witness :
  match file_request (P := example_platform) file_example with
  | None =>
      fst (run (world_of (github (Some "3b18e5")))
             (fetch (P := example_platform) file_example example_env)) = []
      /\ exists e,
           snd (run (world_of (github (Some "3b18e5")))
                  (fetch (P := example_platform) file_example example_env))
           = Rejected e
  | Some (endpoint, message, encoded) =>
      exists (lookup write : RequestInit) (answer written : Completion),
        fst (run (world_of (github (Some "3b18e5")))
               (fetch (P := example_platform) file_example example_env))
        = [ Called (Fetch ("https://api.github.com" ++ endpoint) lookup)
              answer;
            Called (Fetch ("https://api.github.com" ++ endpoint) write)
              written ]
        /\ init_method lookup = None
        /\ init_body lookup = None
        /\ init_method write = Some "PUT"
        /\ (exists text,
              init_body write = Some (BodyJson text)
              /\ member (document text) "content" = Some (JStr encoded))
        /\ marker (init_body write)
           = (if is_undefined (precheck_sha answer) then None
              else Some (JSON_value (precheck_sha answer)))
        /\ (is_json (precheck_sha answer) = true ->
            marker (init_body write) = Some (precheck_sha answer))
  end.
Proof.
  exact (file_upsert_marker (P := example_platform) file_example example_env
           _ _ eq_refl eq_refl
           (run_Exec (world_of (github (Some "3b18e5")))
              (fetch (P := example_platform) file_example example_env))).
Defined.

(** The two cases on the example: the write request to an existing file
    is a PUT that carries its [sha], the write request to a new file a
    PUT that carries none; the lookup before it is a GET without a
    body. *)
Example file_update_carries_sha :
  map (fun c => (fst c, init_method (snd c), marker (init_body (snd c))))
    (upstream_calls
       (fst (run (world_of (github (Some "3b18e5")))
               (fetch (P := example_platform) file_example example_env))))
  = [ ("https://api.github.com/repos/BlackRoad-OS/docs/contents/a.txt",
       None, None);
      ("https://api.github.com/repos/BlackRoad-OS/docs/contents/a.txt",
       Some "PUT", Some (JStr "3b18e5")) ].
Proof. reflexivity. Qed.

Example file_create_carries_no_sha :
  map (fun c => (init_method (snd c), marker (init_body (snd c))))
    (upstream_calls
       (fst (run (world_of (github None))
               (fetch (P := example_platform) file_example example_env))))
  = [(None, None); (Some "PUT", None)].
Proof. reflexivity. Qed.

(** C1 fails as stated.  A POST to [/github/file] whose content does not
    convert to a string, or that has no JSON body, is rejected before
    any request: the metadata of the file is not fetched. *)
Lemma file_route_without_lookup :
  pathname unencodable_file = "/github/file"
  /\ method unencodable_file = "POST"
  /\ run (world_of (github (Some "3b18e5")))
       (fetch (P := example_platform) unencodable_file example_env)
     = ([], Rejected TypeError)
  /\ run (world_of (github (Some "3b18e5")))
       (fetch (P := example_platform) (bodyless "POST" "/github/file")
          example_env)
     = ([], Rejected SyntaxError).
Proof. repeat split. Qed.

Lemma product_saga_witness :
  exists (create_product create_price create_link : RequestInit)
         (r : Response),
    run (world_of stripe_account)
      (fetch (P := example_platform) pro_plan example_env)
    = ( [ Called (Fetch "https://api.stripe.com/v1/products" create_product)
            (Fulfilled (JObj [("id", JStr "prod_1");
                              ("object", JStr "product");
                              ("name", JStr "Pro Plan")]));
          Called (Fetch "https://api.stripe.com/v1/prices" create_price)
            (Fulfilled (JObj [("id", JStr "price_1");
                              ("object", JStr "price")]));
          Called (Fetch "https://api.stripe.com/v1/payment_links" create_link)
            (Fulfilled (JObj [("id", JStr "plink_1");
                              ("url", JStr "https://buy.stripe.com/test_1")])) ],
        Returned r )
    /\ init_method create_product = Some "POST"
    /\ init_body create_product
       = Some (BodyForm [("name", "Pro Plan"); ("description", "")])
    /\ init_method create_price = Some "POST"
    /\ init_body create_price
       = Some (BodyForm [("product", "prod_1"); ("unit_amount", "2999");
                         ("currency", "usd");
                         ("recurring[interval]", "month")])
    /\ init_method create_link = Some "POST"
    /\ init_body create_link
       = Some (BodyForm [("line_items[0][price]", "price_1");
                         ("line_items[0][quantity]", "1")])
    /\ status r = 200
    /\ payload r
       = pretty (JObj [("product", JObj [("id", JStr "prod_1");
                                         ("name", JStr "Pro Plan")]);
                       ("price", JObj [("id", JStr "price_1");
                                       ("amount", JNum (Number.decimal 2999 2));
                                       ("currency", JStr "usd")]);
                       ("payment_link", JStr "https://buy.stripe.com/test_1")]).
Proof.
  apply (product_saga (P := example_platform) example_env
           (world_of stripe_account)
           (JObj [("id", JStr "prod_1"); ("object", JStr "product");
                  ("name", JStr "Pro Plan")])
           (JObj [("id", JStr "price_1"); ("object", JStr "price")])
           (JObj [("id", JStr "plink_1");
                  ("url", JStr "https://buy.stripe.com/test_1")])
           "prod_1" "Pro Plan" "price_1" "https://buy.stripe.com/test_1");
    try reflexivity; intros init Hinit; reflexivity.
Defined.

Lemma minor_unit_amount_witness :
  In (prices_url,
      form_post example_env
        [("product", "prod_1"); ("unit_amount", "2999");
         ("currency", "usd"); ("recurring[interval]", "month")])
    (upstream_calls
       (fst (run (world_of stripe_account)
               (fetch (P := example_platform) pro_plan example_env))))
  /\ request_field pro_plan "price" = JNum (Number.decimal 2999 2)
  /\ form_field
       (init_body
          (form_post example_env
             [("product", "prod_1"); ("unit_amount", "2999");
              ("currency", "usd"); ("recurring[interval]", "month")]))
       "unit_amount"
     = Some "2999".
Proof.
  assert (Hin :
    In (prices_url,
        form_post example_env
          [("product", "prod_1"); ("unit_amount", "2999");
           ("currency", "usd"); ("recurring[interval]", "month")])
      (upstream_calls
         (fst (run (world_of stripe_account)
                 (fetch (P := example_platform) pro_plan example_env)))))
    by (vm_compute; right; left; reflexivity).
  split; [exact Hin |]. split; [reflexivity |].
  apply (proj1 (proj2 (proj1 (minor_unit_amount (P := example_platform))
                         pro_plan example_env _ _ _ eq_refl eq_refl
                         (run_Exec (world_of stripe_account)
                            (fetch (P := example_platform) pro_plan
                               example_env)) Hin))).
  reflexivity.
Defined.

(** The amounts the price request carries on runs with an exact tie:
    0.125 gives 13 and -0.125 gives -12. *)
Example ties_go_up :
  map (fun price =>
         map (fun c => form_field (init_body (snd c)) "unit_amount")
           (filter (fun c => fst c =? prices_url)
              (upstream_calls
                 (fst (run (world_of stripe_account)
                         (fetch (P := example_platform)
                            (with_body "POST" "/stripe/product"
                               (JObj [("name", JStr "Plan");
                                      ("price", JNum price)]))
                            example_env))))))
    [Number.decimal 125 3; Number.decimal (-125) 3]
  = [[Some "13"]; [Some "-12"]].
Proof. vm_compute. reflexivity. Qed.

Lemma notify_ignores_unknown_channel_witness :
  exists (r : Response) (reported : JSVal),
    run (world_of (registry []))
      (fetch (P := example_platform)
         (notify_example [JStr "log"; JStr "unknown-channel"]) example_env)
    = ([Called (Console_log "[NOTIFY] deploy done") tt], Returned r)
    /\ status r = 200
    /\ payload r
       = pretty (JObj [("sent", JBool true); ("channels", reported)])
    /\ reported = JObj [("log", JBool true)]
    /\ member reported "log" = Some (JBool true)
    /\ member reported "unknown-channel" = None.
Proof.
  apply (notify_ignores_unknown_channel (P := example_platform)
           (notify_example [JStr "log"; JStr "unknown-channel"]) example_env
           (world_of (registry []))
           (JObj [("message", JStr "deploy done");
                  ("channels", JArr [JStr "log"; JStr "unknown-channel"])])
           "deploy done");
    reflexivity.
Defined.

Lemma notify_always_sent_witness :
  exists r,
    snd (run (world_of (registry []))
           (fetch (P := example_platform)
              (notify_example [JStr "slack"; JStr "email"]) example_env))
    = Returned r
    /\ status r = 200
    /\ payload r = pretty (JObj [("sent", JBool true); ("channels", JObj [])]).
Proof.
  apply (proj1 (notify_always_sent (P := example_platform)
                  (notify_example [JStr "slack"; JStr "email"]) example_env
                  (world_of (registry []))
                  (JObj [("message", JStr "deploy done");
                         ("channels", JArr [JStr "slack"; JStr "email"])])
                  [JStr "slack"; JStr "email"]
                  eq_refl eq_refl eq_refl eq_refl)).
  intros H. discriminate H.
Defined.

(** C9 fails as stated.  A POST to [/notify] with the channels list
    [["log"]] and a message that does not convert to a string gets no
    response: the handler throws before it logs anything. *)
Lemma unprintable_message_is_not_sent :
  method unprintable_notification = "POST"
  /\ pathname unprintable_notification = "/notify"
  /\ option_map (fun b => Get b "channels") (json_body unprintable_notification)
     = Some (Some (JArr [JStr "log"]))
  /\ run (world_of (registry []))
       (fetch (P := example_platform) unprintable_notification example_env)
     = ([], Rejected TypeError).
Proof. repeat split. Qed.

Lemma agent_lookup_and_listing_witness :
  exists r,
    run (world_of (registry [atlas]))
      (fetch (P := example_platform) (bodyless "GET" "/agents/hermes-2")
         example_env)
    = ( [Called (D1_first select_by_id [ArgValue (JStr "hermes-2")])
           (Fulfilled JNull)],
        Returned r )
    /\ status r = 404
    /\ payload r = pretty (JObj [("error", JStr "Agent not found")]).
Proof.
  apply (proj1 (agent_lookup_and_listing (P := example_platform)
                  (bodyless "GET" "/agents/hermes-2") example_env
                  (registry [atlas]) eq_refl) "hermes-2").
  - reflexivity.
  - intros H. discriminate H.
  - reflexivity.
  - intros row [<- | []]. reflexivity.
Defined.

(** The listing of the empty table. *)
Example empty_listing :
  map (fun r => (status r, payload r))
    (match snd (run (world_of (registry []))
                  (fetch (P := example_platform) (bodyless "GET" "/agents")
                     example_env)) with
     | Returned r => [r]
     | Rejected _ => []
     end)
  = [(200, pretty (JArr []))].
Proof. reflexivity. Qed.


(** Integral Numbers above [2^53] print as their shortest digits. *)
Example large_integers_print_shortest :
  map (fun z => ToString (P := example_platform) (JNumZ z))
    [2 ^ 53; 2 ^ 53 + 2; 2 ^ 60; 2 ^ 63; - 2 ^ 64; 10 ^ 20]%Z
  = map Some
      [ "9007199254740992"; "9007199254740994"; "1152921504606847000";
        "9223372036854776000"; "-18446744073709552000";
        "100000000000000000000" ].
Proof. vm_compute. reflexivity. Qed.

(** ** Examples of the further properties *)

Lemma upstream_requests_are_pinned_witness :
  pinned file_example example_env
    "https://api.github.com/repos/BlackRoad-OS/docs/contents/a.txt"
    (gh_init example_env no_options).
Proof.
  apply (upstream_requests_are_pinned (P := example_platform)
           file_example example_env _ _ _ _
           (run_Exec (world_of (github (Some "3b18e5")))
              (fetch (P := example_platform) file_example example_env))).
  vm_compute. left. reflexivity.
Defined.

Lemma only_post_writes_witness :
  (forall url init,
      In (url, init)
        (upstream_calls
           (fst (run (world_of (upstream_answering (JArr two_repos)))
                   (fetch (P := example_platform)
                      (bodyless "GET" "/github/orgs") example_env)))) ->
      init_body init = None
      /\ (init_method init = None \/ init_method init = Some "GET"))
  /\ (forall sql args answer,
        ~ In (Called (D1_run sql args) answer)
            (fst (run (world_of (upstream_answering (JArr two_repos)))
                    (fetch (P := example_platform)
                       (bodyless "GET" "/github/orgs") example_env)))).
Proof.
  apply (only_post_writes (P := example_platform)
           (bodyless "GET" "/github/orgs") example_env
           (fst (run (world_of (upstream_answering (JArr two_repos)))
                   (fetch (P := example_platform)
                      (bodyless "GET" "/github/orgs") example_env)))
           (snd (run (world_of (upstream_answering (JArr two_repos)))
                   (fetch (P := example_platform)
                      (bodyless "GET" "/github/orgs") example_env)))).
  - intros H. discriminate H.
  - apply run_Exec.
Defined.


Lemma listing_rejects_what_is_no_list_witness :
  run (world_of (upstream_answering bad_credentials))
    (listing_handler (P := example_platform) Orgs
       (bodyless "GET" "/github/orgs") example_env "/github/orgs")
  = ( [Called (listing_call example_env (bodyless "GET" "/github/orgs") Orgs)
         (Fulfilled bad_credentials)],
      Rejected TypeError ).
Proof.
  apply (listing_rejects_what_is_no_list (P := example_platform)
           (bodyless "GET" "/github/orgs") example_env
           (world_of (upstream_answering bad_credentials)) Orgs bad_credentials);
    solve [reflexivity | exact I].
Defined.

Lemma saga_order_witness :
  exists (inits : list RequestInit) (answers : list Completion),
    fst (run (world_of stripe_account)
           (fetch (P := example_platform) pro_plan example_env))
    = exchange ["https://api.stripe.com/v1/products";
                "https://api.stripe.com/v1/prices";
                "https://api.stripe.com/v1/payment_links"] inits answers
    /\ List.length inits = List.length answers
    /\ List.length answers <= 3
    /\ Forall posts_form inits
    /\ (forall i, S i < List.length answers ->
        exists v, nth_error answers i = Some (Fulfilled v))
    /\ (forall product init,
        nth_error answers 0 = Some (Fulfilled product) ->
        nth_error inits 1 = Some init ->
        form_field (init_body init) "product"
        = ToString (P := example_platform) (optional_prop product "id"))
    /\ (forall priceObj init,
        nth_error answers 1 = Some (Fulfilled priceObj) ->
        nth_error inits 2 = Some init ->
        form_field (init_body init) "line_items[0][price]"
        = ToString (P := example_platform) (optional_prop priceObj "id")
        /\ form_field (init_body init) "line_items[0][quantity]" = Some "1")
    /\ (forall r,
        snd (run (world_of stripe_account)
               (fetch (P := example_platform) pro_plan example_env))
        = Returned r ->
        exists link, nth_error answers 2 = Some (Fulfilled link)).
Proof.
  exact (saga_order (P := example_platform) pro_plan example_env _ _
           eq_refl eq_refl
           (run_Exec (world_of stripe_account)
              (fetch (P := example_platform) pro_plan example_env))).
Defined.

(** The three requests of the scenario, as they are sent. *)
Example saga_requests :
  map (fun c => (fst c, init_method (snd c), init_body (snd c)))
    (upstream_calls
       (fst (run (world_of stripe_account)
               (fetch (P := example_platform) pro_plan example_env))))
  = [ ("https://api.stripe.com/v1/products", Some "POST",
       Some (BodyForm [("name", "Pro Plan"); ("description", "")]));
      ("https://api.stripe.com/v1/prices", Some "POST",
       Some (BodyForm [("product", "prod_1"); ("unit_amount", "2999");
                       ("currency", "usd");
                       ("recurring[interval]", "month")]));
      ("https://api.stripe.com/v1/payment_links", Some "POST",
       Some (BodyForm [("line_items[0][price]", "price_1");
                       ("line_items[0][quantity]", "1")])) ].
Proof. vm_compute. reflexivity. Qed.

Lemma repo_creation_witness :
  exists (create : RequestInit) (sent : JsonText) (r : Response)
         (doc : JSVal),
    run (world_of (upstream_answering bad_credentials))
      (fetch (P := example_platform)
         (with_body "POST" "/github/repo" repo_example) example_env)
    = ( [Called (Fetch "https://api.github.com/orgs/BlackRoad-AI/repos"
                   create) (Fulfilled bad_credentials)],
        Returned r )
    /\ init_method create = Some "POST"
    /\ init_body create = Some (BodyJson sent)
    /\ document sent
       = JObj [("name", JStr "my-new-repo"); ("description", JStr "");
               ("private", JBool false); ("auto_init", JBool true)]
    /\ member (document sent) "auto_init" = Some (JBool true)
    /\ status r = 200
    /\ payload r = pretty doc
    /\ doc = JObj [("created", JBool true)]
    /\ member doc "created" = Some (JBool true).
Proof.
  apply (repo_creation (P := example_platform)
           (with_body "POST" "/github/repo" repo_example) example_env
           (world_of (upstream_answering bad_credentials))
           repo_example bad_credentials "BlackRoad-AI");
    try reflexivity.
  intros init Hinit. reflexivity.
Defined.

Lemma file_upsert_response_witness :
  exists (lookup write : RequestInit) (r : Response) (doc : JSVal),
    run (world_of (github None))
      (fetch (P := example_platform) file_example example_env)
    = ( [ Called (Fetch
                    "https://api.github.com/repos/BlackRoad-OS/docs/contents/a.txt"
                    lookup)
            (Fulfilled (JObj [("message", JStr "Not Found")]));
          Called (Fetch
                    "https://api.github.com/repos/BlackRoad-OS/docs/contents/a.txt"
                    write)
            (Fulfilled
               (JObj [("content",
                       JObj [("html_url", JStr "https://github.com/a")])])) ],
        Returned r )
    /\ init_method write = Some "PUT"
    /\ marker (init_body write) = None
    /\ status r = 200
    /\ payload r = pretty doc
    /\ doc = JObj [("success", JBool true);
                   ("url", JStr "https://github.com/a")]
    /\ member doc "success" = Some (JBool true).
Proof.
  apply (file_upsert_response (P := example_platform) file_example
           example_env (world_of (github None))
           "/repos/BlackRoad-OS/docs/contents/a.txt"
           (JStr "Update via Command Center") "aGVsbG8="
           (Fulfilled (JObj [("message", JStr "Not Found")]))
           (JObj [("content",
                   JObj [("html_url", JStr "https://github.com/a")])]));
    try reflexivity;
    intros init Hinit; simpl; rewrite Hinit; reflexivity.
Defined.

(** [POST /agents] against a clock that advances: the birthday is the
    first time read, the time of creation the second. *)
Lemma agent_creation_witness :
  exists (id created : string) (born : JSVal) (birthday_reads : list Event)
         (answer : Completion),
    fst (play (ticking (registry [])
                 ["2026-01-01T00:00:00.000Z"; "2026-01-01T00:00:00.007Z"]) 0
           (fetch (P := example_platform)
              (with_body "POST" "/agents" agent_example) example_env))
    = (Called RandomUUID id :: birthday_reads
       ++ [ Called Date_toISOString created;
            Called (D1_run insert_agent
                      (inserted_values agent_example id born created))
              answer ])%list
    /\ (exists t : string,
          birthday_reads = [Called Date_toISOString t] /\ born = JStr t)
    /\ match answer with
       | Fulfilled _ =>
           exists r,
             snd (play (ticking (registry [])
                          ["2026-01-01T00:00:00.000Z";
                           "2026-01-01T00:00:00.007Z"]) 0
                    (fetch (P := example_platform)
                       (with_body "POST" "/agents" agent_example)
                       example_env))
             = Returned r
             /\ status r = 200
             /\ payload r
                = pretty (JSON_value
                            (JObj [("created", JBool true); ("id", JStr id);
                                   ("name",
                                    optional_prop agent_example "name")]))
       | Failed e =>
           snd (play (ticking (registry [])
                        ["2026-01-01T00:00:00.000Z";
                         "2026-01-01T00:00:00.007Z"]) 0
                  (fetch (P := example_platform)
                     (with_body "POST" "/agents" agent_example) example_env))
           = Rejected e
       end.
Proof.
  exact (agent_creation (P := example_platform)
           (with_body "POST" "/agents" agent_example) example_env
           agent_example _ _ eq_refl eq_refl eq_refl eq_refl
           (play_Exec (ticking (registry [])
                         ["2026-01-01T00:00:00.000Z";
                          "2026-01-01T00:00:00.007Z"])
              (fetch (P := example_platform)
                 (with_body "POST" "/agents" agent_example) example_env) 0)).
Defined.

(** The run of the example, call by call. *)
Example agent_creation_run :
  play (ticking (registry [])
          ["2026-01-01T00:00:00.000Z"; "2026-01-01T00:00:00.007Z"]) 0
    (fetch (P := example_platform)
       (with_body "POST" "/agents" agent_example) example_env)
  = ( [ Called RandomUUID "00000000-0000-4000-8000-000000000000";
        Called Date_toISOString "2026-01-01T00:00:00.000Z";
        Called Date_toISOString "2026-01-01T00:00:00.007Z";
        Called (D1_run insert_agent
                  [ ArgValue (JStr "00000000-0000-4000-8000-000000000000");
                    ArgValue (JStr "Atlas");
                    ArgValue (JStr "researcher");
                    ArgText {| space := 0;
                               document := JArr [JStr "search";
                                                 JStr "analyze"] |};
                    ArgValue (JStr "2026-01-01T00:00:00.000Z");
                    ArgValue (JStr "2026-01-01T00:00:00.007Z") ])
          (Fulfilled (JObj [("success", JBool true)])) ],
      Returned
        {| status := 200;
           headers := json_headers;
           payload :=
             pretty (JObj [("created", JBool true);
                           ("id", JStr "00000000-0000-4000-8000-000000000000");
                           ("name", JStr "Atlas")]) |} ).
Proof. reflexivity. Qed.


Lemma notify_log_lines_witness :
  exists r,
    run (world_of (registry []))
      (fetch (P := example_platform)
         (notify_example [JStr "log"; JStr "email"; JStr "log"]) example_env)
    = ( [ Called (Console_log "[NOTIFY] deploy done") tt;
          Called (Console_log "[NOTIFY] deploy done") tt ],
        Returned r )
    /\ status r = 200
    /\ payload r
       = pretty (JObj [("sent", JBool true);
                       ("channels", JObj [("log", JBool true)])]).
Proof.
  apply (proj1 (notify_log_lines (P := example_platform)
                  (notify_example [JStr "log"; JStr "email"; JStr "log"])
                  example_env (world_of (registry []))
                  (JObj [("message", JStr "deploy done");
                         ("channels",
                          JArr [JStr "log"; JStr "email"; JStr "log"])])
                  [JStr "log"; JStr "email"; JStr "log"] "deploy done"
                  eq_refl eq_refl eq_refl eq_refl eq_refl eq_refl)).
Defined.

(** A [channels] that is the string ["log"] logs nothing, and a message
    that is a Number above [2^53] is logged as its shortest digits. *)
Example notify_string_channels :
  map (fun r => (status r, payload r))
    (match snd (run (world_of (registry []))
                  (fetch (P := example_platform)
                     (with_body "POST" "/notify"
                        (JObj [("message", JStr "deploy done");
                               ("channels", JStr "log")]))
                     example_env)) with
     | Returned r => [r]
     | Rejected _ => []
     end)
  = [(200, pretty (JObj [("sent", JBool true); ("channels", JObj [])]))]
  /\ fst (run (world_of (registry []))
            (fetch (P := example_platform)
               (with_body "POST" "/notify"
                  (JObj [("message", JStr "deploy done");
                         ("channels", JStr "log")]))
               example_env)) = []
  /\ fst (run (world_of (registry []))
            (fetch (P := example_platform)
               (with_body "POST" "/notify"
                  (JObj [("message", JNumZ (2 ^ 60))]))
               example_env))
     = [Called (Console_log "[NOTIFY] 1152921504606847000") tt].
Proof. repeat split; vm_compute; reflexivity. Qed.


Lemma prefixes_do_not_overlap_witness :
  (In "/github" handler_prefixes ->
   Str.startsWith "/github/orgs" "/github" = true -> "/github" = "/github")
  /\ "/github/orgs" <> "/" /\ "/github/orgs" <> "/health"
  /\ "/github/orgs" <> "/stats".
Proof.
  apply (prefixes_do_not_overlap "/github/orgs" "/github" "/github").
  - left. reflexivity.
  - reflexivity.
Defined.

Lemma path_parameter_witness :
  exists parameter,
    "/agents/atlas-1" = "/agents/" ++ parameter
    /\ parameter <> ""
    /\ Str.all_chars Str.word_or_dash parameter = true
    /\ segment "/agents/atlas-1" 2 = parameter.
Proof.
  apply (path_parameter "/agents/" "/agents/atlas-1" 2).
  - right. left. reflexivity.
  - reflexivity.
Defined.

Lemma price_form_witness :
  In (prices_url,
      form_post example_env
        [("product", "prod_1"); ("unit_amount", "NaN"); ("currency", "usd")])
    (upstream_calls
       (fst (run (world_of stripe_account)
               (fetch (P := example_platform) unpriced example_env))))
  /\ init_method
       (form_post example_env
          [("product", "prod_1"); ("unit_amount", "NaN"); ("currency", "usd")])
     = Some "POST"
  /\ exists pairs,
       init_body
         (form_post example_env
            [("product", "prod_1"); ("unit_amount", "NaN");
             ("currency", "usd")])
       = Some (BodyForm pairs)
       /\ form_value pairs "currency" = Some "usd"
       /\ form_value pairs "recurring[interval]" = None
       /\ map fst pairs = ["product"; "unit_amount"; "currency"]
       /\ (In (request_field unpriced "recurring")
             [JUndefined; JNull; JBool false; JStr ""; JNumZ 0] ->
           form_value pairs "recurring[interval]" = None
           /\ List.length pairs = 3).
Proof.
  assert (Hin :
    In (prices_url,
        form_post example_env
          [("product", "prod_1"); ("unit_amount", "NaN"); ("currency", "usd")])
      (upstream_calls
         (fst (run (world_of stripe_account)
                 (fetch (P := example_platform) unpriced example_env)))))
    by (vm_compute; right; left; reflexivity).
  split; [exact Hin |].
  exact (price_form (P := example_platform) unpriced example_env _ _ _
           eq_refl eq_refl
           (run_Exec (world_of stripe_account)
              (fetch (P := example_platform) unpriced example_env))
           Hin).
Defined.

Lemma price_is_not_validated_witness :
  form_field
    (init_body (form_post example_env
                  [("product", "prod_1"); ("unit_amount", "NaN");
                   ("currency", "usd")]))
    "unit_amount" = Some "NaN".
Proof.
  assert (Hin :
    In (prices_url,
        form_post example_env
          [("product", "prod_1"); ("unit_amount", "NaN"); ("currency", "usd")])
      (upstream_calls
         (fst (run (world_of stripe_account)
                 (fetch (P := example_platform) unpriced example_env)))))
    by (vm_compute; right; left; reflexivity).
  apply (proj1 (price_is_not_validated (P := example_platform) unpriced
                  example_env _ _ _ eq_refl eq_refl
                  (run_Exec (world_of stripe_account)
                     (fetch (P := example_platform) unpriced example_env))
                  Hin)).
  reflexivity.
Defined.

Lemma other_calls_are_confined_witness :
  In (Called RandomUUID "00000000-0000-4000-8000-000000000000")
    (fst (run (world_of (registry []))
            (fetch (P := example_platform)
               (with_body "POST" "/agents" agent_example) example_env)))
  /\ Str.startsWith
       (pathname (with_body "POST" "/agents" agent_example)) "/agents" = true
  /\ method (with_body "POST" "/agents" agent_example) = "POST".
Proof.
  assert (Hin :
    In (Called RandomUUID "00000000-0000-4000-8000-000000000000")
      (fst (run (world_of (registry []))
              (fetch (P := example_platform)
                 (with_body "POST" "/agents" agent_example) example_env))))
    by (vm_compute; left; reflexivity).
  split; [exact Hin |].
  exact (proj1 (proj2 (other_calls_are_confined (P := example_platform)
                         (with_body "POST" "/agents" agent_example)
                         example_env _ _
                         (run_Exec (world_of (registry []))
                            (fetch (P := example_platform)
                               (with_body "POST" "/agents" agent_example)
                               example_env)))) _ Hin).
Defined.

Lemma unusable_body_reaches_nothing_witness :
  upstream_calls
    (fst (run (world_of stripe_account)
            (fetch (P := example_platform)
               (bodyless "POST" "/stripe/product") example_env))) = []
  /\ Forall (on_calls clock_only)
       (fst (run (world_of stripe_account)
               (fetch (P := example_platform)
                  (bodyless "POST" "/stripe/product") example_env))).
Proof.
  apply (unusable_body_reaches_nothing (P := example_platform)
           (bodyless "POST" "/stripe/product") example_env
           (fst (run (world_of stripe_account)
                   (fetch (P := example_platform)
                      (bodyless "POST" "/stripe/product") example_env)))
           (snd (run (world_of stripe_account)
                   (fetch (P := example_platform)
                      (bodyless "POST" "/stripe/product") example_env)))
           eq_refl).
  - left. reflexivity.
  - apply run_Exec.
Defined.
